(** * pyspeckit.spectrum.units: unit tables, Doppler converters and the
      spectroscopic axis, embedded from [src/pyspeckit/spectrum/units.py].

    Axis samples are IEEE binary64 numbers, as Python's [float] and numpy's
    [float64] are: they are modelled by Rocq's primitive floats, so that every
    arithmetic expression of the source evaluates here bit for bit.
    Dictionaries are [gmap]s keyed by strings, objects that the source mutates
    in place live in a store of axes addressed by references, and the three
    effects of the source (mutation, [print], exceptions) are threaded through
    a small state/output/exception monad. *)

From Stdlib Require Import ZArith Floats String Ascii List Bool Lia.
From stdpp Require Import base option list gmap strings.

#[local] Set Warnings "-inexact-float".

Local Open Scope string_scope.
Local Open Scope list_scope.

(** ** Python outcomes: a value or a raised exception *)

(** The exceptions that the modelled code can raise. [DanglingReference] is
    not one of Python's: it is what a reference that names no object of the
    store gives, which no Python list can hold. *)
Inductive exn : Type :=
| KeyError
| AttributeError
| IndexError
| ZeroDivisionError
| OverflowError
| ValueError (msg : string)
| DanglingReference.

Inductive outcome (A : Type) : Type :=
| Ret (a : A)
| Raise (e : exn).
Arguments Ret {A} a.
Arguments Raise {A} e.

(** A computation over a mutable store [S]: it may update the store, append
    lines to the standard output, and either return or raise. *)
Definition M (S A : Type) : Type := S -> list string -> outcome A * S * list string.

Definition ret {S A} (a : A) : M S A := fun s out => (Ret a, s, out).

Definition raise {S A} (e : exn) : M S A := fun s out => (Raise e, s, out).

Definition bind {S A B} (m : M S A) (k : A -> M S B) : M S B :=
  fun s out =>
    match m s out with
    | (Ret a, s', out') => k a s' out'
    | (Raise e, s', out') => (Raise e, s', out')
    end.

Definition print {S} (line : string) : M S unit :=
  fun s out => (Ret tt, s, out ++ [line]).

Definition get {S} : M S S := fun s out => (Ret s, s, out).

Definition modify {S} (f : S -> S) : M S unit := fun s out => (Ret tt, f s, out).

(** [try: body / except: pass]: whatever [body] raised is dropped; what it
    already wrote to the store and to the output stays. *)
Definition try_except_pass {S} (body : M S unit) : M S unit :=
  fun s out =>
    match body s out with
    | (Ret _, s', out') => (Ret tt, s', out')
    | (Raise _, s', out') => (Ret tt, s', out')
    end.

(** The outcome of an expression that touches neither the store nor the
    output, as a computation. *)
Definition of_outcome {S A} (o : outcome A) : M S A :=
  match o with Ret a => ret a | Raise e => raise e end.

Notation "'let!' x := m 'in' k" := (bind m (fun x => k))
  (at level 10, x name, m at level 100, k at level 200, only parsing).
Notation "'do!' m 'in' k" := (bind m (fun _ => k))
  (at level 10, m at level 100, k at level 200, only parsing).

Definition when {S} (b : bool) (m : M S unit) : M S unit :=
  if b then m else ret tt.

(** ** Strings: [str.lower], the [in] operator, [%s] *)

Definition lower_ascii (c : ascii) : ascii :=
  let n := nat_of_ascii c in
  if (65 <=? n)%nat && (n <=? 90)%nat then ascii_of_nat (n + 32) else c.

Fixpoint lower (s : string) : string :=
  match s with
  | EmptyString => EmptyString
  | String c s' => String (lower_ascii c) (lower s')
  end.

(** [needle in hay] on two strings. *)
Fixpoint str_in (needle hay : string) : bool :=
  String.prefix needle hay ||
  match hay with
  | EmptyString => false
  | String _ hay' => str_in needle hay'
  end.

(** A name that is either [None] or a [str]. *)
Definition name : Type := option string.

Definition dquote : string := String (ascii_of_nat 34) EmptyString.

(** ["%s" % x] for such a name. *)
Definition pct_s (x : name) : string :=
  match x with Some s => s | None => "None" end.

(** [a == b] and [a != b] on names. *)
Definition name_eqb (a b : name) : bool := bool_decide (a = b).
Definition name_neb (a b : name) : bool := negb (name_eqb a b).

(** ** The unit tables *)

(** [CaseInsensitiveDict(inputdict)]: every key is stored lower-cased;
    [__getitem__] and [__contains__] lower-case the key they are given, which
    is an [AttributeError] on [None]. *)
Definition CaseInsensitiveDict {V} (items : list (string * V)) : gmap string V :=
  list_to_map (prod_map lower id <$> items).

Definition ci_contains {S V} (d : gmap string V) (key : name) : M S bool :=
  match key with
  | None => raise AttributeError
  | Some k => ret (bool_decide (is_Some (d !! lower k)))
  end.

Definition ci_getitem {S V} (d : gmap string V) (key : name) : M S V :=
  match key with
  | None => raise AttributeError
  | Some k => match d !! lower k with
              | Some v => ret v
              | None => raise KeyError
              end
  end.

Definition length_dict : gmap string float :=
  CaseInsensitiveDict
    [("meters", 1.0%float); ("m", 1.0%float);
     ("centimeters", 1e-2%float); ("cm", 1e-2%float);
     ("millimeters", 1e-3%float); ("mm", 1e-3%float);
     ("nanometers", 1e-9%float); ("nm", 1e-9%float);
     ("micrometers", 1e-6%float); ("micron", 1e-6%float);
     ("microns", 1e-6%float); ("um", 1e-6%float);
     ("kilometers", 1e3%float); ("km", 1e3%float);
     ("angstroms", 1e-10%float); ("A", 1e-10%float)].

Definition wavelength_dict : gmap string float := length_dict.

Definition frequency_dict : gmap string float :=
  CaseInsensitiveDict
    [("Hz", 1.0%float); ("kHz", 1e3%float); ("MHz", 1e6%float);
     ("GHz", 1e9%float); ("THz", 1e12%float)].

Definition velocity_dict : gmap string float :=
  CaseInsensitiveDict
    [("meters/second", 1.0%float); ("m/s", 1.0%float);
     ("kilometers/s", 1e3%float); ("km/s", 1e3%float); ("kms", 1e3%float);
     ("centimeters/s", 1e-2%float); ("cm/s", 1e-2%float); ("cms", 1e-2%float)].

(** [conversion_dict] maps a quantity name to one of the three table
    objects; the source compares these objects with [is], so the value kept
    here is the identity of the table. *)
Inductive table : Type := velocity_table | length_table | frequency_table.

Definition table_eqb (a b : table) : bool :=
  match a, b with
  | velocity_table, velocity_table
  | length_table, length_table
  | frequency_table, frequency_table => true
  | _, _ => false
  end.

Definition table_dict (t : table) : gmap string float :=
  match t with
  | velocity_table => velocity_dict
  | length_table => length_dict
  | frequency_table => frequency_dict
  end.

Definition conversion_dict : gmap string table :=
  CaseInsensitiveDict
    [("VELOCITY", velocity_table); ("Velocity", velocity_table);
     ("velocity", velocity_table); ("velo", velocity_table);
     ("VELO", velocity_table);
     ("LENGTH", length_table); ("Length", length_table);
     ("length", length_table);
     ("FREQUENCY", frequency_table); ("Frequency", frequency_table);
     ("frequency", frequency_table); ("freq", frequency_table);
     ("FREQ", frequency_table)].

(** [unit_type_dict] is a plain dictionary: its keys are case sensitive, and
    [None] is one of them (mapped to [None]). *)
Definition unit_type_dict_str : gmap string string :=
  list_to_map
    [("Hz", "frequency"); ("kHz", "frequency"); ("MHz", "frequency");
     ("GHz", "frequency");
     ("HZ", "frequency"); ("KHZ", "frequency"); ("MHZ", "frequency");
     ("GHZ", "frequency");
     ("hz", "frequency"); ("khz", "frequency"); ("mhz", "frequency");
     ("ghz", "frequency");
     ("THz", "frequency");
     ("meters/second", "velocity"); ("m/s", "velocity");
     ("kilometers/s", "velocity");
     ("km/s", "velocity"); ("kms", "velocity"); ("centimeters/s", "velocity");
     ("cm/s", "velocity"); ("cms", "velocity");
     ("meters", "length"); ("m", "length");
     ("centimeters", "length"); ("cm", "length");
     ("millimeters", "length"); ("mm", "length");
     ("nanometers", "length"); ("nm", "length");
     ("micrometers", "length"); ("micron", "length"); ("microns", "length");
     ("um", "length");
     ("kilometers", "length"); ("km", "length");
     ("angstroms", "length"); ("A", "length")].

(** [unit_type_dict.get]-style lookup: [None] when the key is absent,
    [Some v] with [v] the stored value (itself [None] for the key [None]). *)
Definition unit_type_dict (key : name) : option name :=
  match key with
  | None => Some None
  | Some k => Some <$> (unit_type_dict_str !! k)
  end.

Definition xtype_dict : gmap string string :=
  list_to_map
    [("VLSR", "velocity"); ("VRAD", "velocity"); ("VELO", "velocity");
     ("VOPT", "velocity");
     ("VHEL", "velocity");
     ("VGEO", "velocity");
     ("VREST", "velocity");
     ("velocity", "velocity");
     ("Z", "redshift");
     ("FREQ", "frequency");
     ("frequency", "frequency");
     ("WAV", "length");
     ("WAVE", "length");
     ("wavelength", "length")].

Definition frame_dict : gmap string string :=
  list_to_map
    [("VLSR", "LSRK"); ("VRAD", "LSRK"); ("VELO", "LSRK");
     ("VOPT", "LSRK");
     ("LSRD", "LSRD");
     ("VHEL", "heliocentric");
     ("VGEO", "geocentric");
     ("velocity", "LSRK");
     ("VREST", "rest");
     ("Z", "rest");
     ("FREQ", "rest");
     ("frequency", "rest");
     ("WAV", "rest");
     ("WAVE", "rest");
     ("wavelength", "rest")].

Definition convention_suffix : gmap string string :=
  list_to_map
    [("radio", "RAD"); ("optical", "OPT"); ("relativistic", "REL");
     ("redshift", "RED")].

Definition speedoflight_ms : float := 2.99792458e8%float.

(** ** Numbers: Python floats and numpy arrays of float64

    The converters are written once and applied to a Python scalar or to a
    numpy array alike. The two differ where IEEE arithmetic has an exceptional
    result: on Python floats a division by zero raises [ZeroDivisionError],
    [**] raises on overflow and on a negative base with a fractional exponent;
    numpy arrays return [inf] or [nan] instead. *)

Inductive value : Type :=
| Scalar (x : float)
| Array (xs : list float).

Inductive arith : Type := py_float | np_float64.

Definition obind {A B} (m : outcome A) (k : A -> outcome B) : outcome B :=
  match m with Ret a => k a | Raise e => Raise e end.

Notation "'let?' x := m 'in' k" := (obind m (fun x => k))
  (at level 10, x name, m at level 100, k at level 200, only parsing).

Fixpoint omap (f : float -> outcome float) (xs : list float) : outcome (list float) :=
  match xs with
  | [] => Ret []
  | x :: xs' => let? y := f x in let? ys := omap f xs' in Ret (y :: ys)
  end.

Definition nan : float := (0 / 0)%float.

(** [x / y] *)
Definition fdiv (a : arith) (x y : float) : outcome float :=
  match a with
  | py_float => if (y =? 0)%float then Raise ZeroDivisionError else Ret (x / y)%float
  | np_float64 => Ret (x / y)%float
  end.

(** [x ** 2]: numpy squares; a Python float goes through the C library's
    [pow], taken here to be correctly rounded at this exponent, and raises
    [OverflowError] when a finite base overflows. *)
Definition fpow2 (a : arith) (x : float) : outcome float :=
  let r := (x * x)%float in
  match a with
  | py_float =>
      if PrimFloat.is_finite x && PrimFloat.is_infinity r
      then Raise OverflowError else Ret r
  | np_float64 => Ret r
  end.

(** [x ** 0.5]: numpy takes the square root ([nan] on a negative base). A
    Python 2 float goes through [float_pow], which settles the special cases
    before it calls [pow]: an infinity of either sign gives [+inf], a zero
    of either sign gives [+0.0], a negative finite base raises [ValueError];
    a [nan] stays a [nan]. *)
Definition fpow_half (a : arith) (x : float) : outcome float :=
  match a with
  | py_float =>
      if PrimFloat.is_infinity x then Ret infinity
      else if (x <? 0)%float
      then Raise (ValueError "negative number cannot be raised to a fractional power")
      else if (x =? 0)%float then Ret 0%float
      else Ret (PrimFloat.sqrt x)
  | np_float64 => Ret (PrimFloat.sqrt x)
  end.

(** One arithmetic expression applied to a scalar, or to every element of
    an array. *)
Definition elementwise (f : arith -> float -> outcome float) (v : value)
  : outcome value :=
  match v with
  | Scalar x => let? y := f py_float x in Ret (Scalar y)
  | Array xs => let? ys := omap (f np_float64) xs in Ret (Array ys)
  end.

(** Multiplication by a Python float, which raises on neither side. *)
Definition vscale (v : value) (k : float) : value :=
  match v with
  | Scalar x => Scalar (x * k)%float
  | Array xs => Array ((fun x => x * k)%float <$> xs)
  end.

(** ** The Doppler converters *)

Definition velocity_to_frequency {S} (velocities : value) (input_units : name)
    (center_frequency : option float) (center_frequency_units : name)
    (frequency_units : name) (convention : name) : M S (option value) :=
  let! already := ci_contains frequency_dict input_units in
  if already then
    do! print "Already in frequency units" in ret None
  else
    match center_frequency with
    | None => raise (ValueError
        "Cannot convert velocity to frequency without specifying a central frequency.")
    | Some center_frequency =>
      let! good := ci_contains frequency_dict frequency_units in
      if negb good then
        raise (ValueError ("Bad frequency units: " +:+ pct_s frequency_units))
      else
        let! ms := ci_getitem velocity_dict (Some "m/s") in
        let! v := of_outcome (elementwise (fun a x => fdiv a x ms) velocities) in
        let! k := ci_getitem velocity_dict input_units in
        let velocity_ms := vscale v k in
        let! freq :=
          if name_eqb convention (Some "radio") then
            of_outcome (elementwise (fun a x =>
              let? b := fdiv a x speedoflight_ms in
              Ret (center_frequency * (1.0 - b))%float) velocity_ms)
          else if name_eqb convention (Some "optical") then
            of_outcome (elementwise (fun a x =>
              let? b := fdiv a x speedoflight_ms in
              Ret (center_frequency * (1.0 + b) - 1.0)%float) velocity_ms)
          else if name_eqb convention (Some "relativistic") then
            of_outcome (elementwise (fun a x =>
              let? b := fdiv a x speedoflight_ms in
              let? b2 := fpow2 a b in
              let? r := fpow_half a (1.0 - b2)%float in
              let? b' := fdiv a x speedoflight_ms in
              fdiv a (center_frequency * r)%float (1.0 + b')%float) velocity_ms)
          else
            raise (ValueError
              ("Convention " +:+ dquote +:+ pct_s convention +:+ dquote
               +:+ " is not allowed.")) in
        let! fu := ci_getitem frequency_dict frequency_units in
        let! f := of_outcome (elementwise (fun a x => fdiv a x fu) freq) in
        let! cu := ci_getitem frequency_dict center_frequency_units in
        ret (Some (vscale f cu))
    end.

Definition frequency_to_velocity {S} (frequencies : value) (input_units : name)
    (center_frequency : option float) (center_frequency_units : name)
    (velocity_units : name) (convention : name) : M S (option value) :=
  let! already := ci_contains velocity_dict input_units in
  if already then
    do! print "Already in velocity units" in ret None
  else
    match center_frequency with
    | None => raise (ValueError
        "Cannot convert frequency to velocity without specifying a central frequency.")
    | Some center_frequency =>
      let! good := ci_contains frequency_dict center_frequency_units in
      if negb good then
        raise (ValueError ("Bad frequency units: " +:+ pct_s center_frequency_units))
      else
      let! goodv := ci_contains velocity_dict velocity_units in
      if negb goodv then
        raise (ValueError ("Bad velocity units: " +:+ pct_s velocity_units))
      else
        let! hz := ci_getitem frequency_dict (Some "Hz") in
        let! f := of_outcome (elementwise (fun a x => fdiv a x hz) frequencies) in
        let! k := ci_getitem frequency_dict input_units in
        let frequency_hz := vscale f k in
        let! hz' := ci_getitem frequency_dict (Some "Hz") in
        let! c := of_outcome (fdiv py_float center_frequency hz') in
        let! cu := ci_getitem frequency_dict center_frequency_units in
        let center_frequency_hz := (c * cu)%float in
        let! velocity :=
          if name_eqb convention (Some "radio") then
            of_outcome (elementwise (fun a x =>
              fdiv a (speedoflight_ms * (center_frequency_hz - x))%float
                   center_frequency_hz) frequency_hz)
          else if name_eqb convention (Some "optical") then
            of_outcome (elementwise (fun a x =>
              fdiv a (speedoflight_ms * (x - center_frequency_hz))%float x)
              frequency_hz)
          else if name_eqb convention (Some "relativistic") then
            let! c2 := of_outcome (fpow2 py_float center_frequency_hz) in
            of_outcome (elementwise (fun a x =>
              let? x2 := fpow2 a x in
              let? d := fpow2 a (c2 + x)%float in
              fdiv a (speedoflight_ms * (c2 - x2))%float d) frequency_hz)
          else
            raise (ValueError
              ("Convention " +:+ dquote +:+ pct_s convention +:+ dquote
               +:+ " is not allowed.")) in
        let! ms := ci_getitem velocity_dict (Some "m/s") in
        let! vu := ci_getitem velocity_dict velocity_units in
        let! v := of_outcome
                    (elementwise (fun a x => fdiv a (x * ms)%float vu) velocity) in
        ret (Some v)
    end.

(** ** The spectroscopic axis *)

(** The samples are the numpy buffer of the object; the other fields are the
    attributes that [__new__] and [__array_finalize__] set. [dxarr] is an
    attribute that an object may lack (after a view or a slice), which is
    [None] here. The header dictionary [wcshead] is only written by
    [_make_header] and is left out. *)
Record SpectroscopicAxis : Type := mkAxis {
  data : list float;
  units : name;
  frame : name;
  xtype : name;
  reffreq : option float;
  reffreq_units : name;
  redshift : option float;
  velocity_convention : name;
  dxarr : option (list float);
}.

Definition set_data (v : list float) (a : SpectroscopicAxis) : SpectroscopicAxis :=
  mkAxis v (units a) (frame a) (xtype a) (reffreq a) (reffreq_units a)
         (redshift a) (velocity_convention a) (dxarr a).
Definition set_units (v : name) (a : SpectroscopicAxis) : SpectroscopicAxis :=
  mkAxis (data a) v (frame a) (xtype a) (reffreq a) (reffreq_units a)
         (redshift a) (velocity_convention a) (dxarr a).
Definition set_xtype (v : name) (a : SpectroscopicAxis) : SpectroscopicAxis :=
  mkAxis (data a) (units a) (frame a) v (reffreq a) (reffreq_units a)
         (redshift a) (velocity_convention a) (dxarr a).
Definition set_dxarr (v : option (list float)) (a : SpectroscopicAxis)
  : SpectroscopicAxis :=
  mkAxis (data a) (units a) (frame a) (xtype a) (reffreq a) (reffreq_units a)
         (redshift a) (velocity_convention a) v.

(** [x[1:] - x[:-1]] *)
Definition diff (x : list float) : list float :=
  zip_with (fun hi lo => hi - lo)%float (drop 1 x) (take (length x - 1) x).

(** An argument that may be [None], a [str], or some other hashable object. *)
Inductive pyobj : Type :=
| PyNone
| PyStr (s : string)
| PyOther.

Definition convention_of_xtype (xt : name) : name :=
  match xt with
  | Some t =>
      if str_in "RAD" t then Some "radio"
      else if str_in "OPT" t then Some "optical"
      else if str_in "REL" t then Some "relativistic"
      else if name_eqb (Some t) (Some "unknown") then Some "radio"
      else Some "radio"
  | None => Some "radio"
  end.

(** [SpectroscopicAxis.__new__(xarr, unit, frame, xtype, reffreq, redshift,
    reffreq_units)]; the defaults of the source are [frame='rest'] and [None]
    for the four arguments after it. *)
Definition SpectroscopicAxis_new {S} (xarr : list float) (unit' : name)
    (frame' : name) (xtype' : pyobj) (reffreq' : option float)
    (redshift' : option float) (reffreq_units' : name) : M S SpectroscopicAxis :=
  let in_xtype_dict :=
    match xtype' with PyStr s => xtype_dict !! s | _ => None end in
  let! tf :=
    match in_xtype_dict, xtype' with
    | Some t, PyStr s =>
        match frame_dict !! s with
        | Some f => ret (Some t, Some f)
        | None => raise KeyError
        end
    | _, _ =>
        match unit_type_dict unit' with
        | Some t => ret (t, frame')
        | None =>
            match xtype' with
            | PyStr s =>
                do! print ("WARNING: Unknown X-axis type in header: " +:+ s) in
                ret (Some s, frame')
            | PyNone => ret (Some "unknown", frame')
            | PyOther =>
                do! print
                  "WARNING: xtype has been specified but was not recognized as a string." in
                ret (Some "unknown", frame')
            end
        end
    end in
  let! ru :=
    match reffreq_units' with
    | None =>
        let! isf := ci_contains frequency_dict unit' in
        if isf then ret unit' else ret (Some "Hz")
    | Some _ => ret reffreq_units'
    end in
  ret {| data := xarr; units := unit'; frame := tf.2; xtype := tf.1;
         reffreq := reffreq'; reffreq_units := ru; redshift := redshift';
         velocity_convention := convention_of_xtype tf.1;
         dxarr := Some (diff xarr) |}.

(** [self[:] = r] for what a converter returned: an array of the same length
    is copied in, an array of one element and a scalar are broadcast, an
    array of another length is refused, and numpy stores [None] in a float64
    array as [nan]. *)
Definition setitem_all (r : option value) : M SpectroscopicAxis unit :=
  let! self := get in
  match r with
  | Some (Array ys) =>
      if (length ys =? length (data self))%nat then modify (set_data ys)
      else
        match ys with
        | [y] => modify (set_data ((fun _ => y) <$> data self))
        | _ => raise (ValueError "operands could not be broadcast together")
        end
  | Some (Scalar y) => modify (set_data ((fun _ => y) <$> data self))
  | None => modify (set_data ((fun _ => nan) <$> data self))
  end.

Definition recompute_dxarr : M SpectroscopicAxis unit :=
  modify (fun self => set_dxarr (Some (diff (data self))) self).

(** [conversion_dict[self.xtype]] *)
Definition xtype_table : M SpectroscopicAxis table :=
  let! self := get in ci_getitem conversion_dict (xtype self).

(** The body of [if change_xtype:] in [convert_to_unit]. *)
Definition convert_xtype (unit' : name) (center_frequency : option float)
    (center_frequency_units : name) : M SpectroscopicAxis unit :=
  let! self := get in
  let! to_velocity :=
    (let! isv := ci_contains velocity_dict unit' in
     if isv then let! t := xtype_table in ret (table_eqb t frequency_table)
     else ret false) in
  if to_velocity then
    let! r := frequency_to_velocity (Array (data self)) (units self)
                center_frequency center_frequency_units unit'
                (velocity_convention self) in
    do! setitem_all r in
    do! modify (set_xtype (Some "Velocity")) in
    do! modify (set_units unit') in
    recompute_dxarr
  else
    let! to_frequency :=
      (let! isf := ci_contains frequency_dict unit' in
       if isf then let! t := xtype_table in ret (table_eqb t velocity_table)
       else ret false) in
    if to_frequency then
      let! r := velocity_to_frequency (Array (data self)) (units self)
                  center_frequency center_frequency_units unit'
                  (velocity_convention self) in
      do! setitem_all r in
      do! modify (set_xtype (Some "Frequency")) in
      do! modify (set_units unit') in
      recompute_dxarr
    else
      print ("Could not convert from " +:+ pct_s (units self) +:+ " to "
             +:+ pct_s unit').

(** [if unit != self.units and change_units:] and its body. *)
Definition rescale (unit' : name) (change_units quiet : bool)
  : M SpectroscopicAxis unit :=
  let! self := get in
  if name_neb unit' (units self) && change_units then
    let! t1 := xtype_table in
    let! a := ci_getitem (table_dict t1) (units self) in
    let! t2 := xtype_table in
    let! b := ci_getitem (table_dict t2) unit' in
    let! conversion_factor := of_outcome (fdiv py_float a b) in
    do! when (negb quiet)
          (print ("Converting units from " +:+ pct_s (units self) +:+ " to "
                  +:+ pct_s unit')) in
    do! modify (set_units unit') in
    do! modify (fun self =>
          set_data ((fun x => x * conversion_factor)%float <$> data self) self) in
    recompute_dxarr
  else ret tt.

(** [if change_frame and not quiet:] and its body. *)
Definition notice_frame (frame' : name) (change_frame quiet : bool)
  : M SpectroscopicAxis unit :=
  let! self := get in
  when (change_frame && negb quiet)
    (when (negb quiet)
       (print ("Conversion from frame " +:+ pct_s (frame self) +:+ " to "
               +:+ pct_s frame' +:+ " is not yet supported"))).

(** The last [if] of [convert_to_unit]. *)
Definition notice_already (change_units change_xtype change_frame quiet : bool)
  : M SpectroscopicAxis unit :=
  when (negb change_units && negb change_xtype && negb change_frame && negb quiet)
    (when (negb quiet) (print "Already in desired units, X-type, and frame")).

(** [convert_to_unit(self, unit, frame, quiet, center_frequency,
    center_frequency_units)]; the defaults of the source are [frame='rest'],
    [quiet=False] and [None] for the last two. *)
Definition convert_to_unit (unit' : name) (frame' : name) (quiet : bool)
    (center_frequency : option float) (center_frequency_units : name)
  : M SpectroscopicAxis unit :=
  let! self := get in
  let! t := xtype_table in
  let! known := ci_contains (table_dict t) unit' in
  let change_xtype := negb known in
  let change_units := if negb known then true else name_neb unit' (units self) in
  let change_frame := name_neb frame' (frame self) in
  let center_frequency :=
    match center_frequency with None => reffreq self | Some _ => center_frequency end in
  let center_frequency_units :=
    match center_frequency_units with
    | None => reffreq_units self
    | Some _ => center_frequency_units
    end in
  do! when change_xtype
        (convert_xtype unit' center_frequency center_frequency_units) in
  do! rescale unit' change_units quiet in
  do! notice_frame frame' change_frame quiet in
  notice_already change_units change_xtype change_frame quiet.

(** *** Channel spacing *)

(** [maximum.reduce] and [minimum.reduce] of numpy: the reduction starts
    from the first element and a [nan] met on the way is kept. *)
Definition np_maximum (a b : float) : float :=
  if (b <=? a)%float || PrimFloat.is_nan a then a else b.
Definition np_minimum (a b : float) : float :=
  if (a <=? b)%float || PrimFloat.is_nan a then a else b.

Definition reduce (f : float -> float -> float) (x : list float) : outcome float :=
  match x with
  | [] => Raise (ValueError "zero-size array to reduction operation")
  | a :: rest => Ret (fold_left f rest a)
  end.

Definition float_of_nat (n : nat) : float :=
  PrimFloat.of_uint63 (Uint63.of_Z (Z.of_nat n)).

(** [x.mean()] is [add.reduce(x) / len(x)], and numpy (1.9 and later) sums a
    contiguous array of floats pairwise, in the routine [pairwise_sum] of its
    inner loop:
    - fewer than 8 elements are added one by one to [0.];
    - up to 128 elements are added in 8 interleaved accumulators
      [r[j] = a[j] + a[8+j] + a[16+j] + ...] over the leading multiple of 8,
      which are then added as
      [((r0+r1)+(r2+r3)) + ((r4+r5)+(r6+r7))]; the remaining elements, fewer
      than 8, are added to that one by one;
    - more elements are split at [n/2] rounded down to a multiple of 8, and
      the sums of the two parts are added. *)

(** The 8 accumulators after [groups] more groups of 8 elements of [a]. *)
Fixpoint accumulate (groups : nat) (r a : list float) : list float :=
  match groups with
  | O => r
  | S g => accumulate g (zip_with PrimFloat.add r (take 8 a)) (drop 8 a)
  end.

(** The middle case, for 8 elements or more. *)
Definition block_sum (a : list float) : float :=
  let n := length a in
  let r := accumulate (n / 8 - 1) (take 8 a) (drop 8 a) in
  let res :=
    match r with
    | [r0; r1; r2; r3; r4; r5; r6; r7] =>
        (((r0 + r1) + (r2 + r3)) + ((r4 + r5) + (r6 + r7)))%float
    | _ => 0%float
    end in
  fold_left PrimFloat.add (drop (8 * (n / 8)) a) res.

(** The recursion on the two parts is on lists that are shorter, which the
    counter [fuel] makes structural; [pairwise_sum] gives it the length of
    the list, which is enough ([pairwise_sum_unfold] below). *)
Fixpoint pairwise_sum_aux (fuel : nat) (a : list float) : float :=
  let n := length a in
  if (n <? 8)%nat then fold_left PrimFloat.add a 0%float
  else if (n <=? 128)%nat then block_sum a
  else
    match fuel with
    | O => block_sum a
    | S fuel' =>
        let n2 := (n / 2 - (n / 2) mod 8)%nat in
        (pairwise_sum_aux fuel' (take n2 a) + pairwise_sum_aux fuel' (drop n2 a))%float
    end.

Definition pairwise_sum (a : list float) : float := pairwise_sum_aux (length a) a.

(** [add.reduce]: the reduction starts from the identity [0.0] of [add], to
    which the inner loop adds the pairwise sum of the elements. *)
Definition np_sum (x : list float) : float := (0 + pairwise_sum x)%float.

Definition mean (x : list float) : float :=
  (np_sum x / float_of_nat (length x))%float.

(** [cdelt(self, tolerance)]: the default of the source is [1e-8]. *)
Definition cdelt (tolerance : float) : M SpectroscopicAxis (option float) :=
  let! self := get in
  do! (match dxarr self with
       | None => recompute_dxarr
       | Some _ => ret tt
       end) in
  let! self := get in
  let dx := default [] (dxarr self) in
  let! hi := of_outcome (reduce np_maximum dx) in
  let! lo := of_outcome (reduce np_minimum dx) in
  let! lo' := of_outcome (reduce np_minimum dx) in
  if (PrimFloat.abs (hi - lo) / PrimFloat.abs lo' <? tolerance)%float
  then ret (Some (mean dx))
  else ret None.

(** ** The collection of axes *)

(** The axes given to [SpectroscopicAxes] are objects that the constructor
    converts in place: the store holds them, and the list given to the
    constructor holds references into the store, so a list that names one
    object twice shares it. *)
Abbreviation store := (list SpectroscopicAxis).

(** A method call on the object behind a reference. *)
Definition at_ref {A} (r : nat) (m : M SpectroscopicAxis A) : M store A :=
  fun h out =>
    match h !! r with
    | Some ax => let '(res, ax', out') := m ax out in (res, <[r := ax']> h, out')
    | None => (Raise DanglingReference, h, out)
    end.

Definition deref (r : nat) : M store SpectroscopicAxis := at_ref r get.

Fixpoint for_each {S A} (l : list A) (body : A -> M S unit) : M S unit :=
  match l with
  | [] => ret tt
  | x :: l' => do! body x in for_each l' body
  end.

Fixpoint collect {S A B} (l : list A) (f : A -> M S B) : M S (list B) :=
  match l with
  | [] => ret []
  | x :: l' => let! y := f x in let! ys := collect l' f in ret (y :: ys)
  end.

(** [a != b] on reference frequencies: [None] differs from every float, and
    two floats are compared as IEEE numbers. *)
Definition reffreq_neb (a b : option float) : bool :=
  match a, b with
  | None, None => false
  | Some x, Some y => negb (x =? y)%float
  | _, _ => true
  end.

(** The body of [for ax in axislist:]. [ax.change_xtype] is not a method of
    the class (its text is a string literal), so that call raises
    [AttributeError]. Both [except:] clauses build a [ValueError] and drop it. *)
Definition coerce_member (units0 xtype0 frame0 : name) (r : nat) : M store unit :=
  let! ax := deref r in
  do! when (name_neb (xtype ax) xtype0)
        (try_except_pass (raise AttributeError)) in
  let! ax := deref r in
  when (name_neb (units ax) units0 || name_neb (frame ax) frame0)
    (try_except_pass (at_ref r (convert_to_unit units0 frame0 false None None))).

(** [SpectroscopicAxes.__new__(axislist, ...)]. The arguments [frame],
    [xtype], [reffreq] and [redshift] of the source are overwritten or unused
    before they are read, and the type test on [axislist] is settled by the
    type of the argument. The view of the concatenated array has no [dxarr]. *)
Definition SpectroscopicAxes_new (axislist : list nat) : M store SpectroscopicAxis :=
  match axislist with
  | [] => raise IndexError
  | first :: _ =>
      let! a0 := deref first in
      let units0 := units a0 in
      let xtype0 := xtype a0 in
      let frame0 := frame a0 in
      let redshift0 := redshift a0 in
      let velocity_convention0 := velocity_convention a0 in
      do! for_each axislist (coerce_member units0 xtype0 frame0) in
      let! arrays := collect axislist (fun r => let! ax := deref r in ret (data ax)) in
      let subarr := concat arrays in
      let! diffs := collect axislist (fun r =>
                      let! a0 := deref first in
                      let! ax := deref r in
                      ret (reffreq_neb (reffreq a0) (reffreq ax))) in
      let reffreqs_diff := length (filter (fun b => b = true) diffs) in
      let! a0 := deref first in
      ret {| data := subarr; units := units0; frame := frame0; xtype := xtype0;
             reffreq := if (0 <? reffreqs_diff)%nat then None else reffreq a0;
             reffreq_units :=
               if (0 <? reffreqs_diff)%nat then None else reffreq_units a0;
             redshift := redshift0;
             velocity_convention := velocity_convention0;
             dxarr := None |}
  end.

(** Running a computation from an empty output. *)
Definition run {S A} (m : M S A) (s : S) : outcome A * S * list string := m s [].

Definition result {S A} (r : outcome A * S * list string) : outcome A := r.1.1.
Definition final {S A} (r : outcome A * S * list string) : S := r.1.2.
Definition stdout {S A} (r : outcome A * S * list string) : list string := r.2.

(** ** Vocabulary of the properties *)

(** [law R m]: from every store [s], the store that [m] leaves is related to
    [s] by [R], and [m] only appends to the output it is given, the lines it
    appends, its outcome and its final store being those of a run from an
    empty output. *)
Definition law {S A} (R : relation S) (m : M S A) : Prop :=
  forall s out,
    R s (final (run m s)) /\
    m s out = (result (run m s), final (run m s), out ++ stdout (run m s)).

(** The frame, the reference frequency with its unit, the redshift, the
    convention and the number of samples of an axis. *)
Definition same_shape (a b : SpectroscopicAxis) : Prop :=
  frame b = frame a /\ reffreq b = reffreq a /\
  reffreq_units b = reffreq_units a /\ redshift b = redshift a /\
  velocity_convention b = velocity_convention a /\
  length (data b) = length (data a).

(** What the constructor may have made of a member: the axis as it was, or
    what one or more calls of [convert_to_unit] that returned made of it. *)
Definition coerced (units0 frame0 : name) : relation SpectroscopicAxis :=
  rtc (fun a a' => exists o o',
         convert_to_unit units0 frame0 false None None a o = (Ret tt, a', o')).

(** The binary64 values whose sign bit is clear, [nan] and the zeros. *)
Definition nonneg_sf (x : spec_float) : Prop :=
  match x with
  | S754_nan | S754_zero _ => True
  | S754_infinity s | S754_finite s _ _ => s = false
  end.

(** [lo] and [hi] are both [nan], or [lo <= hi]. *)
Definition ordered (lo hi : float) : Prop :=
  PrimFloat.is_nan hi = true \/ (lo <=? hi)%float = true.

(** The cached differences of an axis, when it has them, are those of its
    samples. *)
Definition dxarr_valid (a : SpectroscopicAxis) : Prop :=
  dxarr a = None \/ dxarr a = Some (diff (data a)).

(** The test of uniform sampling as the specification words it:
    [(max(dx) - min(dx)) / |min(dx)| < tolerance], over the same reductions. *)
Definition spacing_is_uniform (dx : list float) (tolerance : float) : bool :=
  match reduce np_maximum dx, reduce np_minimum dx with
  | Ret hi, Ret lo => ((hi - lo) / PrimFloat.abs lo <? tolerance)%float
  | _, _ => false
  end.

(** ** Example axes

    Axes as [__new__] builds them, used below as concrete inputs. *)

(** [SpectroscopicAxis([0.,1.,3.,7.], 'km/s')] *)
Definition axis_kms : SpectroscopicAxis :=
  {| data := [0; 1; 3; 7]%float; units := Some "km/s"; frame := Some "rest";
     xtype := Some "velocity"; reffreq := None; reffreq_units := Some "Hz";
     redshift := None; velocity_convention := Some "radio";
     dxarr := Some [1; 2; 4]%float |}.

(** [SpectroscopicAxis([0.,1.,2.,3.,4.], 'km/s')] *)
Definition axis_linear : SpectroscopicAxis :=
  {| data := [0; 1; 2; 3; 4]%float; units := Some "km/s"; frame := Some "rest";
     xtype := Some "velocity"; reffreq := None; reffreq_units := Some "Hz";
     redshift := None; velocity_convention := Some "radio";
     dxarr := Some [1; 1; 1; 1]%float |}.

(** [SpectroscopicAxis([100.,101.,102.], 'GHz', reffreq=100.5)] *)
Definition axis_GHz : SpectroscopicAxis :=
  {| data := [100; 101; 102]%float; units := Some "GHz"; frame := Some "rest";
     xtype := Some "frequency"; reffreq := Some 100.5%float;
     reffreq_units := Some "GHz"; redshift := None;
     velocity_convention := Some "radio"; dxarr := Some [1; 1]%float |}.

(** [axis_GHz] after the assignment [ax.velocity_convention = 'optical']. *)
Definition axis_GHz_optical : SpectroscopicAxis :=
  {| data := [100; 101; 102]%float; units := Some "GHz"; frame := Some "rest";
     xtype := Some "frequency"; reffreq := Some 100.5%float;
     reffreq_units := Some "GHz"; redshift := None;
     velocity_convention := Some "optical"; dxarr := Some [1; 1]%float |}.

(** [SpectroscopicAxis([1e-9,1.,2.], 'm/s', reffreq=100.5, reffreq_units='GHz')] *)
Definition axis_ms : SpectroscopicAxis :=
  {| data := [1e-9; 1; 2]%float; units := Some "m/s"; frame := Some "rest";
     xtype := Some "velocity"; reffreq := Some 100.5%float;
     reffreq_units := Some "GHz"; redshift := None;
     velocity_convention := Some "radio";
     dxarr := Some (diff [1e-9; 1; 2]%float) |}.

(** [SpectroscopicAxis([k/3. for k in range(17)], 'km/s')]: 17 samples, so
    that the 16 differences fill two groups of 8 of the pairwise sum. *)
Definition axis_thirds : SpectroscopicAxis :=
  let xarr := (fun k => k / 3)%float
                <$> [0; 1; 2; 3; 4; 5; 6; 7; 8; 9; 10; 11; 12; 13; 14; 15; 16]%float in
  {| data := xarr; units := Some "km/s"; frame := Some "rest";
     xtype := Some "velocity"; reffreq := None; reffreq_units := Some "Hz";
     redshift := None; velocity_convention := Some "radio";
     dxarr := Some (diff xarr) |}.

(** [convert_to_unit(B)] followed by [convert_to_unit(A)], with the defaults
    of the source for the other arguments. *)
Definition roundtrip (B A : name) : M SpectroscopicAxis unit :=
  do! convert_to_unit B (Some "rest") false None None in
  convert_to_unit A (Some "rest") false None None.

(** The claim that a failed conversion of a member is reported: the caller
    of the constructor sees an exception or a printed line. *)
Definition failure_is_reported (h : store) (axislist : list nat) : Prop :=
  let r := run (SpectroscopicAxes_new axislist) h in
  (exists e, result r = Raise e) \/ stdout r <> [].

(** * The rest of the module: definitions *)

(** ** Two more exceptions

    [NameError] and [TypeError] are raised by the functions below only. A
    computation that may raise one of them returns [Other e] in that case;
    the exceptions of [exn] are raised as before. *)

Inductive other_exn : Type := NameError | TypeError.

Inductive checked (A : Type) : Type :=
| Normal (a : A)
| Other (e : other_exn).
Arguments Normal {A} a.
Arguments Other {A} e.

Definition bind_checked {S A B} (m : M S (checked A)) (k : A -> M S (checked B))
  : M S (checked B) :=
  let! r := m in
  match r with
  | Normal a => k a
  | Other e => ret (Other e)
  end.

Definition normally {S A} (m : M S A) : M S (checked A) :=
  let! a := m in ret (Normal a).

Notation "'let!!' x := m 'in' k" := (bind_checked m (fun x => k))
  (at level 10, x name, m at level 100, k at level 200, only parsing).

(** ** The wavelength converters *)

(** [frequency_to_wavelength(frequencies, input_units, wavelength_units)]; the
    default of the source for the last argument is ['um']. *)
Definition frequency_to_wavelength {S} (frequencies : value)
    (input_units wavelength_units : name) : M S (option value) :=
  let! already := ci_contains wavelength_dict input_units in
  if already then
    do! print "Already in wavelength units" in ret None
  else
    let! good := ci_contains length_dict wavelength_units in
    if negb good then
      raise (ValueError
               ("Wavelength units " +:+ pct_s wavelength_units +:+ " not valid"))
    else
      let! isf := ci_contains frequency_dict input_units in
      if negb isf then raise AttributeError
      else
        let! k := ci_getitem frequency_dict input_units in
        let! q := of_outcome
                    (elementwise (fun a x => fdiv a speedoflight_ms x)
                       (vscale frequencies k)) in
        let! lu := ci_getitem length_dict wavelength_units in
        let! w := of_outcome (elementwise (fun a x => fdiv a x lu) q) in
        ret (Some w).

(** [wavelength_to_frequency(wavelengths, input_units, frequency_units)]; the
    default of the source for the last argument is ['GHz']. The message of
    the [ValueError] for a bad [frequency_units] is formatted with the name
    [wavelength_units], which the function does not have: building the
    message raises [NameError]. *)
Definition wavelength_to_frequency {S} (wavelengths : value)
    (input_units frequency_units : name) : M S (checked (option value)) :=
  let! already := ci_contains frequency_dict input_units in
  if already then
    do! print "Already in frequency units" in ret (Normal None)
  else
    let! good := ci_contains frequency_dict frequency_units in
    if negb good then ret (Other NameError)
    else
      let! isl := ci_contains length_dict input_units in
      if negb isl then raise AttributeError
      else
        let! k := ci_getitem length_dict input_units in
        let! q := of_outcome
                    (elementwise (fun a x => fdiv a speedoflight_ms x)
                       (vscale wavelengths k)) in
        let! fu := ci_getitem frequency_dict frequency_units in
        let! f := of_outcome (elementwise (fun a x => fdiv a x fu) q) in
        ret (Normal (Some f)).

(** ** Converters given what another converter returned

    [x_to_coord] and [coord_to_x] pass on what a first converter returned,
    which may be [None]. A converter given [None] for its values goes through
    its tests on the units and then raises [TypeError] at its first
    arithmetic operation. *)

Definition velocity_to_frequency_of {S} (velocities : option value)
    (input_units : name) (center_frequency : option float)
    (center_frequency_units frequency_units convention : name)
  : M S (checked (option value)) :=
  match velocities with
  | Some v =>
      normally (velocity_to_frequency v input_units center_frequency
                  center_frequency_units frequency_units convention)
  | None =>
      let! already := ci_contains frequency_dict input_units in
      if already then
        do! print "Already in frequency units" in ret (Normal None)
      else
        match center_frequency with
        | None => raise (ValueError
            "Cannot convert velocity to frequency without specifying a central frequency.")
        | Some _ =>
            let! good := ci_contains frequency_dict frequency_units in
            if negb good then
              raise (ValueError ("Bad frequency units: " +:+ pct_s frequency_units))
            else
              let! ms := ci_getitem velocity_dict (Some "m/s") in
              ret (Other TypeError)
        end
  end.

Definition frequency_to_velocity_of {S} (frequencies : option value)
    (input_units : name) (center_frequency : option float)
    (center_frequency_units velocity_units convention : name)
  : M S (checked (option value)) :=
  match frequencies with
  | Some f =>
      normally (frequency_to_velocity f input_units center_frequency
                  center_frequency_units velocity_units convention)
  | None =>
      let! already := ci_contains velocity_dict input_units in
      if already then
        do! print "Already in velocity units" in ret (Normal None)
      else
        match center_frequency with
        | None => raise (ValueError
            "Cannot convert frequency to velocity without specifying a central frequency.")
        | Some _ =>
            let! good := ci_contains frequency_dict center_frequency_units in
            if negb good then
              raise (ValueError
                       ("Bad frequency units: " +:+ pct_s center_frequency_units))
            else
              let! goodv := ci_contains velocity_dict velocity_units in
              if negb goodv then
                raise (ValueError ("Bad velocity units: " +:+ pct_s velocity_units))
              else
                let! hz := ci_getitem frequency_dict (Some "Hz") in
                ret (Other TypeError)
        end
  end.

Definition frequency_to_wavelength_of {S} (frequencies : option value)
    (input_units wavelength_units : name) : M S (checked (option value)) :=
  match frequencies with
  | Some f => normally (frequency_to_wavelength f input_units wavelength_units)
  | None =>
      let! already := ci_contains wavelength_dict input_units in
      if already then
        do! print "Already in wavelength units" in ret (Normal None)
      else
        let! good := ci_contains length_dict wavelength_units in
        if negb good then
          raise (ValueError
                   ("Wavelength units " +:+ pct_s wavelength_units +:+ " not valid"))
        else
          let! isf := ci_contains frequency_dict input_units in
          if negb isf then raise AttributeError
          else
            let! k := ci_getitem frequency_dict input_units in
            ret (Other TypeError)
  end.

(** ** Coordinates in other units *)

(** [unit_type_dict[key]] *)
Definition unit_type_getitem {S} (key : name) : M S name :=
  match unit_type_dict key with
  | Some t => ret t
  | None => raise KeyError
  end.

(** [conversion_dict[unit_type_dict[u]][u]] *)
Definition unit_factor {S} (u : name) : M S float :=
  let! t := unit_type_getitem u in
  let! d := ci_getitem conversion_dict t in
  ci_getitem (table_dict d) u.

(** [xval * a], and [xval / a] by a Python float, for an [xval] that may be
    [None]. *)
Definition times {S} (xval : option value) (a : float) : M S (checked value) :=
  match xval with
  | Some v => ret (Normal (vscale v a))
  | None => ret (Other TypeError)
  end.

Definition over {S} (xval : value) (a : float) : M S value :=
  of_outcome (elementwise (fun m x => fdiv m x a) xval).

(** [x_to_coord(self, xval, xunit, verbose)]; the default of the source for
    [verbose] is [False]. *)
Definition x_to_coord (xval : value) (xunit : name) (verbose : bool)
  : M SpectroscopicAxis (checked (option value)) :=
  let! self := get in
  let! isw := ci_contains wavelength_dict xunit in
  let!! xx :=
    if isw then
      let!! f := wavelength_to_frequency xval xunit (Some "Hz") in
      ret (Normal (f, Some "Hz"))
    else ret (Normal (Some xval, xunit)) in
  let xval := xx.1 in
  let xunit := xx.2 in
  let! ts := unit_type_getitem (units self) in
  let! tx := unit_type_getitem xunit in
  if name_eqb ts tx then
    do! when verbose (print "Input units of same type as output units.") in
    let! a := unit_factor xunit in
    let!! p := times xval a in
    let! b := unit_factor (units self) in
    let! r := over p b in
    ret (Normal (Some r))
  else
    let! isv := ci_contains velocity_dict xunit in
    if isv then
      do! when verbose (print "Requested units are Velocity") in
      let! sf := ci_contains frequency_dict (units self) in
      if sf then
        velocity_to_frequency_of xval xunit (reffreq self) (reffreq_units self)
          (units self) (velocity_convention self)
      else
        let! sw := ci_contains wavelength_dict (units self) in
        if sw then
          let!! FREQ := velocity_to_frequency_of xval xunit (reffreq self)
                          (reffreq_units self) (Some "Hz")
                          (velocity_convention self) in
          frequency_to_wavelength_of FREQ (Some "Hz") (units self)
        else ret (Normal None)
    else
      let! isf := ci_contains frequency_dict xunit in
      if isf then
        do! when verbose (print "Requested units are Frequency") in
        let! sv := ci_contains velocity_dict (units self) in
        if sv then
          frequency_to_velocity_of xval xunit (reffreq self) (reffreq_units self)
            (units self) (velocity_convention self)
        else
          let! sw := ci_contains wavelength_dict (units self) in
          if sw then frequency_to_wavelength_of xval xunit (units self)
          else ret (Normal None)
      else raise (ValueError "Units not recognized.").

(** [coord_to_x(self, xval, xunit)] *)
Definition coord_to_x (xval : value) (xunit : name)
  : M SpectroscopicAxis (checked (option value)) :=
  let! self := get in
  let! ts := unit_type_getitem (units self) in
  let! tx := unit_type_getitem xunit in
  if name_eqb ts tx then
    let! a := unit_factor xunit in
    let! q := over xval a in
    let! b := unit_factor (units self) in
    ret (Normal (Some (vscale q b)))
  else
    let! isv := ci_contains velocity_dict xunit in
    if isv then
      let! sf := ci_contains frequency_dict (units self) in
      if sf then
        normally (frequency_to_velocity xval (units self) (reffreq self)
                    (reffreq_units self) xunit (velocity_convention self))
      else
        let! sw := ci_contains wavelength_dict (units self) in
        if sw then
          let!! FREQ := wavelength_to_frequency xval (units self) (Some "Hz") in
          frequency_to_velocity_of FREQ (Some "Hz") (reffreq self)
            (reffreq_units self) xunit (velocity_convention self)
        else ret (Normal None)
    else
      let! isf := ci_contains frequency_dict xunit in
      if isf then
        let! sv := ci_contains velocity_dict (units self) in
        if sv then
          normally (velocity_to_frequency xval (units self) (reffreq self)
                      (reffreq_units self) xunit (velocity_convention self))
        else
          let! sw := ci_contains wavelength_dict (units self) in
          if sw then wavelength_to_frequency xval (units self) xunit
          else ret (Normal None)
      else
        let! isw := ci_contains wavelength_dict xunit in
        if isw then
          let! sv := ci_contains velocity_dict (units self) in
          if sv then
            let! FREQ := velocity_to_frequency xval (units self) (reffreq self)
                           (reffreq_units self) (Some "Hz")
                           (velocity_convention self) in
            frequency_to_wavelength_of FREQ (Some "Hz") xunit
          else
            let! sf := ci_contains frequency_dict (units self) in
            if sf then normally (frequency_to_wavelength xval (units self) xunit)
            else ret (Normal None)
        else raise (ValueError "Units not recognized.").

(** ** What a computation may return and raise *)

(** [opost E P o]: an outcome that is a value satisfying [P] or an exception
    satisfying [E]; [post E P m]: every outcome of [m] is such. *)
Definition opost {A} (E : exn -> Prop) (P : A -> Prop) (o : outcome A) : Prop :=
  match o with Ret a => P a | Raise e => E e end.

Definition post {S A} (E : exn -> Prop) (P : A -> Prop) (m : M S A) : Prop :=
  forall s out, opost E P (result (m s out)).

(** The exception of the last [else] of [x_to_coord] and [coord_to_x]. *)
Definition unrecognized : exn := ValueError "Units not recognized.".

Definition recognized (e : exn) : Prop := e <> unrecognized.

(** A name that is a key of a case-insensitive table. *)
Definition in_table {V} (d : gmap string V) (key : name) : Prop :=
  exists k, key = Some k /\ is_Some (d !! lower k).

(** Two values of the same kind: two scalars, or two arrays of one length. *)
Definition same_kind (v w : value) : Prop :=
  match v, w with
  | Scalar _, Scalar _ => True
  | Array xs, Array ys => length ys = length xs
  | _, _ => False
  end.

(** What a converter from the units [iu] to the units of the table [d]
    returns for the values [v]: [None] only when [iu] is in [d] already, and
    otherwise a value of the kind of [v]. *)
Definition converted (d : gmap string float) (iu : name) (v : value)
    (r : option value) : Prop :=
  match r with
  | None => in_table d iu
  | Some w => same_kind v w
  end.

(** The same for a converter that was given what another one returned:
    without values it can only return [None] or raise. *)
Definition converted_of (d : gmap string float) (iu : name) (v : option value)
    (r : checked (option value)) : Prop :=
  match r with
  | Normal None => in_table d iu
  | Normal (Some w) => exists v0, v = Some v0 /\ same_kind v0 w
  | Other _ => v = None
  end.

(** A value of the kind of [xval], returned normally. *)
Definition a_value_like (xval : value) (r : checked (option value)) : Prop :=
  exists v, r = Normal (Some v) /\ same_kind xval v.

(** ** The FITS header of an axis *)

(** [fits_frame], [fits_specsys] and [fits_type] are plain dictionaries:
    their keys are case sensitive and [None] is not one of them. *)
Definition fits_frame : gmap string string :=
  list_to_map
    [("rest", "REST"); ("LSRK", "-LSR"); ("heliocentric", "-HEL");
     ("geocentric", "-GEO")].

Definition fits_specsys : gmap string string :=
  list_to_map
    [("rest", "REST"); ("LSRK", "LSRK"); ("LSRD", "LSRD");
     ("heliocentric", "HEL"); ("geocentric", "GEO")].

Definition fits_type : gmap string string :=
  list_to_map
    [("velocity", "VELO"); ("frequency", "FREQ"); ("length", "WAVE");
     ("redshift", "REDS");
     ("Velocity", "VELO"); ("Frequency", "FREQ"); ("Length", "WAVE");
     ("Redshift", "REDS")].

(** [d[key]] on such a dictionary. *)
Definition dict_getitem {S V} (d : gmap string V) (key : name) : M S V :=
  match key with
  | Some k => match d !! k with
              | Some v => ret v
              | None => raise KeyError
              end
  | None => raise KeyError
  end.

(** What [_make_header] stores in the header: [None], a [str] or a float. *)
Inductive header_value : Type :=
| HNone
| HStr (s : string)
| HFloat (x : float).

Definition header_of_name (n : name) : header_value :=
  match n with Some s => HStr s | None => HNone end.

Definition header_of_float (x : option float) : header_value :=
  match x with Some x => HFloat x | None => HNone end.

(** An axis together with its attribute [wcshead], which is a dictionary or
    [None] (as [__array_finalize__] leaves it on an array that was viewed
    from one that had none). *)
Record HeaderAxis : Type := mkHeaderAxis {
  axis_of : SpectroscopicAxis;
  wcshead : option (gmap string header_value);
}.

(** A method of the axis, called on the axis with its header. *)
Definition on_axis {A} (m : M SpectroscopicAxis A) : M HeaderAxis A :=
  fun s out =>
    let '(r, a, o) := m (axis_of s) out in
    (r, {| axis_of := a; wcshead := wcshead s |}, o).

(** [self.wcshead[key] = v], the attribute being a dictionary by then. *)
Definition wcshead_setitem (key : string) (v : header_value) : M HeaderAxis unit :=
  modify (fun s => {| axis_of := axis_of s;
                      wcshead := Some (<[key := v]> (default ∅ (wcshead s))) |}).

(** [self[0]] *)
Definition first_sample : M SpectroscopicAxis float :=
  let! self := get in
  match data self with
  | x :: _ => ret x
  | [] => raise IndexError
  end.

(** [_make_header(self, tolerance)]; the default of the source for
    [tolerance] is [1e-8]. *)
Definition _make_header (tolerance : float) : M HeaderAxis bool :=
  do! on_axis recompute_dxarr in
  do! modify (fun s => match wcshead s with
                       | None => {| axis_of := axis_of s; wcshead := Some ∅ |}
                       | Some _ => s
                       end) in
  let! self := on_axis get in
  do! wcshead_setitem "CUNIT1" (header_of_name (units self)) in
  let! ft := dict_getitem fits_type (xtype self) in
  let! ctype :=
    if bool_decide (ft = "VELO") && bool_decide (velocity_convention self <> None)
    then
      let! suffix := dict_getitem convention_suffix (velocity_convention self) in
      ret ("V" +:+ suffix)
    else dict_getitem fits_type (xtype self) in
  let! ff := dict_getitem fits_frame (frame self) in
  do! wcshead_setitem "CTYPE1" (HStr (ctype +:+ ff)) in
  let! ss := dict_getitem fits_specsys (frame self) in
  do! wcshead_setitem "SPECSYS" (HStr ss) in
  do! wcshead_setitem "REFFREQ" (header_of_float (reffreq self)) in
  let! cdelt := on_axis (cdelt tolerance) in
  match cdelt with
  | None =>
      do! wcshead_setitem "CDELT1" HNone in
      do! wcshead_setitem "CRPIX1" HNone in
      do! wcshead_setitem "CRVAL1" HNone in
      ret false
  | Some c =>
      do! wcshead_setitem "CDELT1" (HFloat c) in
      let! x0 := on_axis first_sample in
      do! wcshead_setitem "CRVAL1" (HFloat x0) in
      do! wcshead_setitem "CRPIX1" (HFloat 1.0) in
      ret true
  end.

(** [SpectroscopicAxis([0.,1.,2.], 'km/s', frame='LSRD')] *)
Definition axis_LSRD : SpectroscopicAxis :=
  {| data := [0; 1; 2]%float; units := Some "km/s"; frame := Some "LSRD";
     xtype := Some "velocity"; reffreq := None; reffreq_units := Some "Hz";
     redshift := None; velocity_convention := Some "radio";
     dxarr := Some [1; 1]%float |}.

(** * Properties *)

(** ** The example axes are what the constructor builds *)

Example axis_thirds_built :
  run (SpectroscopicAxis_new (data axis_thirds) (Some "km/s") (Some "rest") PyNone
         None None None) tt = (Ret axis_thirds, tt, []).
Proof. vm_compute. reflexivity. Qed.

Example axis_ms_built :
  run (SpectroscopicAxis_new [1e-9; 1; 2]%float (Some "m/s") (Some "rest") PyNone
         (Some 100.5%float) None (Some "GHz")) tt = (Ret axis_ms, tt, []).
Proof. vm_compute. reflexivity. Qed.

Example axis_kms_built :
  run (SpectroscopicAxis_new [0; 1; 3; 7]%float (Some "km/s") (Some "rest") PyNone
         None None None) tt = (Ret axis_kms, tt, []).
Proof. vm_compute. reflexivity. Qed.

Example axis_linear_built :
  run (SpectroscopicAxis_new [0; 1; 2; 3; 4]%float (Some "km/s") (Some "rest")
         PyNone None None None) tt = (Ret axis_linear, tt, []).
Proof. vm_compute. reflexivity. Qed.

Example axis_GHz_built :
  run (SpectroscopicAxis_new [100; 101; 102]%float (Some "GHz") (Some "rest")
         PyNone (Some 100.5%float) None None) tt = (Ret axis_GHz, tt, []).
Proof. vm_compute. reflexivity. Qed.


(** ** Basic equations of the monad *)

Lemma bind_ret {S A B} (a : A) (k : A -> M S B) s out :
  bind (ret a) k s out = k a s out.
Proof. reflexivity. Qed.

Lemma bind_raise {S A B} (e : exn) (k : A -> M S B) s out :
  bind (raise e) k s out = (Raise e, s, out).
Proof. reflexivity. Qed.

Lemma ci_contains_Some {S V} (d : gmap string V) (k : string) (s : S) out :
  ci_contains d (Some k) s out = (Ret (bool_decide (is_Some (d !! lower k))), s, out).
Proof. reflexivity. Qed.

(** Every key of [xtype_dict] is a key of [frame_dict], so the lookup of the
    frame in [__new__] cannot fail. *)
Lemma xtype_dict_frame_dict (k t : string) :
  xtype_dict !! k = Some t -> is_Some (frame_dict !! k).
Proof.
  assert (H : map_Forall (fun k _ => is_Some (frame_dict !! k)) xtype_dict).
  { apply (bool_decide_unpack _). vm_compute. exact I. }
  intros Hk. exact (H k t Hk).
Qed.

(** Every value of [xtype_dict] is one of four names, none of which holds
    ["RAD"], ["OPT"] or ["REL"]. *)
Lemma xtype_dict_convention (k t : string) :
  xtype_dict !! k = Some t -> convention_of_xtype (Some t) = Some "radio".
Proof.
  assert (H : map_Forall
                (fun _ t => convention_of_xtype (Some t) = Some "radio") xtype_dict).
  { apply (bool_decide_unpack _). vm_compute. exact I. }
  intros Hk. exact (H k t Hk).
Qed.

(** ** Construction of an axis *)

(** What [__new__] returns when the unit is a string: the constructor
    cannot raise, and the fields it derives are the following. *)
Lemma SpectroscopicAxis_new_returns {S} (s : S) xarr (u : string) frame' xtype'
    reffreq' redshift' reffreq_units' :
  exists ax out,
    run (SpectroscopicAxis_new xarr (Some u) frame' xtype' reffreq' redshift'
           reffreq_units') s = (Ret ax, s, out) /\
    data ax = xarr /\ units ax = Some u /\ reffreq ax = reffreq' /\
    redshift ax = redshift' /\ dxarr ax = Some (diff xarr) /\
    velocity_convention ax = convention_of_xtype (xtype ax) /\
    reffreq_units ax =
      match reffreq_units' with
      | Some _ => reffreq_units'
      | None => if bool_decide (is_Some (frequency_dict !! lower u))
                then Some u else Some "Hz"
      end /\
    (forall k t, xtype' = PyStr k -> xtype_dict !! k = Some t -> xtype ax = Some t).
Proof.
  unfold run, SpectroscopicAxis_new.
  set (tf := match match xtype' with PyStr k => xtype_dict !! k | _ => None end, xtype'
             with Some t, PyStr k => _ | _, _ => _ end).
  assert (Htf : exists p out, tf s [] = (Ret p, s, out) /\
            forall k t, xtype' = PyStr k -> xtype_dict !! k = Some t -> p.1 = Some t).
  { subst tf. destruct xtype' as [|k|]; cbn beta iota.
    - destruct (unit_type_dict (Some u)); eexists _, _; (split; [reflexivity|]);
        intros; discriminate.
    - destruct (xtype_dict !! k) as [t|] eqn:Hk.
      + destruct (xtype_dict_frame_dict k t Hk) as [f ->].
        eexists _, _; split; [reflexivity|]. intros k' t' [= <-] Hk'.
        rewrite Hk in Hk'. cbn. congruence.
      + destruct (unit_type_dict (Some u)); eexists _, _; (split; [reflexivity|]);
          intros k' t' [= <-] Hk'; rewrite Hk in Hk'; discriminate.
    - destruct (unit_type_dict (Some u)); eexists _, _; (split; [reflexivity|]);
        intros; discriminate. }
  destruct Htf as (p & out & Hrun & Hx). clearbody tf.
  unfold bind at 1. rewrite Hrun.
  destruct reffreq_units' as [ru|].
  - eexists _, _. split; [reflexivity|]. cbn. eauto 10.
  - unfold bind. rewrite ci_contains_Some.
    destruct (bool_decide (is_Some (frequency_dict !! lower u)));
      eexists _, _; (split; [reflexivity|]); cbn; eauto 10.
Qed.

(** C10: when the unit of the reference frequency is omitted, the axis takes
    its own unit for it if that unit is in the frequency table (looked up
    without regard to case), and ['Hz'] otherwise, whatever the quantity of
    the axis is: a velocity or wavelength axis gets ['Hz']. (A unit that is
    [None] instead of a string makes the constructor raise at that lookup.) *)
Theorem reffreq_units_default {S} (s : S) xarr (u : string) frame' xtype'
    reffreq' redshift' :
  (exists ax,
     result (run (SpectroscopicAxis_new xarr (Some u) frame' xtype' reffreq'
                    redshift' None) s) = Ret ax /\
     reffreq_units ax =
       if bool_decide (is_Some (frequency_dict !! lower u)) then Some u
       else Some "Hz") /\
  result (run (SpectroscopicAxis_new xarr None frame' xtype' reffreq' redshift'
                 None) s) = Raise AttributeError.
Proof.
  split.
  - destruct (SpectroscopicAxis_new_returns s xarr u frame' xtype' reffreq' redshift'
                None) as (ax & out & Hrun & _ & _ & _ & _ & _ & _ & Hru & _).
    exists ax. rewrite Hrun. split; [reflexivity | exact Hru].
  - unfold run, result, SpectroscopicAxis_new, bind.
    destruct xtype' as [|k|]; [reflexivity| |reflexivity].
    destruct (xtype_dict !! k) as [t|] eqn:Hk; [|reflexivity].
    destruct (xtype_dict_frame_dict k t Hk) as [f ->]. reflexivity.
Qed.

(** C2, on the code: the convention is derived from the axis's [xtype]
    after [xtype_dict] has replaced the given name, so a given ['VOPT'], which
    holds ["OPT"], yields the radio convention and not the optical one, as
    does every other key of [xtype_dict]. *)
Theorem VOPT_convention_is_radio {S} (s : S) xarr (u : string) frame' reffreq'
    redshift' reffreq_units' :
  (exists ax,
     result (run (SpectroscopicAxis_new xarr (Some u) frame' (PyStr "VOPT") reffreq'
                    redshift' reffreq_units') s) = Ret ax /\
     xtype ax = Some "velocity" /\
     velocity_convention ax = Some "radio" /\
     str_in "OPT" "VOPT" = true) /\
  (forall k t, xtype_dict !! k = Some t ->
     exists ax,
       result (run (SpectroscopicAxis_new xarr (Some u) frame' (PyStr k) reffreq'
                      redshift' reffreq_units') s) = Ret ax /\
       velocity_convention ax = Some "radio").
Proof.
  assert (Hall : forall k t, xtype_dict !! k = Some t ->
            exists ax,
              result (run (SpectroscopicAxis_new xarr (Some u) frame' (PyStr k)
                             reffreq' redshift' reffreq_units') s) = Ret ax /\
              xtype ax = Some t /\ velocity_convention ax = Some "radio").
  { intros k t Hk.
    destruct (SpectroscopicAxis_new_returns s xarr u frame' (PyStr k) reffreq'
                redshift' reffreq_units')
      as (ax & out & Hrun & _ & _ & _ & _ & _ & Hconv & _ & Hx).
    exists ax. rewrite Hrun. specialize (Hx k t eq_refl Hk).
    repeat split; [exact Hx|]. rewrite Hconv, Hx.
    by apply (xtype_dict_convention k). }
  split.
  - destruct (Hall "VOPT" "velocity" eq_refl) as (ax & Hrun & Hx & Hconv).
    exists ax. by repeat split.
  - intros k t Hk. destruct (Hall k t Hk) as (ax & Hrun & _ & Hconv). eauto.
Qed.

(** ** The Doppler converters *)

(** C5: under the radio convention with the reference frequency
    115271.202 MHz, a velocity of 0 km/s gives the reference frequency itself
    (in MHz, and 115271202000 when Hz are asked for), and a velocity of
    299792.458 km/s, the speed of light, gives the frequency 0; for a Python
    scalar and for an array alike. *)
Theorem radio_reference_frequency {S} (s : S) :
  let CO := Some 115271.202%float in
  run (velocity_to_frequency (Scalar 0) (Some "km/s") CO (Some "MHz")
         (Some "MHz") (Some "radio")) s
    = (Ret (Some (Scalar 115271.202)), s, []) /\
  run (velocity_to_frequency (Scalar 0) (Some "km/s") CO (Some "MHz")
         (Some "Hz") (Some "radio")) s
    = (Ret (Some (Scalar 115271202000)), s, []) /\
  run (velocity_to_frequency (Scalar 299792.458) (Some "km/s") CO (Some "MHz")
         (Some "MHz") (Some "radio")) s
    = (Ret (Some (Scalar 0)), s, []) /\
  run (velocity_to_frequency (Array [0; 299792.458]%float) (Some "km/s") CO
         (Some "MHz") (Some "MHz") (Some "radio")) s
    = (Ret (Some (Array [115271.202; 0]%float)), s, []).
Proof. repeat split; vm_compute; reflexivity. Qed.

(** C3, as stated, fails: given values whose unit is already in the target
    table, neither converter returns them. *)
Lemma already_in_domain_not_returned :
  result (run (velocity_to_frequency (Array [1; 2]%float) (Some "GHz")
                 (Some 100%float) (Some "GHz") (Some "Hz") (Some "radio")) tt)
    <> Ret (Some (Array [1; 2]%float)) /\
  result (run (frequency_to_velocity (Array [1; 2]%float) (Some "km/s")
                 (Some 100%float) (Some "GHz") (Some "m/s") (Some "radio")) tt)
    <> Ret (Some (Array [1; 2]%float)).
Proof. split; vm_compute; discriminate. Qed.

(** C3, amended: [velocity_to_frequency] given a unit of the frequency table
    prints a notice and returns [None], whatever the values and the other
    arguments are; [frequency_to_velocity] given a unit of the velocity table
    does the same. Neither raises, and neither returns the values. *)
Theorem already_in_domain_returns_None {S} (s : S) (values : value)
    (uf uv : string) center_frequency center_frequency_units out_units convention :
  is_Some (frequency_dict !! lower uf) ->
  is_Some (velocity_dict !! lower uv) ->
  run (velocity_to_frequency values (Some uf) center_frequency
         center_frequency_units out_units convention) s
    = (Ret None, s, ["Already in frequency units"]) /\
  run (frequency_to_velocity values (Some uv) center_frequency
         center_frequency_units out_units convention) s
    = (Ret None, s, ["Already in velocity units"]).
Proof.
  intros Hf Hv.
  unfold run, velocity_to_frequency, frequency_to_velocity, bind.
  rewrite !ci_contains_Some, !bool_decide_eq_true_2 by assumption.
  split; reflexivity.
Qed.

Lemma already_in_domain_returns_None_witness :
  run (velocity_to_frequency (Array [1; 2]%float) (Some "GHz") (Some 100%float)
         (Some "GHz") (Some "Hz") (Some "radio")) tt
    = (Ret None, tt, ["Already in frequency units"]) /\
  run (frequency_to_velocity (Array [1; 2]%float) (Some "km/s") (Some 100%float)
         (Some "GHz") (Some "Hz") (Some "radio")) tt
    = (Ret None, tt, ["Already in velocity units"]).
Proof.
  apply (already_in_domain_returns_None tt (Array [1; 2]%float) "GHz" "km/s");
    apply (bool_decide_unpack _); vm_compute; exact I.
Defined.

(** ** Laws of computations *)

Section laws.
Context {S : Type} (R : relation S) `{!PreOrder R}.

Lemma law_ret {A} (a : A) : law R (ret a).
Proof. intros s out. split; [reflexivity|]. cbn. by rewrite app_nil_r. Qed.

Lemma law_raise {A} e : law R (raise (A:=A) e).
Proof. intros s out. split; [reflexivity|]. cbn. by rewrite app_nil_r. Qed.

Lemma law_print line : law R (print line).
Proof. intros s out. split; reflexivity. Qed.

Lemma law_get : law R get.
Proof. intros s out. split; [reflexivity|]. cbn. by rewrite app_nil_r. Qed.

Lemma law_modify (f : S -> S) : (forall s, R s (f s)) -> law R (modify f).
Proof. intros Hf s out. split; [apply Hf|]. cbn. by rewrite app_nil_r. Qed.

Lemma law_of_outcome {A} (o : outcome A) : law R (of_outcome o).
Proof. destruct o; [apply law_ret | apply law_raise]. Qed.

Lemma law_bind {A B} (m : M S A) (k : A -> M S B) :
  law R m -> (forall a, law R (k a)) -> law R (bind m k).
Proof.
  intros Hm Hk s out. destruct (Hm s out) as [HR Hout].
  unfold run, result, final, stdout, bind in *. rewrite Hout.
  destruct (m s []) as [[[a|e] s'] o]; cbn in *.
  - destruct (Hk a s' o) as [HR' Ho]. destruct (Hk a s' (out ++ o)) as [_ Ho'].
    unfold run, result, final, stdout in *. rewrite Ho, Ho'. cbn.
    split; [by etrans|]. by rewrite app_assoc.
  - split; [done|]. done.
Qed.

Lemma law_when b (m : M S unit) : law R m -> law R (when b m).
Proof. destruct b; [done|]. intros _. apply law_ret. Qed.

Lemma law_try_except_pass (m : M S unit) : law R m -> law R (try_except_pass m).
Proof.
  intros Hm s out. destruct (Hm s out) as [HR Hout].
  unfold run, result, final, stdout, try_except_pass in *. rewrite Hout.
  destruct (m s []) as [[[a|e] s'] o]; cbn in *; done.
Qed.

Lemma law_ci_contains {V} (d : gmap string V) key : law R (ci_contains d key).
Proof. destruct key; [apply law_ret | apply law_raise]. Qed.

Lemma law_ci_getitem {V} (d : gmap string V) key : law R (ci_getitem d key).
Proof.
  destruct key as [k|]; [|apply law_raise]. cbn.
  destruct (d !! lower k); [apply law_ret | apply law_raise].
Qed.

Lemma law_for_each {A} (l : list A) (body : A -> M S unit) :
  (forall x, law R (body x)) -> law R (for_each l body).
Proof.
  intros Hb. induction l as [|x l IH]; cbn; [apply law_ret|].
  apply law_bind; [apply Hb | intros _; exact IH].
Qed.

Lemma law_collect {A B} (l : list A) (f : A -> M S B) :
  (forall x, law R (f x)) -> law R (collect l f).
Proof.
  intros Hf. induction l as [|x l IH]; cbn; [apply law_ret|].
  apply law_bind; [apply Hf | intros y].
  apply law_bind; [exact IH | intros ys; apply law_ret].
Qed.
End laws.

(** One step of a proof that a computation written with [bind] obeys
    [law R]. *)
Ltac law_side := lazymatch goal with |- PreOrder _ => exact _ | |- _ => idtac end.

Ltac law_step :=
  first
    [ apply law_ret | apply law_raise | apply law_print | apply law_get
    | apply law_of_outcome | apply law_ci_contains | apply law_ci_getitem
    | apply law_when
    | apply law_bind; [..|intros ?]
    | match goal with
      | |- law _ (if ?b then _ else _) => destruct b
      | |- law _ (match ?x with _ => _ end) => destruct x
      end ]; law_side.

Section converters_laws.
Context {S : Type} (R : relation S) `{!PreOrder R}.

Lemma law_velocity_to_frequency v iu cf cfu fu conv :
  law R (velocity_to_frequency v iu cf cfu fu conv).
Proof. unfold velocity_to_frequency. repeat law_step. Qed.

Lemma law_frequency_to_velocity v iu cf cfu vu conv :
  law R (frequency_to_velocity v iu cf cfu vu conv).
Proof. unfold frequency_to_velocity. repeat law_step. Qed.
End converters_laws.

(** ** What [convert_to_unit] never changes *)

#[global] Instance same_shape_preorder : PreOrder same_shape.
Proof.
  split.
  - intros a. by repeat split.
  - intros a b c (?&?&?&?&?&?) (?&?&?&?&?&?). repeat split; congruence.
Qed.

Lemma law_setitem_all r : law same_shape (setitem_all r).
Proof.
  intros s out. unfold run, result, final, stdout, setitem_all, bind, get.
  destruct r as [[y|ys]|]; cbn.
  - rewrite app_nil_r. split; [|done]. repeat split; cbn. by rewrite length_fmap.
  - destruct (length ys =? length (data s))%nat eqn:Hlen; cbn.
    + rewrite app_nil_r. apply Nat.eqb_eq in Hlen. split; [|done]. by repeat split.
    + destruct ys as [|y [|y' ys]]; cbn; rewrite app_nil_r.
      * split; [reflexivity | done].
      * split; [|done]. repeat split; cbn. by rewrite length_fmap.
      * split; [reflexivity | done].
  - rewrite app_nil_r. split; [|done]. repeat split; cbn. by rewrite length_fmap.
Qed.

Lemma law_recompute_dxarr : law same_shape recompute_dxarr.
Proof. apply law_modify; law_side. intros s. by repeat split. Qed.

Lemma law_xtype_table (R : relation SpectroscopicAxis) `{!PreOrder R} :
  law R xtype_table.
Proof. unfold xtype_table. repeat law_step. Qed.

Ltac axis_step :=
  first
    [ apply law_setitem_all | apply law_recompute_dxarr
    | apply law_xtype_table; law_side
    | apply law_velocity_to_frequency; law_side
    | apply law_frequency_to_velocity; law_side
    | apply law_modify; law_side; intros ?; repeat split; cbn; by rewrite ?length_fmap
    | law_step ].

Lemma law_convert_xtype unit' cf cfu : law same_shape (convert_xtype unit' cf cfu).
Proof. unfold convert_xtype. repeat axis_step. Qed.

Lemma law_rescale unit' change_units quiet :
  law same_shape (rescale unit' change_units quiet).
Proof. unfold rescale. repeat axis_step. Qed.

Lemma law_notice_frame (R : relation SpectroscopicAxis) `{!PreOrder R}
    frame' change_frame quiet :
  law R (notice_frame frame' change_frame quiet).
Proof. unfold notice_frame. repeat law_step. Qed.

Lemma law_notice_already (R : relation SpectroscopicAxis) `{!PreOrder R}
    cu cx cf quiet :
  law R (notice_already cu cx cf quiet).
Proof. unfold notice_already. repeat law_step. Qed.

Lemma law_convert_to_unit unit' frame' quiet cf cfu :
  law same_shape (convert_to_unit unit' frame' quiet cf cfu).
Proof.
  unfold convert_to_unit.
  repeat first
    [ apply law_convert_xtype | apply law_rescale
    | apply law_notice_frame; law_side
    | apply law_notice_already; law_side | axis_step ].
Qed.

Lemma bind_run {S A B} (R : relation S) (m : M S A) (k : A -> M S B) s out :
  law R m ->
  bind m k s out =
    match result (run m s) with
    | Ret a => k a (final (run m s)) (out ++ stdout (run m s))
    | Raise e => (Raise e, final (run m s), out ++ stdout (run m s))
    end.
Proof.
  intros Hm. destruct (Hm s out) as [_ Heq]. unfold bind. rewrite Heq.
  by destruct (result (run m s)).
Qed.

Lemma law_final {S A} (R : relation S) (m : M S A) s :
  law R m -> R s (final (run m s)).
Proof. intros Hm. by destruct (Hm s []) as [HR _]. Qed.

(** C7: whatever [convert_to_unit] is asked, and whether it returns or
    raises, the frame of the axis after the call is the frame before it; when
    the call returns, was not quiet and was asked a frame other than the
    axis's, the output holds the notice that the conversion of the frame is
    not supported. *)
Theorem convert_to_unit_keeps_frame (self : SpectroscopicAxis) unit' frame'
    quiet center_frequency center_frequency_units :
  let r := run (convert_to_unit unit' frame' quiet center_frequency
                  center_frequency_units) self in
  frame (final r) = frame self /\
  (result r = Ret tt -> quiet = false -> frame' <> frame self ->
   In ("Conversion from frame " +:+ pct_s (frame self) +:+ " to "
       +:+ pct_s frame' +:+ " is not yet supported") (stdout r)).
Proof.
  cbv zeta. split.
  { apply (law_final same_shape), law_convert_to_unit. }
  unfold run, result, stdout.
  destruct (convert_to_unit _ _ _ _ _ self []) as [[res s'] o] eqn:Hrun.
  cbn. intros -> -> Hframe.
  unfold convert_to_unit in Hrun. unfold bind at 1 in Hrun. cbn [get] in Hrun.
  rewrite (bind_run same_shape) in Hrun by (apply law_xtype_table; exact _).
  pose proof (law_final same_shape xtype_table self (law_xtype_table _)) as H1.
  destruct (result (run xtype_table self)) as [t|]; [|discriminate].
  set (s1 := final (run xtype_table self)) in *. set (o1 := [] ++ _) in Hrun.
  clearbody s1 o1.
  rewrite (bind_run same_shape) in Hrun by (apply law_ci_contains; exact _).
  pose proof (law_final same_shape (ci_contains (table_dict t) unit') s1
                ltac:(apply law_ci_contains; exact _)) as H2.
  destruct (result (run (ci_contains (table_dict t) unit') s1)) as [known|];
    [|discriminate].
  set (s2 := final (run _ s1)) in *. set (o2 := o1 ++ _) in Hrun.
  clearbody s2 o2.
  rewrite (bind_run same_shape) in Hrun
    by (apply law_when; [exact _ | apply law_convert_xtype]).
  match type of Hrun with context [result (run ?m s2)] =>
    pose proof (law_final same_shape m s2
                  ltac:(apply law_when; [exact _ | apply law_convert_xtype])) as H3;
    destruct (result (run m s2)) as [[]|]; [|discriminate];
    set (s3 := final (run m s2)) in *; set (o3 := o2 ++ _) in Hrun; clearbody s3 o3
  end.
  rewrite (bind_run same_shape) in Hrun by apply law_rescale.
  match type of Hrun with context [result (run ?m s3)] =>
    pose proof (law_final same_shape m s3 ltac:(apply law_rescale)) as H4;
    destruct (result (run m s3)) as [[]|]; [|discriminate];
    set (s4 := final (run m s3)) in *; set (o4 := o3 ++ _) in Hrun; clearbody s4 o4
  end.
  assert (Hf : frame s4 = frame self).
  { destruct H1 as [E1 _], H2 as [E2 _], H3 as [E3 _], H4 as [E4 _]. congruence. }
  assert (Hne : name_neb frame' (frame self) = true).
  { unfold name_neb, name_eqb. by rewrite bool_decide_eq_false_2. }
  unfold notice_frame, notice_already, get, bind in Hrun.
  rewrite Hf, Hne in Hrun. cbn [andb negb when print] in Hrun.
  match type of Hrun with context [when ?b _] => destruct b end;
    cbn in Hrun; injection Hrun as _ <-; rewrite !in_app_iff; cbn; tauto.
Qed.

Lemma convert_to_unit_keeps_frame_witness :
  frame (final (run (convert_to_unit (Some "m/s") (Some "LSRK") false None None)
                  axis_kms)) = Some "rest" /\
  In "Conversion from frame rest to LSRK is not yet supported"
     (stdout (run (convert_to_unit (Some "m/s") (Some "LSRK") false None None)
                axis_kms)).
Proof.
  destruct (convert_to_unit_keeps_frame axis_kms (Some "m/s") (Some "LSRK") false
              None None) as [Hframe Hnotice].
  split; [exact Hframe|].
  apply Hnotice; [vm_compute; reflexivity | reflexivity | discriminate].
Defined.

(** C6: asked for the unit the axis already has, a unit of the table of the
    axis's [xtype], and for the frame the axis already has, [convert_to_unit]
    returns and leaves the axis as it was, samples included; unless it was
    told to be quiet (it is not by default) it prints the one notice that
    nothing had to be done. *)
Theorem convert_to_unit_same_is_noop (self : SpectroscopicAxis) (u xt : string)
    (t : table) (quiet : bool) center_frequency center_frequency_units :
  xtype self = Some xt ->
  conversion_dict !! lower xt = Some t ->
  is_Some (table_dict t !! lower u) ->
  units self = Some u ->
  run (convert_to_unit (Some u) (frame self) quiet center_frequency
         center_frequency_units) self
    = (Ret tt, self,
       if quiet then [] else ["Already in desired units, X-type, and frame"]).
Proof.
  intros Hxt Ht Hu Hunits.
  unfold run, convert_to_unit, rescale, notice_frame, notice_already, xtype_table.
  unfold bind, get. rewrite Hxt. cbn [ci_getitem]. rewrite Ht.
  cbn [ret]. rewrite ci_contains_Some, bool_decide_eq_true_2 by exact Hu.
  cbn [negb when ret]. rewrite Hunits. unfold name_neb, name_eqb.
  rewrite !bool_decide_eq_true_2 by reflexivity. by destruct quiet.
Qed.

Lemma convert_to_unit_same_is_noop_witness :
  run (convert_to_unit (Some "km/s") (Some "rest") false None None) axis_kms
    = (Ret tt, axis_kms, ["Already in desired units, X-type, and frame"]).
Proof.
  apply (convert_to_unit_same_is_noop axis_kms "km/s" "velocity" velocity_table
           false);
    [reflexivity | vm_compute; reflexivity
    | apply (bool_decide_unpack _); vm_compute; exact I | reflexivity].
Defined.

(** ** IEEE facts used by the channel spacing

    Proved from the specification of the primitive floats. *)

Module IEEE.

Local Open Scope Z_scope.

Lemma SFcompare_refl x : x <> S754_nan -> SFcompare x x = Some Eq.
Proof.
  destruct x as [s|s| |s m e]; cbn; try done.
  - by destruct s.
  - intros _. rewrite Z.compare_refl, Pos.compare_cont_refl. by destruct s.
Qed.

Lemma is_nan_true a : PrimFloat.is_nan a = true -> Prim2SF a = S754_nan.
Proof.
  unfold PrimFloat.is_nan. rewrite FloatAxioms.eqb_spec. unfold SFeqb. intros H.
  destruct (Prim2SF a) as [s|s| |s m e] eqn:Ha; [..|done|];
    by rewrite SFcompare_refl in H.
Qed.

Lemma is_nan_false a : PrimFloat.is_nan a = false -> (a <=? a)%float = true.
Proof.
  unfold PrimFloat.is_nan. rewrite FloatAxioms.eqb_spec, FloatAxioms.leb_spec.
  unfold SFeqb, SFleb.
  by destruct (SFcompare (Prim2SF a) (Prim2SF a)) as [[]|].
Qed.

Lemma leb_nan_r a x : PrimFloat.is_nan a = true -> (x <=? a)%float = false.
Proof.
  intros H. rewrite FloatAxioms.leb_spec, (is_nan_true a H). unfold SFleb.
  by destruct (Prim2SF x).
Qed.

Lemma leb_nan_l a x : PrimFloat.is_nan a = true -> (a <=? x)%float = false.
Proof. intros H. by rewrite FloatAxioms.leb_spec, (is_nan_true a H). Qed.

(** *** Equality of numbers

    [==] holds between two zeros of any sign and between two identical
    numbers other than [nan]; so two numbers equal to a third are equal. *)

Lemma SFeqb_true x y :
  SFeqb x y = true ->
  match x, y with
  | S754_zero _, S754_zero _ => True
  | S754_infinity s, S754_infinity s' => s = s'
  | S754_finite s m e, S754_finite s' m' e' => s = s' /\ m = m' /\ e = e'
  | _, _ => False
  end.
Proof.
  unfold SFeqb.
  destruct x as [s|s| |s m e], y as [s'|s'| |s' m' e']; cbn; try done;
    try (by destruct s); try (by destruct s'); try (by destruct s, s').
  destruct s, s'; try done.
  all: destruct (Z.compare_spec e e') as [->|?|?]; try done.
  all: rewrite Pos.compare_cont_spec; cbn.
  all: destruct (Pos.compare_spec m m') as [->|?|?]; try done.
Qed.

Lemma eqb_euclid (x a b : float) :
  (x =? a)%float = true -> (x =? b)%float = true -> (a =? b)%float = true.
Proof.
  rewrite !FloatAxioms.eqb_spec. intros Ha%SFeqb_true Hb%SFeqb_true.
  destruct (Prim2SF x) as [s|s| |s m e], (Prim2SF a) as [sa|sa| |sa ma ea];
    try done; destruct (Prim2SF b) as [sb|sb| |sb mb eb]; try done.
  - subst. unfold SFeqb. cbn. by destruct sb.
  - destruct Ha as (<-&<-&<-), Hb as (<-&<-&<-).
    unfold SFeqb. by rewrite SFcompare_refl.
Qed.

(** *** The sign of a rounded integer *)

Lemma binary_round_aux_sign s m e l :
  match binary_round_aux prec emax s m e l with
  | S754_nan => True
  | S754_zero s' | S754_infinity s' | S754_finite s' _ _ => s' = s
  end.
Proof.
  unfold binary_round_aux.
  destruct (shr_fexp prec emax m e l) as [mrs' e'].
  destruct (shr_fexp prec emax _ e' loc_Exact) as [mrs'' e''].
  destruct (shr_m mrs''); [done| |done].
  by destruct (e'' <=? emax - prec).
Qed.

Lemma binary_normalize_nonneg m e :
  0 <= m -> nonneg_sf (binary_normalize prec emax m e false).
Proof.
  intros Hm. destruct m as [|p|p]; [done| |lia].
  unfold binary_normalize, binary_round.
  destruct (shl_align p e _) as [mz ez].
  pose proof (binary_round_aux_sign false (Z.pos mz) ez loc_Exact) as H.
  by destruct (binary_round_aux prec emax false (Z.pos mz) ez loc_Exact).
Qed.

(** *** Mantissas of valid numbers *)

Lemma digits2_pos_bounds (m : positive) :
  2 ^ (Z.pos (digits2_pos m) - 1) <= Z.pos m < 2 ^ Z.pos (digits2_pos m).
Proof.
  induction m as [m IH|m IH|]; cbn [digits2_pos]; [| |by cbn].
  all: rewrite Pos2Z.inj_succ;
    replace (Z.succ (Z.pos (digits2_pos m)) - 1)
      with (Z.succ (Z.pos (digits2_pos m) - 1)) by lia;
    rewrite !Z.pow_succ_r by lia; lia.
Qed.

Lemma shl_align_value m e e' :
  e' <= e -> Z.pos (shl_align m e e').1 = Z.pos m * 2 ^ (e - e').
Proof.
  intros He. unfold shl_align.
  destruct (e' - e) as [|d|d] eqn:Hd; cbn [fst]; [|lia|].
  - replace (e - e') with 0 by lia. lia.
  - replace (e - e') with (Z.pos d) by lia.
    change (Pos.iter xO m d) with (shift_pos d m).
    rewrite shift_pos_correct, Zpower_pos_nat, Zpower_nat_Z, positive_nat_Z. lia.
Qed.

(** Among valid numbers of one sign, the one with the larger exponent has
    the larger magnitude. *)
Lemma bounded_exponent_lt m1 e1 m2 e2 :
  bounded prec emax m1 e1 = true -> bounded prec emax m2 e2 = true ->
  e1 < e2 -> Z.pos m1 <= Z.pos m2 * 2 ^ (e2 - e1).
Proof.
  unfold bounded, canonical_mantissa, fexp, emin.
  intros [H1 _]%andb_prop [H2 _]%andb_prop He.
  apply Z.eqb_eq in H1, H2.
  pose proof (digits2_pos_bounds m1) as [_ B1].
  pose proof (digits2_pos_bounds m2) as [B2 _].
  assert (D2 : Z.pos (digits2_pos m2) = prec) by lia.
  assert (D1 : Z.pos (digits2_pos m1) <= prec) by lia.
  assert (P1 : 2 ^ Z.pos (digits2_pos m1) <= 2 ^ prec)
    by (apply Z.pow_le_mono_r; lia).
  assert (P2 : 2 ^ 1 <= 2 ^ (e2 - e1)) by (apply Z.pow_le_mono_r; lia).
  rewrite D2 in B2.
  assert (P3 : 2 ^ prec = 2 ^ (prec - 1) * 2 ^ 1)
    by (rewrite <- Z.pow_add_r by (unfold prec; lia); f_equal; lia).
  change (2 ^ 1) with 2 in *. nia.
Qed.

(** *** The difference of two ordered numbers *)

Lemma SFsub_nonneg x y :
  SpecFloat.valid_binary prec emax x = true ->
  SpecFloat.valid_binary prec emax y = true ->
  SFleb y x = true -> nonneg_sf (SFsub prec emax x y).
Proof.
  intros Vx Vy. unfold SFleb.
  destruct x as [sx|sx| |sx mx ex], y as [sy|sy| |sy my ey]; cbn;
    try done; try (by destruct sx); try (by destruct sy);
    try (by destruct sx, sy).
  intros Hle. apply binary_normalize_nonneg.
  rewrite !shl_align_value by lia. cbn in Vx, Vy.
  destruct sx, sy; cbn [cond_Zopp]; try done.
  - destruct (Z.compare_spec ey ex) as [->|He|He]; try done.
    + rewrite Z.min_id, Z.sub_diag, !Z.mul_1_r.
      rewrite Pos.compare_cont_spec in Hle. cbn in Hle.
      destruct (Pos.compare_spec my mx); cbn in Hle; try done; lia.
    + rewrite Z.min_l by lia. rewrite Z.sub_diag, Z.mul_1_r.
      pose proof (bounded_exponent_lt mx ex my ey Vx Vy ltac:(lia)). lia.
  - pose proof (Z.pow_nonneg 2 (ex - ex `min` ey) ltac:(lia)).
    pose proof (Z.pow_nonneg 2 (ey - ex `min` ey) ltac:(lia)). nia.
  - destruct (Z.compare_spec ey ex) as [->|He|He]; try done.
    + rewrite Z.min_id, Z.sub_diag, !Z.mul_1_r.
      rewrite Pos.compare_cont_spec in Hle. cbn in Hle.
      destruct (Pos.compare_spec my mx); cbn in Hle; try done; lia.
    + rewrite Z.min_r by lia. rewrite Z.sub_diag, Z.mul_1_r.
      pose proof (bounded_exponent_lt my ey mx ex Vy Vx ltac:(lia)). lia.
Qed.

Lemma sub_nonneg (hi lo : float) :
  (lo <=? hi)%float = true -> nonneg_sf (Prim2SF (hi - lo)).
Proof.
  rewrite FloatAxioms.leb_spec, sub_spec.
  apply SFsub_nonneg; apply Prim2SF_valid.
Qed.

Lemma sub_nan (hi lo : float) :
  PrimFloat.is_nan hi = true -> nonneg_sf (Prim2SF (hi - lo)).
Proof. intros H. by rewrite sub_spec, (is_nan_true hi H). Qed.

(** On such a difference [abs] changes nothing that a comparison of a
    quotient sees. *)
Lemma abs_div_ltb (d a tol : float) :
  nonneg_sf (Prim2SF d) ->
  (PrimFloat.abs d / a <? tol)%float = (d / a <? tol)%float.
Proof.
  intros Hd.
  destruct (Prim2SF d) as [s|s| |s m e] eqn:Ed; cbn in Hd.
  - rewrite !FloatAxioms.ltb_spec, !div_spec, abs_spec, Ed.
    unfold SF64div, SFltb. by destruct (Prim2SF a) as [| | |]; cbn.
  - subst s. replace (PrimFloat.abs d) with d; [done|].
    apply Prim2SF_inj. by rewrite abs_spec, Ed.
  - replace (PrimFloat.abs d) with d; [done|].
    apply Prim2SF_inj. by rewrite abs_spec, Ed.
  - subst s. replace (PrimFloat.abs d) with d; [done|].
    apply Prim2SF_inj. by rewrite abs_spec, Ed.
Qed.

(** *** The largest and the smallest element of an array *)

Lemma ordered_step lo hi b :
  PrimFloat.is_nan hi = PrimFloat.is_nan lo ->
  ordered lo hi ->
  PrimFloat.is_nan (np_maximum hi b) = PrimFloat.is_nan (np_minimum lo b) /\
  ordered (np_minimum lo b) (np_maximum hi b).
Proof.
  unfold ordered, np_maximum, np_minimum. intros Hn Ho.
  destruct (PrimFloat.is_nan hi) eqn:Hhi.
  - rewrite <- Hn, !orb_true_r, Hhi. auto.
  - rewrite <- Hn, !orb_false_r. destruct Ho as [|Ho]; [done|].
    destruct (PrimFloat.is_nan b) eqn:Hb.
    + rewrite (leb_nan_l b hi Hb), (leb_nan_r b lo Hb), Hb. auto.
    + destruct (b <=? hi)%float eqn:H1, (lo <=? b)%float eqn:H2;
        rewrite ?Hhi, ?Hb, <- ?Hn; split; auto using is_nan_false.
Qed.

Lemma ordered_fold rest : forall lo hi,
  PrimFloat.is_nan hi = PrimFloat.is_nan lo -> ordered lo hi ->
  ordered (fold_left np_minimum rest lo) (fold_left np_maximum rest hi).
Proof.
  induction rest as [|b rest IH]; intros lo hi Hn Ho; [done|]. cbn.
  destruct (ordered_step lo hi b Hn Ho). by apply IH.
Qed.

Lemma extrema_nonneg (x : list float) (hi lo : float) :
  reduce np_maximum x = Ret hi -> reduce np_minimum x = Ret lo ->
  nonneg_sf (Prim2SF (hi - lo)).
Proof.
  destruct x as [|a rest]; [done|]. cbn. intros [= <-] [= <-].
  destruct (ordered_fold rest a a eq_refl) as [H|H].
  - unfold ordered. destruct (PrimFloat.is_nan a) eqn:Ha; auto using is_nan_false.
  - by apply sub_nan.
  - by apply sub_nonneg.
Qed.

End IEEE.

(** ** A conversion that raises leaves the axis as it was *)

Ltac pure_law :=
  repeat first
    [ apply law_xtype_table; law_side
    | apply law_velocity_to_frequency; law_side
    | apply law_frequency_to_velocity; law_side
    | apply law_notice_frame; law_side
    | apply law_notice_already; law_side
    | law_step ].

(** A computation that leaves the store alone, followed by another. *)
Lemma bind_pure {S A B} (m : M S A) (k : A -> M S B) s out :
  law eq m ->
  bind m k s out =
    match result (run m s) with
    | Ret a => k a s (out ++ stdout (run m s))
    | Raise e => (Raise e, s, out ++ stdout (run m s))
    end.
Proof.
  intros Hm. rewrite (bind_run eq) by exact Hm.
  by rewrite <- (law_final eq m s Hm).
Qed.

(** After [self[:] = r] succeeded, the three assignments that follow it in
    [convert_to_unit] cannot fail, and the axis has the unit [u]. *)
Lemma assign_converted (r : option value) (xt u : name) s out res s' o :
  bind (setitem_all r) (fun _ =>
    bind (modify (set_xtype xt)) (fun _ =>
      bind (modify (set_units u)) (fun _ => recompute_dxarr))) s out
    = (res, s', o) ->
  s' = s \/ (res = Ret tt /\ units s' = u /\ dxarr s' = Some (diff (data s'))).
Proof.
  unfold setitem_all, bind, get, modify, recompute_dxarr, raise.
  destruct r as [[y|ys]|]; cbn.
  - intros [= <- <- _]. auto.
  - destruct (length ys =? length (data s))%nat; cbn; [intros [= <- <- _]; auto|].
    destruct ys as [|y [|y' ys]]; cbn; intros [= <- <- _]; auto.
  - intros [= <- <- _]. auto.
Qed.

Tactic Notation "pure_bind" hyp(H) constr(s) "as" simple_intropattern(p) :=
  rewrite bind_pure in H by pure_law;
  match type of H with context [result (run ?m s)] =>
    destruct (result (run m s)) as p
  end.

Lemma convert_xtype_cases u cf cfu s out res s' o :
  convert_xtype u cf cfu s out = (res, s', o) ->
  s' = s \/ (res = Ret tt /\ units s' = u /\ dxarr s' = Some (diff (data s'))).
Proof.
  unfold convert_xtype. unfold bind at 1, get at 1. intros H.
  pure_bind H s as [[]|]; [| |injection H; auto].
  - pure_bind H s as [r|]; [|injection H; auto].
    by apply assign_converted in H.
  - pure_bind H s as [[]|]; [| |injection H; auto].
    + pure_bind H s as [r|]; [|injection H; auto].
      by apply assign_converted in H.
    + injection H; auto.
Qed.

Lemma rescale_raises u change_units quiet s out e s' o :
  rescale u change_units quiet s out = (Raise e, s', o) -> s' = s.
Proof.
  unfold rescale. unfold bind at 1, get at 1.
  destruct (name_neb u (units s) && change_units); [|discriminate].
  intros H.
  repeat (pure_bind H s as [?|?]; [|by injection H]).
  discriminate.
Qed.

Lemma rescale_same_unit change_units quiet s out :
  rescale (units s) change_units quiet s out = (Ret tt, s, out).
Proof.
  unfold rescale, bind, get, name_neb, name_eqb.
  by rewrite bool_decide_eq_true_2.
Qed.

Lemma notices_return (frame' : name) cu cx cf quiet s out :
  exists out',
    bind (notice_frame frame' cf quiet) (fun _ => notice_already cu cx cf quiet) s out
      = (Ret tt, s, out').
Proof.
  unfold notice_frame, notice_already, bind, get, when, print, ret.
  destruct cf, quiet, cu, cx; cbn; eauto.
Qed.

Lemma convert_to_unit_atomic u frame' quiet cf cfu self out e s' o :
  convert_to_unit u frame' quiet cf cfu self out = (Raise e, s', o) -> s' = self.
Proof.
  unfold convert_to_unit. unfold bind at 1, get at 1. intros H.
  pure_bind H self as [t|]; [|by injection H].
  pure_bind H self as [known|]; [|by injection H].
  unfold bind at 1 in H.
  match type of H with context [when (negb known) ?m self ?o1] =>
    destruct (when (negb known) m self o1) as [[[[]|e1] s1] o1'] eqn:Hx
  end; [|destruct known; cbn [negb when] in Hx;
         [discriminate | apply convert_xtype_cases in Hx as [->|[? _]];
                         [by injection H | done]]].
  assert (Hs1 : s1 = self \/ units s1 = u).
  { destruct known; cbn [negb when] in Hx; [injection Hx; auto|].
    apply convert_xtype_cases in Hx as [->|(_ & ? & _)]; auto. }
  unfold bind at 1 in H.
  match type of H with context [rescale u ?cu quiet s1 o1'] =>
    destruct (rescale u cu quiet s1 o1') as [[[[]|e2] s2] o2] eqn:Hr
  end.
  - match type of H with
      context [bind (notice_frame _ ?chf _) (fun _ => notice_already ?a ?b _ _)] =>
      destruct (notices_return frame' a b chf quiet s2 o2) as [out' Hn]
    end.
    rewrite Hn in H. discriminate.
  - injection H as _ <- _.
    destruct Hs1 as [->|Hu].
    + by apply rescale_raises in Hr.
    + subst u. by rewrite rescale_same_unit in Hr.
Qed.

(** ** The cached differences stay those of the samples *)

Lemma rescale_dxarr u change_units quiet s out res s' o :
  rescale u change_units quiet s out = (res, s', o) ->
  s' = s \/ dxarr s' = Some (diff (data s')).
Proof.
  unfold rescale. unfold bind at 1, get at 1.
  destruct (name_neb u (units s) && change_units); [|intros [= _ <- _]; by left].
  intros H.
  do 6 (pure_bind H s as [?|?]; [|injection H; auto]).
  unfold bind, modify, recompute_dxarr in H. injection H as _ <- _. by right.
Qed.

Lemma convert_to_unit_dxarr u frame' quiet cf cfu self out res s' o :
  convert_to_unit u frame' quiet cf cfu self out = (res, s', o) ->
  s' = self \/ dxarr s' = Some (diff (data s')).
Proof.
  unfold convert_to_unit. unfold bind at 1, get at 1. intros H.
  pure_bind H self as [t|]; [|injection H; auto].
  pure_bind H self as [known|]; [|injection H; auto].
  unfold bind at 1 in H.
  match type of H with context [when (negb known) ?m self ?o1] =>
    destruct (when (negb known) m self o1) as [[r1 s1] o1'] eqn:Hx
  end.
  assert (Hs1 : s1 = self \/ dxarr s1 = Some (diff (data s1))).
  { destruct known; cbn [negb when] in Hx; [injection Hx; auto|].
    apply convert_xtype_cases in Hx as [->|(_ & _ & ?)]; auto. }
  destruct r1 as [[]|e1]; [|injection H as _ <- _; exact Hs1].
  unfold bind at 1 in H.
  match type of H with context [rescale u ?cu quiet s1 o1'] =>
    destruct (rescale u cu quiet s1 o1') as [[r2 s2] o2] eqn:Hr
  end.
  assert (Hs2 : s2 = self \/ dxarr s2 = Some (diff (data s2))).
  { apply rescale_dxarr in Hr as [->|?]; auto. }
  destruct r2 as [[]|e2]; [|injection H as _ <- _; exact Hs2].
  match type of H with
    context [bind (notice_frame _ ?chf _) (fun _ => notice_already ?a ?b _ _)] =>
      destruct (notices_return frame' a b chf quiet s2 o2) as [out' Hn]
  end.
  rewrite Hn in H. injection H as _ <- _. exact Hs2.
Qed.

Lemma dxarr_valid_convert_to_unit u frame' quiet cf cfu self :
  dxarr_valid self ->
  dxarr_valid (final (run (convert_to_unit u frame' quiet cf cfu) self)).
Proof.
  intros Hv. unfold run, final.
  destruct (convert_to_unit u frame' quiet cf cfu self []) as [[res s'] o] eqn:H.
  apply convert_to_unit_dxarr in H as [->|H]; [done | by right].
Qed.

Lemma dxarr_valid_new {S} (s : S) xarr unit' frame' xtype' reffreq' redshift'
    reffreq_units' ax :
  result (run (SpectroscopicAxis_new xarr unit' frame' xtype' reffreq' redshift'
                 reffreq_units') s) = Ret ax ->
  dxarr_valid ax.
Proof.
  unfold run, result, SpectroscopicAxis_new, bind.
  match goal with |- context [?tf s []] =>
    match tf with context [frame_dict] => destruct (tf s []) as [[[p|e] s1] o1] end
  end; [|discriminate].
  match goal with |- context [?ru s1 o1] =>
    match ru with context [frequency_dict] => destruct (ru s1 o1) as [[[u|e] s2] o2] end
  end; [|discriminate].
  intros [= <-]. by right.
Qed.

(** ** Channel spacing *)

Lemma diff_length (x : list float) : length (diff x) = (length x - 1)%nat.
Proof.
  unfold diff. rewrite length_zip_with, length_drop, length_take. lia.
Qed.

(** The counter of [pairwise_sum_aux] never runs out: any two counters that
    are at least the length of the list give the same sum. *)
Lemma pairwise_sum_aux_fuel (n : nat) : forall (a : list float) (fuel1 fuel2 : nat),
  (length a <= n)%nat -> (n <= fuel1)%nat -> (n <= fuel2)%nat ->
  pairwise_sum_aux fuel1 a = pairwise_sum_aux fuel2 a.
Proof.
  induction n as [|n IH]; intros a fuel1 fuel2 Ha H1 H2.
  - destruct a; [|cbn in Ha; lia]. by destruct fuel1, fuel2.
  - destruct fuel1 as [|fuel1]; [lia|]. destruct fuel2 as [|fuel2]; [lia|].
    cbn [pairwise_sum_aux].
    destruct (length a <? 8)%nat; [done|].
    destruct (length a <=? 128)%nat eqn:Hle; [done|].
    apply Nat.leb_gt in Hle.
    pose proof (Nat.mod_upper_bound (length a / 2) 8 ltac:(lia)) as Hmod.
    pose proof (Nat.div_mod_eq (length a) 2) as Hdiv.
    pose proof (Nat.mod_upper_bound (length a) 2 ltac:(lia)) as Hmod2.
    pose proof (Nat.Div0.mod_le (length a / 2) 8) as Hmle.
    f_equal; apply IH; rewrite ?length_take, ?length_drop; lia.
Qed.

(** Above 128 elements the sum is the sum of those of the two parts. *)
Lemma pairwise_sum_unfold (a : list float) :
  (128 < length a)%nat ->
  let n2 := (length a / 2 - (length a / 2) mod 8)%nat in
  pairwise_sum a = (pairwise_sum (take n2 a) + pairwise_sum (drop n2 a))%float.
Proof.
  intros Hlen n2. unfold pairwise_sum at 1.
  destruct (length a) as [|n] eqn:Hn; [lia|]. cbn [pairwise_sum_aux]. rewrite Hn.
  destruct (S n <? 8)%nat eqn:H8; [apply Nat.ltb_lt in H8; lia|].
  destruct (S n <=? 128)%nat eqn:Hle; [apply Nat.leb_le in Hle; lia|].
  pose proof (Nat.mod_upper_bound (S n / 2) 8 ltac:(lia)) as Hmod.
  pose proof (Nat.div_mod_eq (S n) 2) as Hdiv.
  pose proof (Nat.mod_upper_bound (S n) 2 ltac:(lia)) as Hmod2.
  pose proof (Nat.Div0.mod_le (S n / 2) 8) as Hmle.
  subst n2. unfold pairwise_sum.
  f_equal.
  - apply (pairwise_sum_aux_fuel (length (take (S n / 2 - (S n / 2) mod 8) a)));
      rewrite ?length_take; lia.
  - apply (pairwise_sum_aux_fuel (length (drop (S n / 2 - (S n / 2) mod 8) a)));
      rewrite ?length_drop; lia.
Qed.



(** ** The collection of axes *)

(** [!=] on reference frequencies: two values that both equal a third one
    equal each other. *)
Lemma reffreq_neb_euclid (x a b : option float) :
  reffreq_neb x a = false -> reffreq_neb x b = false -> reffreq_neb a b = false.
Proof.
  destruct x as [x|], a as [a|], b as [b|]; cbn; try done.
  rewrite !negb_false_iff. apply IEEE.eqb_euclid.
Qed.

Lemma coerced_same_shape units0 frame0 a a' :
  coerced units0 frame0 a a' -> same_shape a a'.
Proof.
  induction 1 as [a|a b c (o & o' & Hstep) _ IH]; [reflexivity|].
  etrans; [|exact IH].
  destruct (law_convert_to_unit units0 frame0 false None None a o) as [HR Heq].
  rewrite Hstep in Heq. injection Heq as _ -> _. exact HR.
Qed.

Lemma convert_to_unit_coerced units0 frame0 a out :
  coerced units0 frame0 a
    (convert_to_unit units0 frame0 false None None a out).1.2.
Proof.
  destruct (convert_to_unit _ _ _ _ _ a out) as [[[[]|e] a'] o] eqn:H; cbn.
  - apply rtc_once. eauto.
  - apply convert_to_unit_atomic in H as ->. reflexivity.
Qed.

(** A member on which [convert_to_unit] raises is never changed. *)
Lemma coerced_raise units0 frame0 a a' e :
  result (run (convert_to_unit units0 frame0 false None None) a) = Raise e ->
  coerced units0 frame0 a a' -> a' = a.
Proof.
  intros Hraise Hc. destruct Hc as [|a b c (o & o' & Hstep) _]; [done|].
  destruct (law_convert_to_unit units0 frame0 false None None a o) as [_ Heq].
  rewrite Hstep, Hraise in Heq. discriminate.
Qed.

Lemma deref_valid (h : store) r ax out :
  h !! r = Some ax -> deref r h out = (Ret ax, h, out).
Proof.
  intros H. unfold deref, at_ref, get. rewrite H. cbv beta iota.
  by rewrite list_insert_id.
Qed.

Lemma coerce_member_spec units0 xtype0 frame0 r (h : store) ax out :
  h !! r = Some ax ->
  exists ax' out',
    coerce_member units0 xtype0 frame0 r h out = (Ret tt, <[r := ax']> h, out') /\
    coerced units0 frame0 ax ax'.
Proof.
  intros Hr. unfold coerce_member. unfold bind at 1. rewrite (deref_valid h r ax) by done.
  unfold bind at 1.
  assert (Hx : when (name_neb (xtype ax) xtype0)
                 (try_except_pass (raise AttributeError)) h out = (Ret tt, h, out))
    by (by destruct (name_neb _ _)).
  rewrite Hx. unfold bind. rewrite (deref_valid h r ax) by done.
  destruct (name_neb (units ax) units0 || name_neb (frame ax) frame0); cbn [when].
  - unfold try_except_pass, at_ref. rewrite Hr.
    pose proof (convert_to_unit_coerced units0 frame0 ax out) as Hc.
    destruct (convert_to_unit _ _ _ _ _ ax out) as [[[[]|e] a'] o]; cbn in Hc; eauto.
  - exists ax, out. rewrite list_insert_id by done. split; [done|reflexivity].
Qed.

Lemma Forall2_insert_coerced units0 frame0 (h h' : store) r ax ax' :
  Forall2 (coerced units0 frame0) h h' -> h' !! r = Some ax ->
  coerced units0 frame0 ax ax' ->
  Forall2 (coerced units0 frame0) h (<[r := ax']> h').
Proof.
  intros Hh Hr Hc. apply Forall2_same_length_lookup. split.
  - rewrite length_insert. by eapply Forall2_length.
  - intros i x y Hx Hy. destruct (decide (i = r)) as [->|Hne].
    + rewrite list_lookup_insert_eq in Hy by (by eapply lookup_lt_Some).
      injection Hy as <-.
      destruct (Forall2_lookup_l _ _ _ _ _ Hh Hx) as (y & Hy & Hxy).
      rewrite Hr in Hy. injection Hy as <-. by etrans.
    + rewrite list_lookup_insert_ne in Hy by done.
      destruct (Forall2_lookup_l _ _ _ _ _ Hh Hx) as (y' & Hy' & Hxy).
      congruence.
Qed.

Lemma for_each_coerce units0 xtype0 frame0 (l : list nat) :
  forall (h h1 : store) out,
    Forall2 (coerced units0 frame0) h h1 ->
    Forall (fun r => is_Some (h !! r)) l ->
    exists h' out',
      for_each l (coerce_member units0 xtype0 frame0) h1 out = (Ret tt, h', out') /\
      Forall2 (coerced units0 frame0) h h'.
Proof.
  induction l as [|r l IH]; intros h h1 out Hh Hl; cbn.
  - eauto.
  - apply Forall_cons in Hl as [[a Hr] Hl].
    destruct (Forall2_lookup_l _ _ _ _ _ Hh Hr) as (a1 & Hr1 & Ha).
    destruct (coerce_member_spec units0 xtype0 frame0 r h1 a1 out Hr1)
      as (a' & out' & Hrun & Hc).
    unfold bind. rewrite Hrun.
    apply (IH h); [|done].
    by eapply Forall2_insert_coerced.
Qed.

Lemma collect_deref {B} (f : SpectroscopicAxis -> B) (l : list nat)
    (h : store) axes out :
  Forall2 (fun r a => h !! r = Some a) l axes ->
  collect l (fun r => bind (deref r) (fun ax => ret (f ax))) h out
    = (Ret (f <$> axes), h, out).
Proof.
  induction 1 as [|r a l axes Hr _ IH]; cbn; [done|].
  unfold bind at 1 2. rewrite (deref_valid h r a) by done. cbn [ret].
  unfold bind at 1. by rewrite IH.
Qed.

Lemma collect_deref2 {B} (f : SpectroscopicAxis -> SpectroscopicAxis -> B)
    (first : nat) a0 (l : list nat) (h : store) axes out :
  h !! first = Some a0 ->
  Forall2 (fun r a => h !! r = Some a) l axes ->
  collect l (fun r => bind (deref first) (fun a0 =>
                        bind (deref r) (fun ax => ret (f a0 ax)))) h out
    = (Ret (f a0 <$> axes), h, out).
Proof.
  intros H0. induction 1 as [|r a l axes Hr _ IH]; cbn; [done|].
  unfold bind at 1 2. rewrite (deref_valid h first a0) by done.
  unfold bind at 1. rewrite (deref_valid h r a) by done. cbn [ret].
  unfold bind at 1. by rewrite IH.
Qed.

Lemma lookup_coerced units0 frame0 (h h' : store) (l : list nat) axes :
  Forall2 (coerced units0 frame0) h h' ->
  Forall2 (fun r a => h !! r = Some a) l axes ->
  exists axes',
    Forall2 (fun r a => h' !! r = Some a) l axes' /\
    Forall2 (coerced units0 frame0) axes axes'.
Proof.
  intros Hh. induction 1 as [|r a l axes Hr _ (axes' & IH1 & IH2)].
  - exists []. by split.
  - destruct (Forall2_lookup_l _ _ _ _ _ Hh Hr) as (a' & Hr' & Ha).
    exists (a' :: axes'). split; by constructor.
Qed.

Lemma count_true_existsb (l : list bool) :
  (0 <? length (filter (fun b => b = true) l))%nat = existsb id l.
Proof.
  induction l as [|[] l IH]; [done| |].
  - by rewrite filter_cons_True.
  - by rewrite filter_cons_False.
Qed.

Lemma existsb_reffreq_coerced units0 frame0 x axes axes' :
  Forall2 (coerced units0 frame0) axes axes' ->
  existsb id ((fun a => reffreq_neb x (reffreq a)) <$> axes')
    = existsb (fun a => reffreq_neb x (reffreq a)) axes.
Proof.
  induction 1 as [|a a' axes axes' Ha _ IH]; [done|]. cbn.
  apply coerced_same_shape in Ha as (_ & -> & _). by rewrite IH.
Qed.

Lemma length_concat_coerced units0 frame0 axes axes' :
  Forall2 (coerced units0 frame0) axes axes' ->
  length (concat (data <$> axes')) = sum_list ((fun a => length (data a)) <$> axes).
Proof.
  induction 1 as [|a a' axes axes' Ha _ IH]; [done|]. cbn.
  apply coerced_same_shape in Ha as (_ & _ & _ & _ & _ & Hlen).
  rewrite length_app, IH. lia.
Qed.

(** What the constructor does on a list of references to axes of the store:
    it returns, whatever the conversions of the members did. *)
Lemma SpectroscopicAxes_new_returns (h : store) (first : nat) (rest : list nat)
    (a0 : SpectroscopicAxis) (axes : list SpectroscopicAxis) :
  Forall2 (fun r a => h !! r = Some a) (first :: rest) (a0 :: axes) ->
  exists merged h' out axes',
    run (SpectroscopicAxes_new (first :: rest)) h = (Ret merged, h', out) /\
    Forall2 (coerced (units a0) (frame a0)) h h' /\
    Forall2 (fun r a => h' !! r = Some a) (first :: rest) axes' /\
    Forall2 (coerced (units a0) (frame a0)) (a0 :: axes) axes' /\
    data merged = concat (data <$> axes') /\
    units merged = units a0 /\ xtype merged = xtype a0 /\
    frame merged = frame a0 /\
    reffreq merged =
      (if existsb (fun a => reffreq_neb (reffreq a0) (reffreq a)) (a0 :: axes)
       then None else reffreq a0).
Proof.
  intros Hl. pose proof Hl as Hl0. apply Forall2_cons in Hl0 as [H0 _].
  unfold run, SpectroscopicAxes_new.
  unfold bind at 1. rewrite (deref_valid h first a0) by done.
  destruct (for_each_coerce (units a0) (xtype a0) (frame a0) (first :: rest) h h [])
    as (h' & out & Hloop & Hh').
  { apply Forall2_same_length_lookup. split; [done|]. intros i x y ? ?.
    assert (x = y) as -> by congruence. reflexivity. }
  { eapply Forall2_Forall_l; [exact Hl|]. apply Forall_true. by eauto. }
  unfold bind at 1. rewrite Hloop.
  destruct (lookup_coerced _ _ h h' _ _ Hh' Hl) as (axes' & Hl' & Hax).
  unfold bind at 1. rewrite (collect_deref data _ h' axes') by done.
  pose proof Hl' as Hl0'. destruct axes' as [|a0' axes']; [by inversion Hax|].
  apply Forall2_cons in Hl0' as [H0' _].
  unfold bind at 1.
  rewrite (collect_deref2 (fun a0 ax => reffreq_neb (reffreq a0) (reffreq ax))
             first a0' _ h' (a0' :: axes')) by done.
  unfold bind. rewrite (deref_valid h' first a0') by done. cbn [ret].
  eexists _, h', out, (a0' :: axes'). split; [reflexivity|].
  repeat split; try done. cbn [reffreq].
  rewrite count_true_existsb, (existsb_reffreq_coerced _ _ _ _ _ Hax).
  pose proof Hax as Hax0. apply Forall2_cons in Hax0 as [Ha0 _].
  apply coerced_same_shape in Ha0 as (_ & -> & _). done.
Qed.

(** C9: the constructor returns one axis whose number of samples is the sum
    of the numbers of samples of the members; when the reference frequencies
    of the members are equal two by two, the reference frequency of the
    result is that of the first member and equals that of every member; when
    two members have reference frequencies that differ, it is [None]. *)
Theorem SpectroscopicAxes_length_reffreq (h : store) (first : nat)
    (rest : list nat) (a0 : SpectroscopicAxis) (axes : list SpectroscopicAxis) :
  Forall2 (fun r a => h !! r = Some a) (first :: rest) (a0 :: axes) ->
  exists merged,
    result (run (SpectroscopicAxes_new (first :: rest)) h) = Ret merged /\
    length (data merged)
      = sum_list ((fun a => length (data a)) <$> (a0 :: axes)) /\
    ((forall a b, a ∈ a0 :: axes -> b ∈ a0 :: axes ->
        reffreq_neb (reffreq a) (reffreq b) = false) ->
     reffreq merged = reffreq a0 /\
     forall a, a ∈ a0 :: axes -> reffreq_neb (reffreq merged) (reffreq a) = false) /\
    ((exists a b, a ∈ a0 :: axes /\ b ∈ a0 :: axes /\
        reffreq_neb (reffreq a) (reffreq b) = true) ->
     reffreq merged = None).
Proof.
  intros Hl.
  destruct (SpectroscopicAxes_new_returns h first rest a0 axes Hl)
    as (merged & h' & out & axes' & Hrun & _ & _ & Hax & Hdata & _ & _ & _ & Hreff).
  exists merged. rewrite Hrun. split; [done|]. split; [|split].
  - rewrite Hdata. by eapply length_concat_coerced.
  - intros Hall.
    assert (Hno : existsb (fun a => reffreq_neb (reffreq a0) (reffreq a)) (a0 :: axes)
                  = false).
    { apply not_true_is_false. intros (a & Ha & Hne)%existsb_exists.
      apply list_elem_of_In in Ha. rewrite Hall in Hne; [done| |done]. by left. }
    rewrite Hno in Hreff. rewrite Hreff. split; [done|].
    intros a Ha. apply Hall; [by left | done].
  - intros (a & b & Ha & Hb & Hne).
    assert (Hyes : existsb (fun a => reffreq_neb (reffreq a0) (reffreq a)) (a0 :: axes)
                   = true).
    { destruct (reffreq_neb (reffreq a0) (reffreq a)) eqn:Ea.
      - apply existsb_exists. exists a. by rewrite <- list_elem_of_In.
      - destruct (reffreq_neb (reffreq a0) (reffreq b)) eqn:Eb.
        + apply existsb_exists. exists b. by rewrite <- list_elem_of_In.
        + by rewrite (reffreq_neb_euclid _ _ _ Ea Eb) in Hne. }
    by rewrite Hyes in Hreff.
Qed.

Lemma SpectroscopicAxes_length_reffreq_witness :
  exists merged,
    result (run (SpectroscopicAxes_new [0; 1; 2]%nat) [axis_GHz; axis_GHz; axis_GHz])
      = Ret merged /\
    length (data merged)
      = sum_list ((fun a => length (data a)) <$> [axis_GHz; axis_GHz; axis_GHz]) /\
    ((forall a b, a ∈ [axis_GHz; axis_GHz; axis_GHz] ->
        b ∈ [axis_GHz; axis_GHz; axis_GHz] ->
        reffreq_neb (reffreq a) (reffreq b) = false) ->
     reffreq merged = reffreq axis_GHz /\
     forall a, a ∈ [axis_GHz; axis_GHz; axis_GHz] ->
       reffreq_neb (reffreq merged) (reffreq a) = false) /\
    ((exists a b, a ∈ [axis_GHz; axis_GHz; axis_GHz] /\
        b ∈ [axis_GHz; axis_GHz; axis_GHz] /\
        reffreq_neb (reffreq a) (reffreq b) = true) ->
     reffreq merged = None).
Proof.
  apply (SpectroscopicAxes_length_reffreq [axis_GHz; axis_GHz; axis_GHz] 0 [1; 2]%nat
           axis_GHz [axis_GHz; axis_GHz]).
  repeat constructor.
Defined.

(** C4, as stated, fails: in a collection of a GHz axis and a km/s axis that
    has no reference frequency, the conversion of the second member raises,
    and the constructor neither raises nor prints: it returns the merged
    axis, in which the km/s samples stand as GHz. *)
Lemma member_failure_not_reported :
  (exists e, result (run (convert_to_unit (Some "GHz") (Some "rest") false None None)
                       axis_kms) = Raise e) /\
  ~ failure_is_reported [axis_GHz; axis_kms] [0; 1]%nat.
Proof.
  split.
  - eexists. vm_compute. reflexivity.
  - unfold failure_is_reported. cbv zeta.
    assert (H : run (SpectroscopicAxes_new [0; 1]%nat) [axis_GHz; axis_kms]
                = (Ret {| data := [100; 101; 102; 0; 1; 3; 7]%float;
                          units := Some "GHz"; frame := Some "rest";
                          xtype := Some "frequency"; reffreq := None;
                          reffreq_units := None; redshift := None;
                          velocity_convention := Some "radio"; dxarr := None |},
                   [axis_GHz; axis_kms], []))
      by (vm_compute; reflexivity).
    rewrite H. intros [[e He]|Hout]; [discriminate | by apply Hout].
Qed.

(** C4, amended: the constructor returns (no failure of a member aborts it
    or reaches the caller as an exception); the result is the concatenation
    of the members as the loop left them; each member is left as it was or as
    calls of [convert_to_unit] that returned made it, and a member on which
    [convert_to_unit] raises is left exactly as it was. *)
Theorem SpectroscopicAxes_failures_dropped (h : store) (first : nat)
    (rest : list nat) (a0 : SpectroscopicAxis) (axes : list SpectroscopicAxis) :
  Forall2 (fun r a => h !! r = Some a) (first :: rest) (a0 :: axes) ->
  exists merged h' out axes',
    run (SpectroscopicAxes_new (first :: rest)) h = (Ret merged, h', out) /\
    Forall2 (fun r a => h' !! r = Some a) (first :: rest) axes' /\
    data merged = concat (data <$> axes') /\
    Forall2 (fun a a' =>
               coerced (units a0) (frame a0) a a' /\
               forall e,
                 result (run (convert_to_unit (units a0) (frame a0) false None None) a)
                   = Raise e -> a' = a)
            (a0 :: axes) axes'.
Proof.
  intros Hl.
  destruct (SpectroscopicAxes_new_returns h first rest a0 axes Hl)
    as (merged & h' & out & axes' & Hrun & _ & Hl' & Hax & Hdata & _).
  exists merged, h', out, axes'. repeat split; try done.
  eapply Forall2_impl; [exact Hax|]. intros a a' Hc. split; [done|].
  intros e He. by eapply coerced_raise.
Qed.

Lemma SpectroscopicAxes_failures_dropped_witness :
  exists merged h' out axes',
    run (SpectroscopicAxes_new [0; 1]%nat) [axis_GHz; axis_kms]
      = (Ret merged, h', out) /\
    Forall2 (fun r a => h' !! r = Some a) [0; 1]%nat axes' /\
    data merged = concat (data <$> axes') /\
    Forall2 (fun a a' =>
               coerced (units axis_GHz) (frame axis_GHz) a a' /\
               forall e,
                 result (run (convert_to_unit (units axis_GHz) (frame axis_GHz)
                                false None None) a)
                   = Raise e -> a' = a)
            [axis_GHz; axis_kms] axes'.
Proof.
  apply (SpectroscopicAxes_failures_dropped [axis_GHz; axis_kms] 0 [1]%nat
           axis_GHz [axis_kms]).
  repeat constructor.
Defined.

(** ** Round trips *)

(** C1, on the code: under the optical convention the round trip GHz, km/s,
    GHz returns samples that are off by a hundredth; a frequency axis asked
    for a wavelength unit is not converted ([convert_to_unit] prints that it
    could not and raises [KeyError]); and under the radio convention the
    round trip m/s, GHz, m/s of the velocities 1e-9, 1 and 2 returns 0,
    1.0000000079 and 2.0000000159. *)
Theorem roundtrip_failures :
  result (run (roundtrip (Some "km/s") (Some "GHz")) axis_GHz_optical) = Ret tt /\
  data (final (run (roundtrip (Some "km/s") (Some "GHz")) axis_GHz_optical))
    = [98.997500000000002; 99.997524752475243; 100.97794117647058]%float /\
  run (convert_to_unit (Some "um") (Some "rest") false None None) axis_GHz
    = (Raise KeyError, axis_GHz, ["Could not convert from GHz to um"]) /\
  result (run (roundtrip (Some "GHz") (Some "m/s")) axis_ms) = Ret tt /\
  data (final (run (roundtrip (Some "GHz") (Some "m/s")) axis_ms))
    = [0; 1.0000000079372457; 2.0000000158744915]%float.
Proof. repeat split; vm_compute; reflexivity. Qed.

(** * The rest of the module: properties *)

(** ** The tables agree with each other *)

(** A name is a string that is a key of the table, in any case. *)
Lemma ci_contains_true {S V} (d : gmap string V) (key : name) (s : S) out s' out' :
  ci_contains d key s out = (Ret true, s', out') ->
  exists k, key = Some k /\ is_Some (d !! lower k).
Proof.
  destruct key as [k|]; [|discriminate]. rewrite ci_contains_Some.
  intros [= H _ _]. exists k. split; [done|]. by apply bool_decide_eq_true in H.
Qed.

(** No unit is in two of the three tables. *)
Lemma tables_disjoint (k : string) :
  (is_Some (frequency_dict !! k) -> velocity_dict !! k = None /\ length_dict !! k = None) /\
  (is_Some (velocity_dict !! k) -> frequency_dict !! k = None /\ length_dict !! k = None) /\
  (is_Some (length_dict !! k) -> frequency_dict !! k = None /\ velocity_dict !! k = None).
Proof.
  assert (Hf : map_Forall (fun k _ => velocity_dict !! k = None /\ length_dict !! k = None)
                 frequency_dict)
    by (apply (bool_decide_unpack _); vm_compute; exact I).
  assert (Hv : map_Forall (fun k _ => frequency_dict !! k = None /\ length_dict !! k = None)
                 velocity_dict)
    by (apply (bool_decide_unpack _); vm_compute; exact I).
  assert (Hl : map_Forall (fun k _ => frequency_dict !! k = None /\ velocity_dict !! k = None)
                 length_dict)
    by (apply (bool_decide_unpack _); vm_compute; exact I).
  split; [|split]; intros [v Hk];
    first [exact (Hf k v Hk) | exact (Hv k v Hk) | exact (Hl k v Hk)].
Qed.

(** Every unit that [unit_type_dict] knows is, lower-cased, a key of the
    table of its type, and its type is a key of [conversion_dict]. *)
Lemma unit_type_dict_table (k t : string) :
  unit_type_dict_str !! k = Some t ->
  exists d, conversion_dict !! lower t = Some d /\ is_Some (table_dict d !! lower k).
Proof.
  assert (H : map_Forall
                (fun k t => Is_true match conversion_dict !! lower t with
                                    | Some d => bool_decide (is_Some (table_dict d !! lower k))
                                    | None => false
                                    end) unit_type_dict_str)
    by (apply (bool_decide_unpack _); vm_compute; exact I).
  intros Hk. specialize (H k t Hk). cbv beta in H.
  destruct (conversion_dict !! lower t) as [d|]; [|done].
  exists d. split; [done|]. by apply bool_decide_unpack in H.
Qed.

(** ** Rules for [post] *)

Section post_rules.
Context {S : Type} (E : exn -> Prop).

Lemma post_ret {A} (P : A -> Prop) a : P a -> post (S:=S) E P (ret a).
Proof. intros H s out. exact H. Qed.

Lemma post_raise {A} (P : A -> Prop) e : E e -> post (S:=S) E P (raise e).
Proof. intros H s out. exact H. Qed.

Lemma post_bind {A B} (Q : A -> Prop) (P : B -> Prop) (m : M S A) (k : A -> M S B) :
  post E Q m -> (forall a, Q a -> post E P (k a)) -> post E P (bind m k).
Proof.
  intros Hm Hk s out. specialize (Hm s out). unfold bind, result in *.
  destruct (m s out) as [[[a|e] s1] o1]; cbn in *; [|done].
  apply (Hk a Hm).
Qed.

Lemma post_print (P : unit -> Prop) line : P tt -> post (S:=S) E P (print line).
Proof. intros H s out. exact H. Qed.

Lemma post_get (P : S -> Prop) : (forall s, P s) -> post E P get.
Proof. intros H s out. apply H. Qed.

Lemma post_of_outcome {A} (P : A -> Prop) (o : outcome A) :
  opost E P o -> post (S:=S) E P (of_outcome o).
Proof. intros H s out. by destruct o. Qed.

Lemma post_when (P : unit -> Prop) b (m : M S unit) :
  P tt -> post E P m -> post E P (when b m).
Proof. intros H Hm. destruct b; [done|]. by apply post_ret. Qed.

Lemma post_ci_contains {V} (P : bool -> Prop) (d : gmap string V) key :
  E AttributeError ->
  (forall k, key = Some k -> P (bool_decide (is_Some (d !! lower k)))) ->
  post (S:=S) E P (ci_contains d key).
Proof. intros He H s out. destruct key as [k|]; cbn; [by apply H | done]. Qed.

Lemma post_ci_getitem {V} (P : V -> Prop) (d : gmap string V) key :
  E AttributeError -> E KeyError ->
  (forall k v, key = Some k -> d !! lower k = Some v -> P v) ->
  post (S:=S) E P (ci_getitem d key).
Proof.
  intros He1 He2 H s out. destruct key as [k|]; cbn; [|done].
  destruct (d !! lower k) as [v|] eqn:Hv; cbn; [by eapply H | done].
Qed.

Lemma post_weaken {A} (E' : exn -> Prop) (P P' : A -> Prop) (m : M S A) :
  post E' P m -> (forall e, E' e -> E e) -> (forall a, P a -> P' a) -> post E P' m.
Proof.
  intros Hm HE HP s out. specialize (Hm s out).
  destruct (result (m s out)); cbn in *; auto.
Qed.
End post_rules.

Lemma opost_obind {A B} E (Q : A -> Prop) (P : B -> Prop) (m : outcome A)
    (k : A -> outcome B) :
  opost E Q m -> (forall a, Q a -> opost E P (k a)) -> opost E P (obind m k).
Proof. destruct m; cbn; auto. Qed.

Lemma opost_omap E (f : float -> outcome float) xs :
  (forall x, opost E (fun _ => True) (f x)) ->
  opost E (fun ys => length ys = length xs) (omap f xs).
Proof.
  intros Hf. induction xs as [|x xs IH]; cbn; [done|].
  specialize (Hf x). destruct (f x); cbn in *; [|done].
  destruct (omap f xs); cbn in *; [|done]. by f_equal.
Qed.

Lemma opost_elementwise E (f : arith -> float -> outcome float) v :
  (forall a x, opost E (fun _ => True) (f a x)) ->
  opost E (same_kind v) (elementwise f v).
Proof.
  intros Hf. destruct v as [x|xs]; cbn.
  - specialize (Hf py_float x). by destruct (f py_float x).
  - pose proof (opost_omap E (f np_float64) xs (Hf np_float64)) as H.
    by destruct (omap (f np_float64) xs).
Qed.

#[global] Instance same_kind_preorder : PreOrder same_kind.
Proof.
  split.
  - by intros [x|xs].
  - intros [x|xs] [y|ys] [z|zs]; cbn; try done. congruence.
Qed.

Lemma same_kind_vscale v k : same_kind v (vscale v k).
Proof. destruct v as [x|xs]; cbn; [done|]. by rewrite length_fmap. Qed.

(** ** What the converters return and raise *)

Ltac recognize :=
  let H := fresh in
  unfold recognized, unrecognized; intros H; cbn in H; discriminate H.

Lemma opost_fdiv a x y : opost recognized (fun _ => True) (fdiv a x y).
Proof. destruct a; cbn; [|done]. destruct (y =? 0)%float; cbn; [recognize|done]. Qed.

Lemma opost_fpow2 a x : opost recognized (fun _ => True) (fpow2 a x).
Proof.
  destruct a; unfold fpow2; [|done].
  destruct (PrimFloat.is_finite x && PrimFloat.is_infinity (x * x)%float); cbn;
    [recognize|done].
Qed.

Lemma opost_fpow_half a x : opost recognized (fun _ => True) (fpow_half a x).
Proof.
  destruct a; unfold fpow_half; [|done].
  destruct (PrimFloat.is_infinity x); [done|].
  destruct (x <? 0)%float; cbn; [recognize|]. by destruct (x =? 0)%float.
Qed.

Ltac arith_ok :=
  intros;
  repeat first
    [ exact I
    | apply opost_fdiv | apply opost_fpow2 | apply opost_fpow_half
    | apply (opost_obind _ (fun _ => True)); [|intros ? _] ].

Lemma post_in_table {S V} (d : gmap string V) key :
  post (S:=S) recognized (fun b : bool => if b then in_table d key else ~ in_table d key)
    (ci_contains d key).
Proof.
  apply post_ci_contains; [recognize|]. intros k ->.
  case_bool_decide as H; [by exists k|]. intros (k' & [= <-] & H'). done.
Qed.

Lemma post_factor {S} (d : gmap string float) key :
  post (S:=S) recognized (fun _ => True) (ci_getitem d key).
Proof. apply post_ci_getitem; [recognize|recognize|done]. Qed.

(** One arithmetic step of a converter: the value keeps its kind. *)
Lemma post_elementwise {S} f v0 v :
  same_kind v0 v ->
  (forall a x, opost recognized (fun _ => True) (f a x)) ->
  post (S:=S) recognized (same_kind v0) (of_outcome (elementwise f v)).
Proof.
  intros Hv Hf. apply post_of_outcome.
  pose proof (opost_elementwise recognized f v Hf) as H.
  destruct (elementwise f v); cbn in *; [by etrans|done].
Qed.

Ltac post_next Q := apply (post_bind _ Q); [|intros ? ?].
Ltac post_scale :=
  first [ apply post_factor
        | (apply post_elementwise; [first [done | by etrans; [|apply same_kind_vscale]]
                                   | arith_ok]) ].

Lemma post_velocity_to_frequency {S} v iu cf cfu fu conv :
  post (S:=S) recognized (converted frequency_dict iu v)
    (velocity_to_frequency v iu cf cfu fu conv).
Proof.
  unfold velocity_to_frequency.
  eapply post_bind; [apply post_in_table|]. intros [] Hin.
  { apply (post_bind _ (fun _ => True)); [by apply post_print|].
    intros _ _. by apply post_ret. }
  destruct cf as [f0|]; [|apply post_raise; recognize].
  apply (post_bind _ (fun _ => True)); [apply post_ci_contains; [recognize|done]|].
  intros [] _; cbn [negb]; [|apply post_raise; recognize].
  post_next (fun _ : float => True); [post_scale|].
  post_next (same_kind v); [post_scale|].
  post_next (fun _ : float => True); [post_scale|].
  post_next (same_kind v).
  { repeat case_match; first [post_scale | apply post_raise; recognize]. }
  post_next (fun _ : float => True); [post_scale|].
  post_next (same_kind v); [post_scale|].
  post_next (fun _ : float => True); [post_scale|].
  apply post_ret. cbn. etrans; [eassumption|apply same_kind_vscale].
Qed.

Lemma post_frequency_to_velocity {S} v iu cf cfu vu conv :
  post (S:=S) recognized (converted velocity_dict iu v)
    (frequency_to_velocity v iu cf cfu vu conv).
Proof.
  unfold frequency_to_velocity.
  eapply post_bind; [apply post_in_table|]. intros [] Hin.
  { apply (post_bind _ (fun _ => True)); [by apply post_print|].
    intros _ _. by apply post_ret. }
  destruct cf as [f0|]; [|apply post_raise; recognize].
  apply (post_bind _ (fun _ => True)); [apply post_ci_contains; [recognize|done]|].
  intros [] _; cbn [negb]; [|apply post_raise; recognize].
  apply (post_bind _ (fun _ => True)); [apply post_ci_contains; [recognize|done]|].
  intros [] _; cbn [negb]; [|apply post_raise; recognize].
  post_next (fun _ : float => True); [post_scale|].
  post_next (same_kind v); [post_scale|].
  post_next (fun _ : float => True); [post_scale|].
  post_next (fun _ : float => True); [post_scale|].
  post_next (fun _ : float => True); [apply post_of_outcome, opost_fdiv|].
  post_next (fun _ : float => True); [post_scale|].
  post_next (same_kind v).
  { repeat case_match; try (apply post_raise; recognize); try post_scale.
    post_next (fun _ : float => True); [apply post_of_outcome, opost_fpow2|].
    post_scale. }
  post_next (fun _ : float => True); [post_scale|].
  post_next (fun _ : float => True); [post_scale|].
  post_next (same_kind v); [post_scale|].
  by apply post_ret.
Qed.

Lemma post_frequency_to_wavelength {S} v iu wu :
  post (S:=S) recognized (converted wavelength_dict iu v)
    (frequency_to_wavelength v iu wu).
Proof.
  unfold frequency_to_wavelength.
  eapply post_bind; [apply post_in_table|]. intros [] Hin.
  { apply (post_bind _ (fun _ => True)); [by apply post_print|].
    intros _ _. by apply post_ret. }
  apply (post_bind _ (fun _ => True)); [apply post_ci_contains; [recognize|done]|].
  intros [] _; cbn [negb]; [|apply post_raise; recognize].
  apply (post_bind _ (fun _ => True)); [apply post_ci_contains; [recognize|done]|].
  intros [] _; cbn [negb]; [|apply post_raise; recognize].
  post_next (fun _ : float => True); [post_scale|].
  post_next (same_kind v).
  { apply post_elementwise; [apply same_kind_vscale|arith_ok]. }
  post_next (fun _ : float => True); [post_scale|].
  post_next (same_kind v); [post_scale|].
  by apply post_ret.
Qed.

(** [wavelength_to_frequency] also raises [NameError], and does so only for
    a [frequency_units] that is no frequency unit. *)
Lemma post_wavelength_to_frequency {S} v iu fu :
  post (S:=S) recognized
    (fun r => match r with
              | Normal r => converted frequency_dict iu v r
              | Other _ => ~ in_table frequency_dict fu
              end)
    (wavelength_to_frequency v iu fu).
Proof.
  unfold wavelength_to_frequency.
  eapply post_bind; [apply post_in_table|]. intros [] Hin.
  { apply (post_bind _ (fun _ => True)); [by apply post_print|].
    intros _ _. by apply post_ret. }
  eapply post_bind; [apply post_in_table|].
  intros [] Hfu; cbn [negb]; [|by apply post_ret].
  apply (post_bind _ (fun _ => True)); [apply post_ci_contains; [recognize|done]|].
  intros [] _; cbn [negb]; [|apply post_raise; recognize].
  post_next (fun _ : float => True); [post_scale|].
  post_next (same_kind v).
  { apply post_elementwise; [apply same_kind_vscale|arith_ok]. }
  post_next (fun _ : float => True); [post_scale|].
  post_next (same_kind v); [post_scale|].
  by apply post_ret.
Qed.

Lemma post_normally {S} d iu v (m : M S (option value)) :
  post recognized (converted d iu v) m ->
  post recognized (converted_of d iu (Some v)) (normally m).
Proof.
  intros Hm. unfold normally. eapply post_bind; [exact Hm|].
  intros [w|] Hw; apply post_ret; cbn in *; eauto.
Qed.

Lemma post_velocity_to_frequency_of {S} v iu cf cfu fu conv :
  post (S:=S) recognized (converted_of frequency_dict iu v)
    (velocity_to_frequency_of v iu cf cfu fu conv).
Proof.
  destruct v as [v|]; [apply post_normally, post_velocity_to_frequency|].
  unfold velocity_to_frequency_of.
  eapply post_bind; [apply post_in_table|]. intros [] Hin.
  { apply (post_bind _ (fun _ => True)); [by apply post_print|].
    intros _ _. by apply post_ret. }
  destruct cf as [f0|]; [|apply post_raise; recognize].
  apply (post_bind _ (fun _ => True)); [apply post_ci_contains; [recognize|done]|].
  intros [] _; cbn [negb]; [|apply post_raise; recognize].
  post_next (fun _ : float => True); [post_scale|].
  by apply post_ret.
Qed.

Lemma post_frequency_to_velocity_of {S} v iu cf cfu vu conv :
  post (S:=S) recognized (converted_of velocity_dict iu v)
    (frequency_to_velocity_of v iu cf cfu vu conv).
Proof.
  destruct v as [v|]; [apply post_normally, post_frequency_to_velocity|].
  unfold frequency_to_velocity_of.
  eapply post_bind; [apply post_in_table|]. intros [] Hin.
  { apply (post_bind _ (fun _ => True)); [by apply post_print|].
    intros _ _. by apply post_ret. }
  destruct cf as [f0|]; [|apply post_raise; recognize].
  apply (post_bind _ (fun _ => True)); [apply post_ci_contains; [recognize|done]|].
  intros [] _; cbn [negb]; [|apply post_raise; recognize].
  apply (post_bind _ (fun _ => True)); [apply post_ci_contains; [recognize|done]|].
  intros [] _; cbn [negb]; [|apply post_raise; recognize].
  post_next (fun _ : float => True); [post_scale|].
  by apply post_ret.
Qed.

Lemma post_frequency_to_wavelength_of {S} v iu wu :
  post (S:=S) recognized (converted_of wavelength_dict iu v)
    (frequency_to_wavelength_of v iu wu).
Proof.
  destruct v as [v|]; [apply post_normally, post_frequency_to_wavelength|].
  unfold frequency_to_wavelength_of.
  eapply post_bind; [apply post_in_table|]. intros [] Hin.
  { apply (post_bind _ (fun _ => True)); [by apply post_print|].
    intros _ _. by apply post_ret. }
  apply (post_bind _ (fun _ => True)); [apply post_ci_contains; [recognize|done]|].
  intros [] _; cbn [negb]; [|apply post_raise; recognize].
  apply (post_bind _ (fun _ => True)); [apply post_ci_contains; [recognize|done]|].
  intros [] _; cbn [negb]; [|apply post_raise; recognize].
  post_next (fun _ : float => True); [post_scale|].
  by apply post_ret.
Qed.

(** ** [x_to_coord] and [coord_to_x] *)

Lemma unit_type_dict_kind (k t : string) :
  unit_type_dict_str !! k = Some t ->
  (t = "frequency" /\ is_Some (frequency_dict !! lower k)) \/
  (t = "velocity" /\ is_Some (velocity_dict !! lower k)) \/
  (t = "length" /\ is_Some (length_dict !! lower k)).
Proof.
  assert (H : map_Forall
                (fun k t =>
                   (t = "frequency" /\ is_Some (frequency_dict !! lower k)) \/
                   (t = "velocity" /\ is_Some (velocity_dict !! lower k)) \/
                   (t = "length" /\ is_Some (length_dict !! lower k)))
                unit_type_dict_str)
    by (apply (bool_decide_unpack _); vm_compute; exact I).
  intros Hk. exact (H k t Hk).
Qed.

Lemma typed_in_table (key t : name) :
  unit_type_dict key = Some t -> is_Some key ->
  (t = Some "frequency" /\ in_table frequency_dict key) \/
  (t = Some "velocity" /\ in_table velocity_dict key) \/
  (t = Some "length" /\ in_table length_dict key).
Proof.
  intros Ht [k ->]. unfold unit_type_dict in Ht.
  apply fmap_Some in Ht as (t' & Hk & ->).
  destruct (unit_type_dict_kind k t' Hk) as [[-> H]|[[-> H]|[-> H]]];
    [left|right; left|right; right]; (split; [done|by exists k]).
Qed.

Lemma in_table_disjoint (key : name) :
  (in_table frequency_dict key -> in_table velocity_dict key -> False) /\
  (in_table frequency_dict key -> in_table length_dict key -> False) /\
  (in_table velocity_dict key -> in_table length_dict key -> False).
Proof.
  split; [|split]; intros (k & -> & H1) (k' & [= <-] & [v H2]);
    destruct (tables_disjoint (lower k)) as (Hf & Hv & Hl).
  - destruct (Hf H1) as [Hn _]. congruence.
  - destruct (Hf H1) as [_ Hn]. congruence.
  - destruct (Hv H1) as [_ Hn]. congruence.
Qed.

Lemma Hz_is_a_frequency :
  in_table frequency_dict (Some "Hz") /\ ~ in_table velocity_dict (Some "Hz") /\
  ~ in_table wavelength_dict (Some "Hz").
Proof.
  assert (H : in_table frequency_dict (Some "Hz")).
  { exists "Hz". split; [done|]. by apply (bool_decide_unpack _); vm_compute. }
  split; [done|]. destruct (in_table_disjoint (Some "Hz")) as (H1 & H2 & _).
  split; intros H'; [exact (H1 H H') | exact (H2 H H')].
Qed.

Lemma post_in_table_name {S V} (d : gmap string V) key :
  post (S:=S) recognized
    (fun b : bool => is_Some key /\ if b then in_table d key else ~ in_table d key)
    (ci_contains d key).
Proof.
  apply post_ci_contains; [recognize|]. intros k ->. split; [done|].
  case_bool_decide as H; [by exists k|]. intros (k' & [= <-] & H'). done.
Qed.

Lemma post_unit_type_getitem {S} key :
  post (S:=S) recognized (fun t => unit_type_dict key = Some t) (unit_type_getitem key).
Proof.
  unfold unit_type_getitem.
  destruct (unit_type_dict key) as [t|]; [by apply post_ret|apply post_raise; recognize].
Qed.

Lemma post_unit_factor {S} u :
  post (S:=S) recognized (fun _ => True) (unit_factor u).
Proof.
  unfold unit_factor.
  post_next (fun _ : name => True).
  { eapply post_weaken; [apply post_unit_type_getitem|done|done]. }
  post_next (fun _ : table => True).
  { apply post_ci_getitem; [recognize|recognize|done]. }
  apply post_factor.
Qed.

Lemma post_over {S} v0 v a :
  same_kind v0 v -> post (S:=S) recognized (same_kind v0) (over v a).
Proof. intros Hv. unfold over. apply post_elementwise; [done|arith_ok]. Qed.

Ltac conv_cases H := cbv beta iota in H; unfold converted_of, converted in H.

(** The facts about the units at hand that rule a branch out. *)
Ltac units_facts self xunit :=
  pose proof (in_table_disjoint (units self)) as (? & ? & ?);
  pose proof (in_table_disjoint xunit) as (? & ? & ?);
  pose proof Hz_is_a_frequency as (? & ? & ?);
  unfold wavelength_dict in *;
  repeat match goal with
  | H : unit_type_dict ?key = Some _, H' : is_Some ?key |- _ =>
      apply typed_in_table in H; [|exact H']
  | H : name_eqb _ _ = false |- _ => apply bool_decide_eq_false in H
  end.

Lemma post_coord_to_x xval xunit :
  post recognized (a_value_like xval) (coord_to_x xval xunit).
Proof.
  unfold coord_to_x.
  apply (post_bind _ (fun _ => True)); [by apply post_get|]. intros self _.
  eapply post_bind; [apply post_unit_type_getitem|]. intros ts Hts.
  eapply post_bind; [apply post_unit_type_getitem|]. intros tx Htx.
  destruct (name_eqb ts tx) eqn:Hne.
  { post_next (fun _ : float => True); [apply post_unit_factor|].
    post_next (same_kind xval); [by apply post_over|].
    post_next (fun _ : float => True); [apply post_unit_factor|].
    apply post_ret. eexists. split; [done|].
    etrans; [eassumption|apply same_kind_vscale]. }
  eapply post_bind; [apply post_in_table_name|]. intros [] [Hx Hv].
  - eapply post_bind; [apply post_in_table_name|]. intros [] [Hu Hf].
    + eapply post_weaken; [apply post_normally, post_frequency_to_velocity|done|].
      intros [[w|]|e] Hr; conv_cases Hr.
      * destruct Hr as (? & [= <-] & ?). by eexists.
      * units_facts self xunit; intuition congruence.
      * done.
    + eapply post_bind; [apply post_in_table_name|]. intros [] [_ Hw].
      * unfold bind_checked.
        eapply post_bind; [apply post_wavelength_to_frequency|].
        intros [[f|]|e] Hr; conv_cases Hr.
        -- eapply post_weaken; [apply post_frequency_to_velocity_of|done|].
           intros [[w|]|e] Hr'; conv_cases Hr'.
           ++ destruct Hr' as (? & [= <-] & ?). eexists. split; [done|by etrans].
           ++ units_facts self xunit; intuition congruence.
           ++ done.
        -- done.
        -- units_facts self xunit; intuition congruence.
      * apply post_ret. units_facts self xunit; intuition congruence.
  - eapply post_bind; [apply post_in_table_name|]. intros [] [_ Hf].
    + eapply post_bind; [apply post_in_table_name|]. intros [] [Hu Hsv].
      * eapply post_weaken; [apply post_normally, post_velocity_to_frequency|done|].
        intros [[w|]|e] Hr; conv_cases Hr.
        -- destruct Hr as (? & [= <-] & ?). by eexists.
        -- units_facts self xunit; intuition congruence.
        -- done.
      * eapply post_bind; [apply post_in_table_name|]. intros [] [_ Hw].
        -- eapply post_weaken; [apply post_wavelength_to_frequency|done|].
           intros [[w|]|e] Hr; conv_cases Hr.
           ++ by eexists.
           ++ units_facts self xunit; intuition congruence.
           ++ done.
        -- apply post_ret. units_facts self xunit; intuition congruence.
    + eapply post_bind; [apply post_in_table_name|]. intros [] [_ Hw].
      * eapply post_bind; [apply post_in_table_name|]. intros [] [Hu Hsv].
        -- eapply post_bind; [apply post_velocity_to_frequency|].
           intros [f|] Hr; conv_cases Hr.
           ++ eapply post_weaken; [apply post_frequency_to_wavelength_of|done|].
              intros [[w|]|e] Hr'; conv_cases Hr'.
              ** destruct Hr' as (? & [= <-] & ?). eexists. split; [done|by etrans].
              ** units_facts self xunit; intuition congruence.
              ** done.
           ++ units_facts self xunit; intuition congruence.
        -- eapply post_bind; [apply post_in_table_name|]. intros [] [_ Hsf].
           ++ eapply post_weaken;
                [apply post_normally, post_frequency_to_wavelength|done|].
              intros [[w|]|e] Hr; conv_cases Hr.
              ** destruct Hr as (? & [= <-] & ?). by eexists.
              ** units_facts self xunit; intuition congruence.
              ** done.
           ++ apply post_ret. units_facts self xunit; intuition congruence.
      * apply post_raise. units_facts self xunit; intuition congruence.
Qed.
Lemma post_x_to_coord xval xunit verbose :
  post recognized (a_value_like xval) (x_to_coord xval xunit verbose).
Proof.
  unfold x_to_coord.
  apply (post_bind _ (fun _ => True)); [by apply post_get|]. intros self _.
  eapply post_bind; [apply post_in_table_name|]. intros isw [Hx Hw].
  unfold bind_checked at 1.
  apply (post_bind _ (fun xx : checked (option value * name) =>
           exists v xu, xx = Normal (Some v, xu) /\ same_kind xval v /\ is_Some xu
                        /\ ~ in_table wavelength_dict xu)).
  { destruct isw.
    - unfold bind_checked.
      eapply post_bind; [apply post_wavelength_to_frequency|].
      intros [[f|]|e] Hr; conv_cases Hr; apply post_ret.
      + exists f, (Some "Hz"). pose proof Hz_is_a_frequency as (? & ? & ?).
        split; [done|]. split; [done|]. split; done.
      + units_facts self xunit; intuition congruence.
      + units_facts self xunit; intuition congruence.
    - apply post_ret. exists xval, xunit.
      split; [done|]. split; [done|]. split; done. }
  intros xx (v & xu & -> & Hv & Hxu & Hor). cbn [fst snd].
  eapply post_bind; [apply post_unit_type_getitem|]. intros ts Hts.
  eapply post_bind; [apply post_unit_type_getitem|]. intros tx Htx.
  destruct (name_eqb ts tx) eqn:Hne.
  { post_next (fun _ : unit => True); [by apply post_when, post_print|].
    post_next (fun _ : float => True); [apply post_unit_factor|].
    unfold bind_checked, times.
    apply (post_bind _ (fun p => p = Normal (vscale v a0))); [by apply post_ret|].
    intros ? ->.
    post_next (fun _ : float => True); [apply post_unit_factor|].
    post_next (same_kind xval).
    { apply post_over. etrans; [eassumption|apply same_kind_vscale]. }
    apply post_ret. by eexists. }
  eapply post_bind; [apply post_in_table_name|]. intros [] [_ Hisv].
  - post_next (fun _ : unit => True); [by apply post_when, post_print|].
    eapply post_bind; [apply post_in_table_name|]. intros [] [Hu Hf].
    + eapply post_weaken; [apply post_velocity_to_frequency_of|done|].
      intros [[w|]|e] Hr; conv_cases Hr.
      * destruct Hr as (? & [= <-] & ?). eexists. split; [done|by etrans].
      * units_facts self xu; intuition congruence.
      * done.
    + eapply post_bind; [apply post_in_table_name|]. intros [] [_ Hsw].
      * unfold bind_checked.
        eapply post_bind; [apply post_velocity_to_frequency_of|].
        intros [[f|]|e] Hr; conv_cases Hr.
        -- destruct Hr as (? & [= <-] & ?).
           eapply post_weaken; [apply post_frequency_to_wavelength_of|done|].
           intros [[w|]|e] Hr'; conv_cases Hr'.
           ++ destruct Hr' as (? & [= <-] & ?). eexists. split; [done|].
              etrans; [eassumption|]. by etrans.
           ++ units_facts self xu; intuition congruence.
           ++ done.
        -- exfalso. units_facts self xu; intuition congruence.
        -- done.
      * apply post_ret. units_facts self xu; intuition congruence.
  - eapply post_bind; [apply post_in_table_name|]. intros [] [_ Hisf].
    + post_next (fun _ : unit => True); [by apply post_when, post_print|].
      eapply post_bind; [apply post_in_table_name|]. intros [] [Hu Hsv].
      * eapply post_weaken; [apply post_frequency_to_velocity_of|done|].
        intros [[w|]|e] Hr; conv_cases Hr.
        -- destruct Hr as (? & [= <-] & ?). eexists. split; [done|by etrans].
        -- units_facts self xu; intuition congruence.
        -- done.
      * eapply post_bind; [apply post_in_table_name|]. intros [] [_ Hsw].
        -- eapply post_weaken; [apply post_frequency_to_wavelength_of|done|].
           intros [[w|]|e] Hr; conv_cases Hr.
           ++ destruct Hr as (? & [= <-] & ?). eexists. split; [done|by etrans].
           ++ units_facts self xu; intuition congruence.
           ++ done.
        -- apply post_ret. units_facts self xu; intuition congruence.
    + apply post_raise. units_facts self xu; intuition congruence.
Qed.

(** X1. [coord_to_x] returns a value of the kind of [xval] or raises: it
    never returns [None], never raises [NameError] or [TypeError], and its
    last [else] is dead, so it never raises
    [ValueError("Units not recognized.")]. *)
Theorem coord_to_x_returns_a_value (self : SpectroscopicAxis) (xval : value)
    (xunit : name) :
  match result (run (coord_to_x xval xunit) self) with
  | Ret r => exists v, r = Normal (Some v) /\ same_kind xval v
  | Raise e => e <> ValueError "Units not recognized."
  end.
Proof. exact (post_coord_to_x xval xunit self []). Qed.

(** X2. [x_to_coord] returns a value of the kind of [xval] or raises: it
    never returns [None], the [NameError] of [wavelength_to_frequency] and
    the [TypeError] of a converter given [None] cannot happen in it, and it
    never raises [ValueError("Units not recognized.")]. *)
Theorem x_to_coord_returns_a_value (self : SpectroscopicAxis) (xval : value)
    (xunit : name) (verbose : bool) :
  match result (run (x_to_coord xval xunit verbose) self) with
  | Ret r => exists v, r = Normal (Some v) /\ same_kind xval v
  | Raise e => e <> ValueError "Units not recognized."
  end.
Proof. exact (post_x_to_coord xval xunit verbose self []). Qed.

(** X3. A unit that is not spelled as one of the keys of [unit_type_dict]
    raises [KeyError] in [coord_to_x] on every axis, and in [x_to_coord]
    unless it is a wavelength unit in some case. *)
Theorem unit_spelling_KeyError (self : SpectroscopicAxis) (xval : value)
    (u : string) (verbose : bool) :
  unit_type_dict_str !! u = None ->
  result (run (coord_to_x xval (Some u)) self) = Raise KeyError /\
  (length_dict !! lower u = None ->
   result (run (x_to_coord xval (Some u) verbose) self) = Raise KeyError).
Proof.
  intros Hu. split.
  - unfold run, coord_to_x, bind, get, unit_type_getitem.
    destruct (unit_type_dict (units self)); [|done].
    unfold unit_type_dict, ret. by rewrite Hu.
  - intros Hl. unfold run, x_to_coord, bind, get. rewrite ci_contains_Some.
    unfold wavelength_dict. rewrite bool_decide_eq_false_2 by (rewrite Hl; by intros [? ?]).
    unfold bind_checked, bind, ret, unit_type_getitem. cbn [fst snd].
    destruct (unit_type_dict (units self)); [|done].
    unfold unit_type_dict, ret. by rewrite Hu.
Qed.

Lemma unit_spelling_KeyError_witness :
  velocity_dict !! lower "KM/S" = Some 1e3%float /\
  result (run (coord_to_x (Scalar 6000) (Some "KM/S")) axis_GHz) = Raise KeyError /\
  result (run (x_to_coord (Scalar 6000) (Some "KM/S") false) axis_GHz) = Raise KeyError.
Proof.
  split; [by vm_compute|].
  destruct (unit_spelling_KeyError axis_GHz (Scalar 6000) "KM/S" false) as [H1 H2];
    [by vm_compute|].
  split; [exact H1|]. apply H2. by vm_compute.
Defined.

(** ** [convert_to_unit] and [coord_to_x] convert alike *)

Lemma kind_frequency k : unit_type_dict_str !! k = Some "frequency" ->
  is_Some (frequency_dict !! lower k) /\
  bool_decide (is_Some (velocity_dict !! lower k)) = false.
Proof.
  intros Hk.
  destruct (unit_type_dict_kind _ _ Hk) as [[_ H]|[[? _]|[? _]]]; [|done|done].
  split; [done|]. apply bool_decide_eq_false_2.
  destruct (tables_disjoint (lower k)) as (Hf & _). destruct (Hf H) as [-> _].
  by intros [? ?].
Qed.

Lemma kind_velocity k : unit_type_dict_str !! k = Some "velocity" ->
  is_Some (velocity_dict !! lower k) /\
  bool_decide (is_Some (frequency_dict !! lower k)) = false.
Proof.
  intros Hk.
  destruct (unit_type_dict_kind _ _ Hk) as [[? _]|[[_ H]|[? _]]]; [done| |done].
  split; [done|]. apply bool_decide_eq_false_2.
  destruct (tables_disjoint (lower k)) as (_ & Hv & _). destruct (Hv H) as [-> _].
  by intros [? ?].
Qed.

Lemma name_neb_refl (a : name) : name_neb a a = false.
Proof. unfold name_neb, name_eqb. by rewrite bool_decide_eq_true_2. Qed.

(** X4. On a frequency axis, [convert_to_unit] to a velocity unit and
    [coord_to_x] of the samples to that unit are one computation: when
    [coord_to_x] returns, it returns an array, and [convert_to_unit] returns
    with exactly these numbers as the samples and with the new unit; when
    [coord_to_x] raises, [convert_to_unit] raises the same exception and the
    axis is as it was. *)
Theorem convert_to_unit_is_coord_to_x_velocity (self : SpectroscopicAxis)
    (xt ku u : string) (frame' : name) (quiet : bool) :
  xtype self = Some xt ->
  conversion_dict !! lower xt = Some frequency_table ->
  units self = Some ku ->
  unit_type_dict_str !! ku = Some "frequency" ->
  unit_type_dict_str !! u = Some "velocity" ->
  let conv := run (convert_to_unit (Some u) frame' quiet None None) self in
  match result (run (coord_to_x (Array (data self)) (Some u)) self) with
  | Ret r => exists ys, r = Normal (Some (Array ys)) /\
                        result conv = Ret tt /\ data (final conv) = ys /\
                        units (final conv) = Some u
  | Raise e => result conv = Raise e /\ final conv = self
  end.
Proof.
  intros Hxt Ht Hunits Hku Hu.
  destruct (kind_frequency _ Hku) as [Hkf Hkv], (kind_velocity _ Hu) as [Huv Huf].
  cbv zeta.
  pose proof (post_frequency_to_velocity (Array (data self)) (Some ku) (reffreq self)
                (reffreq_units self) (Some u) (velocity_convention self) self [])
    as Hpost.
  pose proof (law_frequency_to_velocity eq (Array (data self)) (Some ku) (reffreq self)
                (reffreq_units self) (Some u) (velocity_convention self) self [])
    as [Hs _].
  unfold run, final, result in Hpost, Hs.
  unfold run, coord_to_x, convert_to_unit, convert_xtype, xtype_table, normally.
  unfold bind, get, unit_type_getitem, unit_type_dict, when.
  assert (Hne : bool_decide (Some "frequency" = Some "velocity" :> name) = false)
    by (by apply bool_decide_eq_false_2).
  unfold name_eqb.
  repeat (progress (cbn [fmap option_fmap option_map ret ci_getitem ci_contains
                         table_dict negb table_eqb];
                    rewrite ?Hunits, ?Hku, ?Hu, ?Hxt, ?Ht, ?Huf, ?Hkv, ?Hne,
                      ?(bool_decide_eq_true_2 _ Hkf), ?(bool_decide_eq_true_2 _ Huv))).
  destruct (frequency_to_velocity _ _ _ _ _ _ self []) as [[[r|e] s1] o1];
    cbn in Hs, Hpost.
  2:{ unfold result, final. cbn [fst snd]. by subst. }
  subst s1. destruct r as [[y|ys]|]; cbn in Hpost; [done| |].
  2:{ destruct Hpost as (k & [= <-] & H). by apply bool_decide_eq_false in Hkv. }
  unfold setitem_all, rescale, notice_frame, notice_already, recompute_dxarr.
  unfold bind, get, modify, when, print, ret, result, final. cbn [fst snd].
  rewrite Hpost, Nat.eqb_refl. cbn [units set_units set_dxarr set_xtype set_data].
  rewrite !name_neb_refl. cbn [negb andb].
  exists ys. split; [done|].
  destruct (name_neb frame' (frame self) && negb quiet), (negb quiet); done.
Qed.

Lemma convert_to_unit_is_coord_to_x_velocity_witness :
  match result (run (coord_to_x (Array (data axis_GHz)) (Some "km/s")) axis_GHz) with
  | Ret r =>
      exists ys, r = Normal (Some (Array ys)) /\
        result (run (convert_to_unit (Some "km/s") (Some "rest") false None None)
                  axis_GHz) = Ret tt /\
        data (final (run (convert_to_unit (Some "km/s") (Some "rest") false None None)
                       axis_GHz)) = ys /\
        units (final (run (convert_to_unit (Some "km/s") (Some "rest") false None None)
                        axis_GHz)) = Some "km/s"
  | Raise e =>
      result (run (convert_to_unit (Some "km/s") (Some "rest") false None None)
                axis_GHz) = Raise e /\
      final (run (convert_to_unit (Some "km/s") (Some "rest") false None None)
               axis_GHz) = axis_GHz
  end.
Proof.
  apply (convert_to_unit_is_coord_to_x_velocity axis_GHz "frequency" "GHz" "km/s"
           (Some "rest") false); by vm_compute.
Defined.

(** X5. On a velocity axis, [convert_to_unit] to a frequency unit and
    [coord_to_x] of the samples to that unit are one computation, in the
    same sense. *)
Theorem convert_to_unit_is_coord_to_x_frequency (self : SpectroscopicAxis)
    (xt ku u : string) (frame' : name) (quiet : bool) :
  xtype self = Some xt ->
  conversion_dict !! lower xt = Some velocity_table ->
  units self = Some ku ->
  unit_type_dict_str !! ku = Some "velocity" ->
  unit_type_dict_str !! u = Some "frequency" ->
  let conv := run (convert_to_unit (Some u) frame' quiet None None) self in
  match result (run (coord_to_x (Array (data self)) (Some u)) self) with
  | Ret r => exists ys, r = Normal (Some (Array ys)) /\
                        result conv = Ret tt /\ data (final conv) = ys /\
                        units (final conv) = Some u
  | Raise e => result conv = Raise e /\ final conv = self
  end.
Proof.
  intros Hxt Ht Hunits Hku Hu.
  destruct (kind_velocity _ Hku) as [Hkv Hkf], (kind_frequency _ Hu) as [Huf Huv].
  cbv zeta.
  pose proof (post_velocity_to_frequency (Array (data self)) (Some ku) (reffreq self)
                (reffreq_units self) (Some u) (velocity_convention self) self [])
    as Hpost.
  pose proof (law_velocity_to_frequency eq (Array (data self)) (Some ku) (reffreq self)
                (reffreq_units self) (Some u) (velocity_convention self) self [])
    as [Hs _].
  unfold run, final, result in Hpost, Hs.
  unfold run, coord_to_x, convert_to_unit, convert_xtype, xtype_table, normally.
  unfold bind, get, unit_type_getitem, unit_type_dict, when.
  assert (Hne : bool_decide (Some "velocity" = Some "frequency" :> name) = false)
    by (by apply bool_decide_eq_false_2).
  unfold name_eqb.
  repeat (progress (cbn [fmap option_fmap option_map ret ci_getitem ci_contains
                         table_dict negb table_eqb];
                    rewrite ?Hunits, ?Hku, ?Hu, ?Hxt, ?Ht, ?Huv, ?Hkf, ?Hne,
                      ?(bool_decide_eq_true_2 _ Hkv), ?(bool_decide_eq_true_2 _ Huf))).
  destruct (velocity_to_frequency _ _ _ _ _ _ self []) as [[[r|e] s1] o1];
    cbn in Hs, Hpost.
  2:{ unfold result, final. cbn [fst snd]. by subst. }
  subst s1. destruct r as [[y|ys]|]; cbn in Hpost; [done| |].
  2:{ destruct Hpost as (k & [= <-] & H). by apply bool_decide_eq_false in Hkf. }
  unfold setitem_all, rescale, notice_frame, notice_already, recompute_dxarr.
  unfold bind, get, modify, when, print, ret, result, final. cbn [fst snd].
  rewrite Hpost, Nat.eqb_refl. cbn [units set_units set_dxarr set_xtype set_data].
  rewrite !name_neb_refl. cbn [negb andb].
  exists ys. split; [done|].
  destruct (name_neb frame' (frame self) && negb quiet), (negb quiet); done.
Qed.

Lemma convert_to_unit_is_coord_to_x_frequency_witness :
  match result (run (coord_to_x (Array (data axis_ms)) (Some "GHz")) axis_ms) with
  | Ret r =>
      exists ys, r = Normal (Some (Array ys)) /\
        result (run (convert_to_unit (Some "GHz") (Some "rest") false None None)
                  axis_ms) = Ret tt /\
        data (final (run (convert_to_unit (Some "GHz") (Some "rest") false None None)
                       axis_ms)) = ys /\
        units (final (run (convert_to_unit (Some "GHz") (Some "rest") false None None)
                        axis_ms)) = Some "GHz"
  | Raise e =>
      result (run (convert_to_unit (Some "GHz") (Some "rest") false None None)
                axis_ms) = Raise e /\
      final (run (convert_to_unit (Some "GHz") (Some "rest") false None None)
               axis_ms) = axis_ms
  end.
Proof.
  apply (convert_to_unit_is_coord_to_x_frequency axis_ms "velocity" "m/s" "GHz"
           (Some "rest") false); by vm_compute.
Defined.

(** ** The wavelength converters *)

Lemma omap_total (f : float -> outcome float) (g : float -> float) xs :
  (forall x, f x = Ret (g x)) -> omap f xs = Ret (g <$> xs).
Proof.
  intros Hf. induction xs as [|x xs IH]; [done|]. cbn. by rewrite Hf, IH.
Qed.

Lemma bool_decide_is_Some_false {V} (d : gmap string V) k :
  d !! k = None -> bool_decide (is_Some (d !! k)) = false.
Proof. intros ->. apply bool_decide_eq_false_2. by intros [? ?]. Qed.

Lemma bool_decide_is_Some_true {V} (d : gmap string V) k v :
  d !! k = Some v -> bool_decide (is_Some (d !! k)) = true.
Proof. intros ->. by apply bool_decide_eq_true_2. Qed.

(** X6. On arrays the two wavelength converters cannot raise once the units
    are of the right kinds: every sample [x] becomes [c / (x * k) / t], with
    [k] and [t] the factors of the input and the target unit, a zero sample
    included (it becomes an infinity or a NaN); the length is kept and
    nothing is printed. *)
Theorem wavelength_converters_on_arrays {S} (s : S) (xs : list float)
    (iu tu : string) (k t : float) :
  (frequency_dict !! lower iu = Some k -> length_dict !! lower tu = Some t ->
   run (frequency_to_wavelength (Array xs) (Some iu) (Some tu)) s
   = (Ret (Some (Array ((fun x => speedoflight_ms / (x * k) / t)%float <$> xs))),
      s, [])) /\
  (length_dict !! lower iu = Some k -> frequency_dict !! lower tu = Some t ->
   run (wavelength_to_frequency (Array xs) (Some iu) (Some tu)) s
   = (Ret (Normal (Some
        (Array ((fun x => speedoflight_ms / (x * k) / t)%float <$> xs)))),
      s, [])).
Proof.
  split; intros Hk Ht.
  - assert (Hl : length_dict !! lower iu = None).
    { destruct (tables_disjoint (lower iu)) as (Hf & _). by destruct Hf. }
    unfold run, frequency_to_wavelength, wavelength_dict, bind.
    cbn [ci_contains ci_getitem ret].
    rewrite (bool_decide_is_Some_false _ _ Hl), (bool_decide_is_Some_true _ _ _ Ht),
      (bool_decide_is_Some_true _ _ _ Hk).
    cbn [negb]. rewrite Hk, Ht.
    cbn [ret vscale elementwise of_outcome obind].
    rewrite (omap_total _ (fun x => speedoflight_ms / x)%float) by done.
    cbn [ret vscale elementwise of_outcome obind].
    rewrite (omap_total _ (fun x => x / t)%float) by done.
    cbn [ret of_outcome obind]. by rewrite <- !list_fmap_compose.
  - assert (Hf : frequency_dict !! lower iu = None).
    { destruct (tables_disjoint (lower iu)) as (_ & _ & Hl). by destruct Hl. }
    unfold run, wavelength_to_frequency, bind.
    cbn [ci_contains ci_getitem ret].
    rewrite (bool_decide_is_Some_false _ _ Hf), (bool_decide_is_Some_true _ _ _ Ht),
      (bool_decide_is_Some_true _ _ _ Hk).
    cbn [negb]. rewrite Hk, Ht.
    cbn [ret vscale elementwise of_outcome obind].
    rewrite (omap_total _ (fun x => speedoflight_ms / x)%float) by done.
    cbn [ret vscale elementwise of_outcome obind].
    rewrite (omap_total _ (fun x => x / t)%float) by done.
    cbn [ret of_outcome obind]. by rewrite <- !list_fmap_compose.
Qed.

Lemma wavelength_converters_on_arrays_witness :
  run (frequency_to_wavelength (Array [0; 2.99792458e8]%float) (Some "Hz") (Some "m")) tt
  = (Ret (Some (Array [infinity; 1]%float)), tt, []) /\
  run (wavelength_to_frequency (Array [0; 2.99792458e8]%float) (Some "m") (Some "Hz")) tt
  = (Ret (Normal (Some (Array [infinity; 1]%float))), tt, []).
Proof.
  destruct (wavelength_converters_on_arrays tt [0; 2.99792458e8]%float "Hz" "m" 1 1)
    as [H1 _].
  destruct (wavelength_converters_on_arrays tt [0; 2.99792458e8]%float "m" "Hz" 1 1)
    as [_ H2].
  split; [apply H1 | apply H2]; by vm_compute.
Defined.

(** X7. On a Python scalar the same division raises: a value [x] whose
    product with the factor of its unit is zero (a zero of either sign, or a
    product that underflows) makes both wavelength converters raise
    [ZeroDivisionError], where an array gets an infinity. *)
Theorem wavelength_converters_zero_scalar {S} (s : S) (x : float) (iu tu : string)
    (k : float) :
  (x * k =? 0)%float = true ->
  (frequency_dict !! lower iu = Some k -> is_Some (length_dict !! lower tu) ->
   run (frequency_to_wavelength (Scalar x) (Some iu) (Some tu)) s
   = (Raise ZeroDivisionError, s, [])) /\
  (length_dict !! lower iu = Some k -> is_Some (frequency_dict !! lower tu) ->
   run (wavelength_to_frequency (Scalar x) (Some iu) (Some tu)) s
   = (Raise ZeroDivisionError, s, [])).
Proof.
  intros Hx. split; intros Hk [t Ht].
  - assert (Hl : length_dict !! lower iu = None).
    { destruct (tables_disjoint (lower iu)) as (Hf & _). by destruct Hf. }
    unfold run, frequency_to_wavelength, wavelength_dict, bind.
    cbn [ci_contains ci_getitem ret].
    rewrite (bool_decide_is_Some_false _ _ Hl), (bool_decide_is_Some_true _ _ _ Ht),
      (bool_decide_is_Some_true _ _ _ Hk).
    cbn [negb]. rewrite Hk.
    cbn [ret vscale elementwise of_outcome obind fdiv]. by rewrite Hx.
  - assert (Hf : frequency_dict !! lower iu = None).
    { destruct (tables_disjoint (lower iu)) as (_ & _ & Hl). by destruct Hl. }
    unfold run, wavelength_to_frequency, bind.
    cbn [ci_contains ci_getitem ret].
    rewrite (bool_decide_is_Some_false _ _ Hf), (bool_decide_is_Some_true _ _ _ Ht),
      (bool_decide_is_Some_true _ _ _ Hk).
    cbn [negb]. rewrite Hk.
    cbn [ret vscale elementwise of_outcome obind fdiv]. by rewrite Hx.
Qed.

Lemma wavelength_converters_zero_scalar_witness :
  run (frequency_to_wavelength (Scalar 0) (Some "GHz") (Some "um")) tt
  = (Raise ZeroDivisionError, tt, []) /\
  run (wavelength_to_frequency (Scalar (-0)) (Some "um") (Some "GHz")) tt
  = (Raise ZeroDivisionError, tt, []).
Proof.
  destruct (wavelength_converters_zero_scalar tt 0%float "GHz" "um" 1e9%float)
    as [H1 _]; [by vm_compute|].
  destruct (wavelength_converters_zero_scalar tt (-0)%float "um" "GHz" 1e-6%float)
    as [_ H2]; [by vm_compute|].
  split; [apply H1 | apply H2]; first [by vm_compute | by apply (bool_decide_unpack _); vm_compute].
Defined.

(** X8. A target unit of the wrong kind is reported in two ways:
    [frequency_to_wavelength] raises the [ValueError] it was written to raise,
    [wavelength_to_frequency] raises [NameError], because its message is
    formatted with [wavelength_units], a name the function does not have.
    In both, this test comes before the test of the input units, whose
    [AttributeError] it hides. *)
Theorem wavelength_converters_bad_target {S} (s : S) (v : value) (iu tu : string) :
  (length_dict !! lower iu = None -> length_dict !! lower tu = None ->
   run (frequency_to_wavelength v (Some iu) (Some tu)) s
   = (Raise (ValueError ("Wavelength units " +:+ tu +:+ " not valid")), s, [])) /\
  (frequency_dict !! lower iu = None -> frequency_dict !! lower tu = None ->
   run (wavelength_to_frequency v (Some iu) (Some tu)) s
   = (Ret (Other NameError), s, [])).
Proof.
  split; intros Hi Ht.
  - unfold run, frequency_to_wavelength, wavelength_dict, bind.
    cbn [ci_contains ret].
    by rewrite (bool_decide_is_Some_false _ _ Hi), (bool_decide_is_Some_false _ _ Ht).
  - unfold run, wavelength_to_frequency, bind.
    cbn [ci_contains ret].
    by rewrite (bool_decide_is_Some_false _ _ Hi), (bool_decide_is_Some_false _ _ Ht).
Qed.

Lemma wavelength_converters_bad_target_witness :
  run (frequency_to_wavelength (Scalar 1) (Some "GHz") (Some "parsec")) tt
  = (Raise (ValueError "Wavelength units parsec not valid"), tt, []) /\
  run (wavelength_to_frequency (Scalar 1) (Some "um") (Some "parsec")) tt
  = (Ret (Other NameError), tt, []).
Proof.
  destruct (wavelength_converters_bad_target tt (Scalar 1) "GHz" "parsec") as [H1 _].
  destruct (wavelength_converters_bad_target tt (Scalar 1) "um" "parsec") as [_ H2].
  split; [apply H1 | apply H2]; by vm_compute.
Defined.

(** ** [convert_to_unit] as a whole *)

Lemma rescale_returns u change_units quiet s out s' o :
  rescale u change_units quiet s out = (Ret tt, s', o) ->
  units s' = u \/ (s' = s /\ change_units = false).
Proof.
  unfold rescale. unfold bind at 1, get at 1.
  destruct (name_neb u (units s)) eqn:Hne; cbn [andb].
  - destruct change_units; [|intros [= <- _]; by right].
    intros H.
    do 6 (pure_bind H s as [?|?]; [|discriminate H]).
    unfold bind, modify, recompute_dxarr in H. injection H as <- _. by left.
  - intros [= <- _]. left.
    unfold name_neb, name_eqb in Hne. apply negb_false_iff in Hne.
    by apply bool_decide_eq_true in Hne.
Qed.

(** X9. A call of [convert_to_unit] that raises leaves the axis exactly as it
    was, samples, units, xtype and cached differences included; what it
    printed before raising stays printed. *)
Theorem convert_to_unit_failure_keeps_axis (self : SpectroscopicAxis)
    (unit' frame' : name) (quiet : bool) (center_frequency : option float)
    (center_frequency_units : name) (e : exn) :
  result (run (convert_to_unit unit' frame' quiet center_frequency
                 center_frequency_units) self) = Raise e ->
  final (run (convert_to_unit unit' frame' quiet center_frequency
                center_frequency_units) self) = self.
Proof.
  unfold run, result, final.
  destruct (convert_to_unit _ _ _ _ _ self []) as [[res s'] o] eqn:H.
  cbn. intros ->. by apply convert_to_unit_atomic in H.
Qed.

Lemma convert_to_unit_failure_keeps_axis_witness :
  result (run (convert_to_unit (Some "um") (Some "rest") false None None) axis_GHz)
    = Raise KeyError /\
  stdout (run (convert_to_unit (Some "um") (Some "rest") false None None) axis_GHz)
    = ["Could not convert from GHz to um"] /\
  final (run (convert_to_unit (Some "um") (Some "rest") false None None) axis_GHz)
    = axis_GHz.
Proof.
  split; [by vm_compute|]. split; [by vm_compute|].
  apply (convert_to_unit_failure_keeps_axis axis_GHz (Some "um") (Some "rest") false
           None None KeyError).
  by vm_compute.
Defined.

(** X10. When [convert_to_unit] returns, the axis has the unit that was asked
    for, whichever of its branches were taken. *)
Theorem convert_to_unit_sets_units (self : SpectroscopicAxis)
    (unit' frame' : name) (quiet : bool) (center_frequency : option float)
    (center_frequency_units : name) :
  result (run (convert_to_unit unit' frame' quiet center_frequency
                 center_frequency_units) self) = Ret tt ->
  units (final (run (convert_to_unit unit' frame' quiet center_frequency
                       center_frequency_units) self)) = unit'.
Proof.
  unfold run, result, final.
  destruct (convert_to_unit _ _ _ _ _ self []) as [[res s'] o] eqn:H.
  cbn. intros ->.
  unfold convert_to_unit in H. unfold bind at 1, get at 1 in H.
  pure_bind H self as [t|]; [|discriminate H].
  pure_bind H self as [known|]; [|discriminate H].
  unfold bind at 1 in H.
  match type of H with context [when (negb known) ?m self ?o1] =>
    destruct (when (negb known) m self o1) as [[[[]|e1] s1] o1'] eqn:Hx
  end; [|discriminate H].
  unfold bind at 1 in H.
  match type of H with context [rescale unit' ?cu quiet s1 o1'] =>
    destruct (rescale unit' cu quiet s1 o1') as [[[[]|e2] s2] o2] eqn:Hr
  end; [|discriminate H].
  match type of H with
    context [bind (notice_frame _ ?chf _) (fun _ => notice_already ?a ?b _ _)] =>
      destruct (notices_return frame' a b chf quiet s2 o2) as [out' Hn]
  end.
  rewrite Hn in H. injection H as <- _.
  apply rescale_returns in Hr as [Hu|[-> Hcu]]; [done|].
  destruct known; cbn [negb when] in Hx, Hcu; [|discriminate Hcu].
  injection Hx as <- _.
  unfold name_neb, name_eqb in Hcu. apply negb_false_iff in Hcu.
  by apply bool_decide_eq_true in Hcu.
Qed.

Lemma convert_to_unit_sets_units_witness :
  units (final (run (convert_to_unit (Some "M/S") (Some "rest") false None None)
                  axis_kms)) = Some "M/S".
Proof.
  apply (convert_to_unit_sets_units axis_kms (Some "M/S") (Some "rest") false None None).
  by vm_compute.
Defined.

(** X11. Whatever it is asked and whether it returns or raises,
    [convert_to_unit] keeps the number of samples, the reference frequency
    and its unit, the redshift and the velocity convention of the axis: a
    converter that returns a scalar, an array of one element or [None] is
    broadcast over the samples, and an array of another length is refused. *)
Theorem convert_to_unit_keeps_shape (self : SpectroscopicAxis)
    (unit' frame' : name) (quiet : bool) (center_frequency : option float)
    (center_frequency_units : name) :
  same_shape self
    (final (run (convert_to_unit unit' frame' quiet center_frequency
                   center_frequency_units) self)).
Proof. apply (law_final same_shape), law_convert_to_unit. Qed.

(** X12. After [convert_to_unit], returned or raised, the axis is unchanged or
    its cached differences [dxarr] are those of its new samples: the cache is
    never left behind the samples. *)
Theorem convert_to_unit_refreshes_dxarr (self : SpectroscopicAxis)
    (unit' frame' : name) (quiet : bool) (center_frequency : option float)
    (center_frequency_units : name) :
  let after := final (run (convert_to_unit unit' frame' quiet center_frequency
                             center_frequency_units) self) in
  after = self \/ dxarr after = Some (diff (data after)).
Proof.
  cbv zeta. unfold run, final.
  destruct (convert_to_unit _ _ _ _ _ self []) as [[res s'] o] eqn:H.
  cbn. by apply convert_to_unit_dxarr in H.
Qed.

(** ** Edges of [cdelt] *)

(** A quotient by a zero is an infinity or a NaN, and is below nothing when
    its numerator is an absolute value. *)
Lemma abs_div_zero_ltb (x lo tol : float) :
  (lo =? 0)%float = true ->
  (PrimFloat.abs x / PrimFloat.abs lo <? tol)%float = false.
Proof.
  rewrite FloatAxioms.eqb_spec, FloatAxioms.ltb_spec, FloatAxioms.div_spec,
    !FloatAxioms.abs_spec.
  intros Hlo.
  assert (Hz : exists s, Prim2SF lo = S754_zero s).
  { change (Prim2SF 0) with (S754_zero false) in Hlo.
    destruct (Prim2SF lo) as [s|s| |s m e]; cbn in Hlo; try discriminate; eauto;
      by destruct s. }
  destruct Hz as [s ->].
  destruct (Prim2SF x) as [sx|sx| |sx m e]; cbn; try done;
    by destruct (Prim2SF tol) as [[]|[]| |[] ? ?].
Qed.

(** X13. On an axis with fewer than two samples [cdelt] raises the
    [ValueError] of numpy's reduction of an empty array, whatever the
    tolerance. *)
Theorem cdelt_needs_two_samples (self : SpectroscopicAxis) (tolerance : float) :
  dxarr_valid self ->
  (length (data self) <= 1)%nat ->
  exists msg, result (run (cdelt tolerance) self) = Raise (ValueError msg).
Proof.
  intros Hdx Hlen.
  assert (Hd : diff (data self) = []).
  { apply length_zero_iff_nil. rewrite diff_length. lia. }
  unfold run, result, cdelt, bind, get, recompute_dxarr, modify, ret.
  unfold default, from_option, id.
  destruct Hdx as [Hdx|Hdx]; rewrite Hdx; cbn [dxarr set_dxarr];
    rewrite ?Hdx, Hd; cbn; eauto.
Qed.

Lemma cdelt_needs_two_samples_witness :
  exists msg,
    result (run (cdelt 1e-8)
              {| data := [1]%float; units := Some "km/s"; frame := Some "rest";
                 xtype := Some "velocity"; reffreq := None;
                 reffreq_units := Some "Hz"; redshift := None;
                 velocity_convention := Some "radio"; dxarr := Some [] |})
    = Raise (ValueError msg).
Proof.
  apply cdelt_needs_two_samples; [by right | cbn; lia].
Defined.

(** X14. When the smallest difference between neighbouring samples is zero
    (two equal neighbours on a rising axis, or a constant axis) [cdelt]
    returns [None] for every tolerance: the test divides by that zero. *)
Theorem cdelt_zero_spacing (self : SpectroscopicAxis) (tolerance lo : float) :
  dxarr_valid self ->
  reduce np_minimum (diff (data self)) = Ret lo ->
  (lo =? 0)%float = true ->
  result (run (cdelt tolerance) self) = Ret None.
Proof.
  intros Hdx Hlo Hz.
  assert (Hrun : exists s',
            match dxarr self with
            | None => recompute_dxarr
            | Some _ => ret tt
            end self [] = (Ret tt, s', []) /\
            dxarr s' = Some (diff (data self))).
  { destruct Hdx as [Hdx|Hdx]; rewrite Hdx; cbn;
      eexists; split; reflexivity || exact Hdx. }
  destruct Hrun as (s' & Hrun & Hs').
  unfold run, result, cdelt. unfold bind at 1, get at 1.
  unfold bind at 1. rewrite Hrun.
  unfold bind at 1, get at 1. rewrite Hs'.
  unfold default, from_option, id.
  destruct (diff (data self)) as [|a rest]; [discriminate Hlo|].
  cbn [reduce] in Hlo. injection Hlo as Hlo.
  unfold bind, ret. cbn [reduce of_outcome]. unfold ret. rewrite Hlo.
  by rewrite (abs_div_zero_ltb _ _ _ Hz).
Qed.

Lemma cdelt_zero_spacing_witness :
  result (run (cdelt infinity)
            {| data := [5; 5; 5]%float; units := Some "km/s"; frame := Some "rest";
               xtype := Some "velocity"; reffreq := None;
               reffreq_units := Some "Hz"; redshift := None;
               velocity_convention := Some "radio"; dxarr := Some [0; 0]%float |})
  = Ret None.
Proof.
  apply (cdelt_zero_spacing _ infinity 0%float); [by right | by vm_compute | by vm_compute].
Defined.

(** ** The header *)

(** [cdelt] on an axis whose cache is up to date: the axis and the output
    stay as they are. *)
Lemma cdelt_run (self : SpectroscopicAxis) (tolerance : float) out :
  dxarr self = Some (diff (data self)) ->
  (2 <= length (data self))%nat ->
  cdelt tolerance self out
  = (Ret (if spacing_is_uniform (diff (data self)) tolerance
          then Some (mean (diff (data self))) else None), self, out).
Proof.
  intros Hdx Hlen.
  unfold cdelt. unfold bind at 1, get at 1. rewrite Hdx.
  unfold bind at 1. cbn [ret]. unfold bind at 1, get at 1. rewrite Hdx.
  unfold spacing_is_uniform.
  pose proof (diff_length (data self)) as Hd.
  destruct (diff (data self)) as [|a rest] eqn:Ed; [cbn in Hd; lia|].
  set (dx := a :: rest).
  pose proof (IEEE.extrema_nonneg dx (fold_left np_maximum rest a)
                (fold_left np_minimum rest a) eq_refl eq_refl) as Hnn.
  unfold default, from_option, id, bind, ret. subst dx.
  cbn [reduce of_outcome]. unfold ret.
  rewrite (IEEE.abs_div_ltb _ _ _ Hnn).
  by destruct (_ <? tolerance)%float.
Qed.


(** The run of [_make_header] on an axis of two samples or more whose
    [xtype], [frame] and convention are keys of the FITS tables. *)
Lemma make_header_run (self : SpectroscopicAxis) w (tolerance : float)
    (xt ft f ff ss ctype : string) :
  xtype self = Some xt -> fits_type !! xt = Some ft ->
  frame self = Some f -> fits_frame !! f = Some ff -> fits_specsys !! f = Some ss ->
  (if bool_decide (ft = "VELO") && bool_decide (velocity_convention self <> None)
   then exists c suffix, velocity_convention self = Some c /\
                         convention_suffix !! c = Some suffix /\
                         ctype = "V" +:+ suffix
   else ctype = ft) ->
  (2 <= length (data self))%nat ->
  let dx := diff (data self) in
  let h := <["REFFREQ" := header_of_float (reffreq self)]>
             (<["SPECSYS" := HStr ss]>
                (<["CTYPE1" := HStr (ctype +:+ ff)]>
                   (<["CUNIT1" := header_of_name (units self)]> (default ∅ w)))) in
  run (_make_header tolerance) {| axis_of := self; wcshead := w |}
  = if spacing_is_uniform dx tolerance
    then (Ret true,
          {| axis_of := set_dxarr (Some dx) self;
             wcshead := Some (<["CRPIX1" := HFloat 1]>
                                (<["CRVAL1" := HFloat (default 0%float (head (data self)))]>
                                   (<["CDELT1" := HFloat (mean dx)]> h))) |}, [])
    else (Ret false,
          {| axis_of := set_dxarr (Some dx) self;
             wcshead := Some (<["CRVAL1" := HNone]>
                                (<["CRPIX1" := HNone]>
                                   (<["CDELT1" := HNone]> h))) |}, []).
Proof.
  intros Hxt Hft Hf Hff Hss Hctype Hlen. cbv zeta.
  unfold run, _make_header.
  unfold bind at 1, on_axis at 1, recompute_dxarr at 1, modify at 1.
  cbn [axis_of wcshead].
  unfold bind at 1, modify at 1. cbn [axis_of wcshead].
  set (w0 := default ∅ w).
  assert (Hw : match w with
               | Some _ => {| axis_of := set_dxarr (Some (diff (data self))) self;
                              wcshead := w |}
               | None => {| axis_of := set_dxarr (Some (diff (data self))) self;
                            wcshead := Some ∅ |}
               end
               = {| axis_of := set_dxarr (Some (diff (data self))) self;
                    wcshead := Some w0 |}) by (by destruct w).
  rewrite Hw. clear Hw.
  unfold bind at 1, on_axis at 1, get at 1. cbn [axis_of wcshead].
  unfold bind at 1, wcshead_setitem at 1, modify at 1. cbn [axis_of wcshead default].
  cbn [xtype frame units velocity_convention reffreq set_dxarr].
  rewrite Hxt, Hf. unfold dict_getitem at 1. rewrite Hft. unfold bind at 1, ret at 1.
  unfold bind at 1.
  assert (Hc : (if bool_decide (ft = "VELO") &&
                   bool_decide (velocity_convention self <> None)
                then bind (dict_getitem convention_suffix (velocity_convention self))
                       (fun suffix => ret ("V" +:+ suffix))
                else dict_getitem fits_type (Some xt))
               = (ret ctype : M HeaderAxis string)).
  { destruct (bool_decide (ft = "VELO") && bool_decide (velocity_convention self <> None)).
    - destruct Hctype as (c & suffix & -> & Hs & ->).
      unfold dict_getitem, bind. by rewrite Hs.
    - subst ctype. unfold dict_getitem. by rewrite Hft. }
  rewrite Hc. clear Hc. cbn [ret].
  unfold bind at 1, dict_getitem at 1. rewrite Hff. cbn [ret].
  unfold bind at 1, wcshead_setitem at 1, modify at 1. cbn [axis_of wcshead default].
  unfold bind at 1, dict_getitem at 1. rewrite Hss. cbn [ret].
  unfold bind at 1, wcshead_setitem at 1, modify at 1. cbn [axis_of wcshead default].
  unfold bind at 1, wcshead_setitem at 1, modify at 1. cbn [axis_of wcshead default].
  unfold bind at 1, on_axis at 1. cbn [axis_of wcshead].
  rewrite cdelt_run by done. cbn [data set_dxarr].
  destruct (spacing_is_uniform (diff (data self)) tolerance).
  - unfold first_sample, wcshead_setitem, on_axis, modify, bind, get, ret.
    cbn [axis_of wcshead default from_option data set_dxarr]. unfold id.
    destruct (data self) as [|x0 rest]; [cbn in Hlen; lia|]. reflexivity.
  - unfold bind, wcshead_setitem, modify, ret.
    cbn [axis_of wcshead default from_option]. reflexivity.
Qed.



(** X16. [_make_header] is not atomic: on an axis whose frame is no key of
    [fits_frame] ([None], or ['LSRD'], which [frame_dict] and [fits_specsys]
    know) it raises [KeyError] after it has recomputed [dxarr], created the
    header if there was none, and stored [CUNIT1]; the other keys are as they
    were. *)
Theorem make_header_KeyError_partial (self : SpectroscopicAxis)
    (w : option (gmap string header_value)) (tolerance : float) (xt ft : string) :
  xtype self = Some xt -> fits_type !! xt = Some ft ->
  (ft = "VELO" ->
   forall c, velocity_convention self = Some c -> is_Some (convention_suffix !! c)) ->
  (forall f, frame self = Some f -> fits_frame !! f = None) ->
  run (_make_header tolerance) {| axis_of := self; wcshead := w |}
  = (Raise KeyError,
     {| axis_of := set_dxarr (Some (diff (data self))) self;
        wcshead := Some (<["CUNIT1" := header_of_name (units self)]> (default ∅ w)) |},
     []).
Proof.
  intros Hxt Hft Hconv Hframe.
  unfold run, _make_header.
  unfold bind at 1, on_axis at 1, recompute_dxarr at 1, modify at 1.
  cbn [axis_of wcshead].
  unfold bind at 1, modify at 1. cbn [axis_of wcshead].
  set (w0 := default ∅ w).
  assert (Hw : match w with
               | Some _ => {| axis_of := set_dxarr (Some (diff (data self))) self;
                              wcshead := w |}
               | None => {| axis_of := set_dxarr (Some (diff (data self))) self;
                            wcshead := Some ∅ |}
               end
               = {| axis_of := set_dxarr (Some (diff (data self))) self;
                    wcshead := Some w0 |}) by (by destruct w).
  rewrite Hw. clear Hw.
  unfold bind at 1, on_axis at 1, get at 1. cbn [axis_of wcshead].
  unfold bind at 1, wcshead_setitem at 1, modify at 1. cbn [axis_of wcshead default].
  cbn [xtype frame units velocity_convention reffreq set_dxarr].
  rewrite Hxt. unfold dict_getitem at 1. rewrite Hft. unfold bind at 1, ret at 1.
  unfold bind at 1.
  assert (Hc : exists ctype,
            (if bool_decide (ft = "VELO") &&
                bool_decide (velocity_convention self <> None)
             then bind (dict_getitem convention_suffix (velocity_convention self))
                    (fun suffix => ret ("V" +:+ suffix))
             else dict_getitem fits_type (Some xt))
            = (ret ctype : M HeaderAxis string)).
  { case_bool_decide as Hv; cbn [andb].
    - case_bool_decide as Hn.
      + destruct (velocity_convention self) as [c|] eqn:Hcv; [|done].
        destruct (Hconv Hv c eq_refl) as [suffix Hs].
        eexists. unfold dict_getitem, bind. by rewrite Hs.
      + eexists. unfold dict_getitem. by rewrite Hft.
    - eexists. unfold dict_getitem. by rewrite Hft. }
  destruct Hc as [ctype ->]. cbn [ret].
  unfold bind at 1, dict_getitem at 1. unfold id.
  destruct (frame self) as [f|]; [|done]. by rewrite (Hframe f eq_refl).
Qed.

Lemma make_header_KeyError_partial_witness :
  fits_specsys !! "LSRD" = Some "LSRD" /\
  run (_make_header 1e-8) {| axis_of := axis_LSRD; wcshead := None |}
  = (Raise KeyError,
     {| axis_of := set_dxarr (Some (diff (data axis_LSRD))) axis_LSRD;
        wcshead := Some (<["CUNIT1" := header_of_name (units axis_LSRD)]>
                           (default ∅ None)) |},
     []).
Proof.
  split; [by vm_compute|].
  apply (make_header_KeyError_partial axis_LSRD None 1e-8 "velocity" "VELO");
    try by vm_compute.
  - intros _ c [= <-]. by apply (bool_decide_unpack _); vm_compute.
  - intros f [= <-]. by vm_compute.
Defined.

(** Every key of [xtype_dict] leads to keys of the FITS tables. *)
Lemma xtype_dict_fits (k t : string) :
  xtype_dict !! k = Some t ->
  exists f ft ff ss,
    frame_dict !! k = Some f /\ fits_type !! t = Some ft /\
    fits_frame !! f = Some ff /\ fits_specsys !! f = Some ss.
Proof.
  assert (H : map_Forall
                (fun k t => Is_true
                   match frame_dict !! k with
                   | Some f =>
                       bool_decide (is_Some (fits_type !! t)) &&
                       bool_decide (is_Some (fits_frame !! f)) &&
                       bool_decide (is_Some (fits_specsys !! f))
                   | None => false
                   end) xtype_dict)
    by (apply (bool_decide_unpack _); vm_compute; exact I).
  intros Hk. specialize (H k t Hk). cbv beta in H.
  destruct (frame_dict !! k) as [f|]; [|done].
  apply andb_prop_elim in H as [H H3]. apply andb_prop_elim in H as [H1 H2].
  apply bool_decide_unpack in H1 as [ft ?], H2 as [ff ?], H3 as [ss ?].
  by exists f, ft, ff, ss.
Qed.

Lemma SpectroscopicAxis_new_known_xtype {S} (s : S) xarr (u k t f : string) frame'
    reffreq' redshift' reffreq_units' :
  xtype_dict !! k = Some t -> frame_dict !! k = Some f ->
  exists ru,
    run (SpectroscopicAxis_new xarr (Some u) frame' (PyStr k) reffreq' redshift'
           reffreq_units') s
    = (Ret {| data := xarr; units := Some u; frame := Some f; xtype := Some t;
              reffreq := reffreq'; reffreq_units := ru; redshift := redshift';
              velocity_convention := Some "radio"; dxarr := Some (diff xarr) |},
       s, []).
Proof.
  intros Hk Hf. unfold run, SpectroscopicAxis_new. rewrite Hk, Hf.
  unfold bind at 1. cbn [ret fst snd].
  rewrite (xtype_dict_convention k t Hk).
  destruct reffreq_units' as [ru|].
  - eexists. reflexivity.
  - unfold bind. rewrite ci_contains_Some.
    destruct (bool_decide (is_Some (frequency_dict !! lower u))); eexists; reflexivity.
Qed.

(** X17. An axis built by [__new__] with an [xtype] that is a key of
    [xtype_dict], and with two samples or more, always gets a header:
    [_make_header] returns, leaves the axis as [__new__] built it, and stores
    under [CTYPE1] the FITS type of the axis followed by the FITS name of its
    frame, where the type of every velocity axis is ["VRAD"], whichever of
    ['VLSR'], ['VRAD'], ['VOPT'], ... was given. *)
Theorem make_header_of_new_axis {S} (s : S) (xarr : list float) (u k t : string)
    (frame' : name) (reffreq' redshift' : option float) (reffreq_units' : name)
    (w : option (gmap string header_value)) (tolerance : float) :
  xtype_dict !! k = Some t ->
  (2 <= length xarr)%nat ->
  exists ax f ft ff,
    result (run (SpectroscopicAxis_new xarr (Some u) frame' (PyStr k) reffreq'
                   redshift' reffreq_units') s) = Ret ax /\
    frame ax = Some f /\ fits_type !! t = Some ft /\ fits_frame !! f = Some ff /\
    let r := run (_make_header tolerance) {| axis_of := ax; wcshead := w |} in
    (exists b, result r = Ret b) /\
    axis_of (final r) = ax /\
    default ∅ (wcshead (final r)) !! "CTYPE1"
      = Some (HStr ((if bool_decide (ft = "VELO") then "VRAD" else ft) +:+ ff)).
Proof.
  intros Hk Hlen.
  destruct (xtype_dict_fits k t Hk) as (f & ft & ff & ss & Hf & Hft & Hff & Hss).
  destruct (SpectroscopicAxis_new_known_xtype s xarr u k t f frame' reffreq' redshift'
              reffreq_units' Hk Hf) as [ru Hnew].
  eexists _, f, ft, ff. rewrite Hnew. split; [reflexivity|].
  split; [reflexivity|]. split; [done|]. split; [done|].
  cbv zeta.
  set (ax := {| data := xarr |}).
  rewrite (make_header_run ax w tolerance t ft f ff ss
             (if bool_decide (ft = "VELO") then "VRAD" else ft)); try done.
  - destruct (spacing_is_uniform (diff (data ax)) tolerance);
      unfold result, final; cbn [fst snd axis_of wcshead default from_option];
      unfold id; (split; [by eexists|]); (split; [done|]); by simplify_map_eq.
  - cbn [velocity_convention ax]. case_bool_decide; cbn [andb].
    + rewrite bool_decide_eq_true_2 by done.
      exists "radio", "RAD". split; [done|]. split; [by vm_compute|done].
    + done.
Qed.

Lemma make_header_of_new_axis_witness :
  exists ax f ft ff,
    result (run (SpectroscopicAxis_new [0; 1; 2]%float (Some "km/s") (Some "rest")
                   (PyStr "VOPT") None None None) tt) = Ret ax /\
    frame ax = Some f /\ fits_type !! "velocity" = Some ft /\
    fits_frame !! f = Some ff /\
    let r := run (_make_header 1e-8) {| axis_of := ax; wcshead := Some ∅ |} in
    (exists b, result r = Ret b) /\
    axis_of (final r) = ax /\
    default ∅ (wcshead (final r)) !! "CTYPE1"
      = Some (HStr ((if bool_decide (ft = "VELO") then "VRAD" else ft) +:+ ff)).
Proof.
  apply (make_header_of_new_axis tt [0; 1; 2]%float "km/s" "VOPT" "velocity");
    [by vm_compute | cbn; lia].
Defined.
